(** * Batch conversion pipeline of the Bangalore SUMO digital twin

    A shallow embedding of [process_downloaded_areas.py] (the per-area
    pipeline, the aggregation of the results and the final report), of the
    files written by [quick_report_generator.py], and of the scripts
    [traffic_generator.py] and [sumo_network.py].

    Conventions of the embedding.
    - Python [int] is [Z]; [str] is [string] (the UTF-8 bytes of the text).
    - The dictionaries of the script have a fixed set of keys and are
      records; the module-level list [results] and [start_time] live in
      the program state.
    - The outside world (file system, environment variables, external
      tools, wall clock) is explicit state: a function is a computation
      [M A] that takes a [World] and gives back a value or a raised
      exception together with the new [World].
    - Every exception of the model is an instance of Python's [Exception],
      so [except Exception] and a bare [except] both catch it.
    - The calls of [subprocess.run] and [open] are recorded in a trace.
    - Console output ([print]) carries no data back to the program, but a
      [print] raises when the stream refuses its text.  Each function is
      first given without its [print] calls: that is the function on a
      standard output that takes every text.  The functions of
      [process_downloaded_areas.py], [traffic_generator.py] and
      [sumo_network.py] are then given again with every [print] call, the
      console being a parameter (modules [ProcessAreasIO],
      [TrafficGeneratorIO], [SumoNetworkIO]); the two versions are proved
      to agree on a console that takes every text. *)

From Stdlib Require Import ZArith String Ascii List Lia.
From stdpp Require Import base option list strings gmap pretty.

Local Open Scope string_scope.
Local Open Scope list_scope.
Local Open Scope Z_scope.

(** ** Text helpers *)

(** The line feed written as [\n] in the source. *)
Definition LF : string := String (ascii_of_nat 10) EmptyString.

(** [s * n] on strings. *)
Fixpoint str_repeat (s : string) (n : nat) : string :=
  match n with
  | O => ""
  | S k => s +:+ str_repeat s k
  end.

(** [str(n)] for an [int]. *)
Definition str_int (n : Z) : string := pretty n.

(** [%0wd] for a non-negative [int]. *)
Definition zpad (w : nat) (n : Z) : string :=
  let s := str_int n in
  str_repeat "0" (w - String.length s)%nat +:+ s.

(** [str.lower], on the ASCII letters. *)
Definition ascii_lower (c : ascii) : ascii :=
  let n := nat_of_ascii c in
  if ((65 <=? n) && (n <=? 90))%nat then ascii_of_nat (n + 32) else c.

Fixpoint lower (s : string) : string :=
  match s with
  | EmptyString => EmptyString
  | String c s' => String (ascii_lower c) (lower s')
  end.

(** [s.count(sub)] for a non-empty [sub]: the occurrences of [sub] in [s]
    that do not overlap, scanning from the left.  [skip] is the number of
    characters still covered by the occurrence found last. *)
Fixpoint count_from (sub : string) (skip : nat) (s : string) : Z :=
  match s with
  | EmptyString => 0
  | String _ s' =>
      match skip with
      | S k => count_from sub k s'
      | O =>
          if String.prefix sub s
          then 1 + count_from sub (String.length sub - 1)%nat s'
          else count_from sub 0 s'
      end
  end.

Definition str_count (s sub : string) : Z := count_from sub 0 s.

(** [str.join] *)
Fixpoint str_join (sep : string) (l : list string) : string :=
  match l with
  | [] => ""
  | [x] => x
  | x :: l' => x +:+ sep +:+ str_join sep l'
  end.

(** [os.path.join] of POSIX. *)
Definition ends_with_slash (s : string) : bool :=
  match String.get (String.length s - 1)%nat s with
  | Some c => bool_decide (c = "/"%char)
  | None => false
  end.

Definition path_join2 (path b : string) : string :=
  if String.prefix "/" b then b
  else if (bool_decide (path = "") || ends_with_slash path)%bool then path +:+ b
  else path +:+ "/" +:+ b.

Definition path_join (a : string) (p : list string) : string :=
  fold_left path_join2 p a.

(** Truth value of an optional file name, as tested by [if not x]: [None]
    and the empty string are false. *)
Definition truthy (x : option string) : bool :=
  match x with
  | None => false
  | Some s => negb (bool_decide (s = ""))
  end.

(** ** Dates and durations ([datetime], [timedelta]) *)

Record datetime := mk_datetime {
  year : Z; month : Z; day : Z;
  hour : Z; minute : Z; second : Z; microsecond : Z
}.

(** A normalised [timedelta]. *)
Record timedelta := mk_timedelta {
  td_days : Z; td_seconds : Z; td_microseconds : Z
}.

Definition is_leap (y : Z) : bool :=
  (y mod 4 =? 0) && (negb (y mod 100 =? 0) || (y mod 400 =? 0)).

Definition days_before_year (y : Z) : Z :=
  let y := y - 1 in y * 365 + y / 4 - y / 100 + y / 400.

Definition DAYS_BEFORE_MONTH : list Z :=
  [-1; 0; 31; 59; 90; 120; 151; 181; 212; 243; 273; 304; 334].

Definition days_before_month (y m : Z) : Z :=
  nth (Z.to_nat m) DAYS_BEFORE_MONTH 0
  + (if (2 <? m) && is_leap y then 1 else 0).

Definition toordinal (d : datetime) : Z :=
  days_before_year (year d) + days_before_month (year d) (month d) + day d.

(** [timedelta(days, seconds, microseconds)]: the three fields are carried
    into each other so that [0 <= seconds < 86400] and
    [0 <= microseconds < 1000000]. *)
Definition make_timedelta (days seconds microseconds : Z) : timedelta :=
  let us := (days * 86400 + seconds) * 1000000 + microseconds in
  let s := us / 1000000 in
  {| td_days := s / 86400;
     td_seconds := s mod 86400;
     td_microseconds := us mod 1000000 |}.

(** [a - b] on two naive datetimes. *)
Definition datetime_sub (a b : datetime) : timedelta :=
  let secs (d : datetime) := second d + minute d * 60 + hour d * 3600 in
  make_timedelta (toordinal a - toordinal b) (secs a - secs b)
                 (microsecond a - microsecond b).

(** [str(td)] *)
Definition str_timedelta (td : timedelta) : string :=
  let mm := td_seconds td / 60 in
  let ss := td_seconds td mod 60 in
  let hh := mm / 60 in
  let mm := mm mod 60 in
  let s := str_int hh +:+ ":" +:+ zpad 2 mm +:+ ":" +:+ zpad 2 ss in
  let s :=
    if td_days td =? 0 then s
    else str_int (td_days td) +:+ " day"
         +:+ (if Z.abs (td_days td) =? 1 then "" else "s") +:+ ", " +:+ s in
  if td_microseconds td =? 0 then s
  else s +:+ "." +:+ zpad 6 (td_microseconds td).

(** [d.strftime('%Y-%m-%d %H:%M:%S')], for a year of four digits. *)
Definition strftime (d : datetime) : string :=
  zpad 4 (year d) +:+ "-" +:+ zpad 2 (month d) +:+ "-" +:+ zpad 2 (day d)
  +:+ " " +:+ zpad 2 (hour d) +:+ ":" +:+ zpad 2 (minute d)
  +:+ ":" +:+ zpad 2 (second d).


(** ** The world outside the program *)

(** The exceptions that reach the program; all derive from [Exception]. *)
Inductive exn :=
| FileNotFoundError
| PermissionError
| TimeoutExpired
| OtherException (msg : string).

Inductive outcome (A : Type) :=
| Return (a : A)
| Raise (e : exn).
Arguments Return {A} a.
Arguments Raise {A} e.

(** An entry of the file system.  A directory, or a text file that cannot
    be decoded, is an entry that is not readable. *)
Record file := mk_file {
  readable : bool;
  writable : bool;
  content : string
}.

(** The working directory: its entries by name, and whether a new entry can
    be created in it. *)
Record FS := mk_FS {
  entries : gmap string file;
  can_create : bool
}.

(** The object returned by [subprocess.run(..., capture_output=True,
    text=True)]. *)
Record CompletedProcess := mk_CompletedProcess {
  returncode : Z;
  stdout : string;
  stderr : string
}.

(** The record of one area: the dictionary built by [process_area]. *)
Record AreaResult := mk_AreaResult {
  name : string;
  status : string;
  junctions : Z;
  edges : Z;
  vehicles : Z
}.

Definition set_junctions (r : AreaResult) (j : Z) : AreaResult :=
  mk_AreaResult (name r) (status r) j (edges r) (vehicles r).
Definition set_edges (r : AreaResult) (e : Z) : AreaResult :=
  mk_AreaResult (name r) (status r) (junctions r) e (vehicles r).
Definition set_status (r : AreaResult) (s : string) : AreaResult :=
  mk_AreaResult (name r) s (junctions r) (edges r) (vehicles r).

(** What the program did to the outside, in order. *)
Inductive event :=
| Run (cmd : list string)
| OpenRead (path : string)
| OpenWrite (path : string).

(** The state threaded through the program.
    - [exec cmd timeout fs] is what the external command does when started
      on the file system [fs]: it completes with an exit code or
      [subprocess.run] raises (the executable is not found, the time budget
      is exceeded), and it leaves a file system behind.
    - [clock n] is the reading of the [n]-th call of [datetime.now()].
    - [results] and [start_time] are the two module-level variables. *)
Record World := mk_World {
  fs : FS;
  environ : gmap string string;
  exec : list string -> Z -> FS -> outcome CompletedProcess * FS;
  clock : nat -> datetime;
  ticks : nat;
  trace : list event;
  results : list AreaResult;
  start_time : datetime
}.

Definition set_fs (w : World) (f : FS) : World :=
  mk_World f (environ w) (exec w) (clock w) (ticks w) (trace w)
           (results w) (start_time w).
Definition set_ticks (w : World) (n : nat) : World :=
  mk_World (fs w) (environ w) (exec w) (clock w) n (trace w)
           (results w) (start_time w).
Definition log (w : World) (e : event) : World :=
  mk_World (fs w) (environ w) (exec w) (clock w) (ticks w) (trace w ++ [e])
           (results w) (start_time w).
Definition set_results (w : World) (rs : list AreaResult) : World :=
  mk_World (fs w) (environ w) (exec w) (clock w) (ticks w) (trace w)
           rs (start_time w).

(** ** Computations: state and exceptions *)

Definition M (A : Type) : Type := World -> outcome A * World.

#[export] Instance M_ret : MRet M := fun A a w => (Return a, w).

#[export] Instance M_bind : MBind M := fun A B f c w =>
  match c w with
  | (Return a, w') => f a w'
  | (Raise e, w') => (Raise e, w')
  end.

Definition raise {A} (e : exn) : M A := fun w => (Raise e, w).

(** [try: body  except Exception as e: handler e] *)
Definition try_except {A} (body : M A) (handler : exn -> M A) : M A :=
  fun w =>
    match body w with
    | (Return a, w') => (Return a, w')
    | (Raise e, w') => handler e w'
    end.

(** Reading a component of the state. *)
Definition gets {A} (f : World -> A) : M A :=
  fun w => (Return (f w), w).

(** [os.path.exists(path)] *)
Definition exists_in (f : FS) (path : string) : bool :=
  bool_decide (is_Some (entries f !! path)).

Definition path_exists (path : string) : M bool :=
  fun w => (Return (exists_in (fs w) path), w).

(** [os.environ.get(key, default)] *)
Definition environ_get (key dflt : string) : M string :=
  fun w => (Return (default dflt (environ w !! key)), w).

(** [subprocess.run(cmd, capture_output=True, text=True, timeout=t)] *)
Definition subprocess_run (cmd : list string) (timeout : Z)
  : M CompletedProcess :=
  fun w =>
    let '(o, fs') := exec w cmd timeout (fs w) in
    (o, set_fs (log w (Run cmd)) fs').

(** [open(path, 'r')] and [f.read()] succeed. *)
Definition can_read (f : FS) (path : string) : bool :=
  match entries f !! path with
  | Some x => readable x
  | None => false
  end.

(** [with open(path, 'r') as f: f.read()] *)
Definition read_file (path : string) : M string :=
  fun w =>
    let w' := log w (OpenRead path) in
    match entries (fs w) !! path with
    | None => (Raise FileNotFoundError, w')
    | Some f =>
        if readable f then (Return (content f), w')
        else (Raise PermissionError, w')
    end.

(** [open(path, 'w')] succeeds: an existing entry must be writable, a new
    one needs a directory that accepts it. *)
Definition can_open_w (f : FS) (path : string) : bool :=
  match entries f !! path with
  | Some x => writable x
  | None => can_create f
  end.

(** The file system once [text] has been written to [path]. *)
Definition put (f : FS) (path text : string) : FS :=
  let r := match entries f !! path with
           | Some x => readable x
           | None => true
           end in
  mk_FS (<[path := mk_file r true text]> (entries f)) (can_create f).

(** [with open(path, 'w') as f: body], where [body] gives back the
    arguments of its [f.write] calls.  The text reaches the file when the
    block is left; what a block that raises leaves in the file is not
    modelled (the blocks of the scripts do not raise). *)
Definition with_open_w (path : string) (body : M (list string)) : M unit :=
  fun w =>
    let w1 := log w (OpenWrite path) in
    if can_open_w (fs w) path then
      match body w1 with
      | (Return chunks, w2) =>
          (Return tt, set_fs w2 (put (fs w2) path (String.concat "" chunks)))
      | (Raise e, w2) => (Raise e, w2)
      end
    else (Raise PermissionError, w1).

(** [datetime.now()] *)
Definition now : M datetime :=
  fun w => (Return (clock w (ticks w)), set_ticks w (S (ticks w))).

(** ** The script [process_downloaded_areas.py] *)

(** An entry of [AREAS]; its key [name] is [area_name] here, [name] being
    taken by the records of results. *)
Record Area := mk_Area {
  area_name : string;
  osm_file : string
}.

Definition AREAS : list Area :=
  [ mk_Area "Indiranagar" "indiranagar.osm";
    mk_Area "Whitefield" "whitefield.osm";
    mk_Area "Koramangala" "koramangala.osm";
    mk_Area "MG_Road" "mg_road.osm";
    mk_Area "Jayanagar" "jayanagar.osm";
    mk_Area "Hebbal" "hebbal.osm";
    mk_Area "Yeshwanthpur" "yeshwanthpur.osm" ].

(** The double quote inside [trip_attributes]. *)
Definition DQ : string := String (ascii_of_nat 34) EmptyString.

Module TRAFFIC_CONFIG.
Definition begin_ : Z := 0.
Definition end_ : Z := 1000.
Definition vehicles : Z := 100.
Definition period : Z := 10.
Definition trip_attributes : string :=
  "departLane=" +:+ DQ +:+ "best" +:+ DQ
  +:+ " departSpeed=" +:+ DQ +:+ "max" +:+ DQ.
Definition vehicle_class : string := "passenger".
Definition fringe_factor : Z := 10.
End TRAFFIC_CONFIG.

(** The three command lines, as the lists [cmd] of the source. *)
Definition netconvert_cmd (osm_file net_file : string) : list string :=
  [ "netconvert";
    "--osm-files"; osm_file;
    "--output-file"; net_file;
    "--geometry.remove";
    "--ramps.guess";
    "--junctions.join";
    "--tls.guess-signals";
    "--tls.discard-simple";
    "--tls.join";
    "--remove-edges.isolated";
    "--keep-edges.by-vclass"; "passenger" ].

Definition randomtrips_cmd (randomtrips net_file trips_file : string)
  : list string :=
  [ "python3"; randomtrips;
    "-n"; net_file;
    "-o"; trips_file;
    "-b"; str_int TRAFFIC_CONFIG.begin_;
    "-e"; str_int TRAFFIC_CONFIG.end_;
    "-p"; str_int TRAFFIC_CONFIG.period;
    "--fringe-factor"; str_int TRAFFIC_CONFIG.fringe_factor;
    "--trip-attributes"; TRAFFIC_CONFIG.trip_attributes;
    "--vehicle-class"; TRAFFIC_CONFIG.vehicle_class ].

Definition duarouter_cmd (net_file trips_file route_file : string)
  : list string :=
  [ "duarouter";
    "-n"; net_file;
    "-t"; trips_file;
    "-o"; route_file;
    "--ignore-errors";
    "--no-warnings" ].

(** [convert_to_sumo(osm_file, area_name)]: the name of the network file,
    or [None]. *)
Definition convert_to_sumo (osm_file area_name : string)
  : M (option string) :=
  let net_file := lower area_name +:+ ".net.xml" in
  try_except
    (let cmd := netconvert_cmd osm_file net_file in
     result ← subprocess_run cmd 300;
     present ← (if returncode result =? 0 then path_exists net_file
                else (mret false : M bool));
     if (present : bool) then mret (Some net_file) else mret None)
    (fun e => mret None).

(** [generate_traffic(net_file, area_name)]: the name of the route file,
    or [None]. *)
Definition generate_traffic (net_file area_name : string)
  : M (option string) :=
  let trips_file := lower area_name +:+ ".trips.xml" in
  let route_file := lower area_name +:+ ".rou.xml" in
  try_except
    (sumo_home ← environ_get "SUMO_HOME" "/usr/local/share/sumo";
     let randomtrips := path_join sumo_home ["tools"; "randomTrips.py"] in
     let cmd := randomtrips_cmd randomtrips net_file trips_file in
     result ← subprocess_run cmd 120;
     if negb (returncode result =? 0) then mret None
     else
       let cmd := duarouter_cmd net_file trips_file route_file in
       result ← subprocess_run cmd 120;
       present ← (if returncode result =? 0 then path_exists route_file
                  else (mret false : M bool));
       if (present : bool) then mret (Some route_file) else mret None)
    (fun e => mret None).

(** [s] between double quotes. *)
Definition quoted (s : string) : string := DQ +:+ s +:+ DQ.

(** The four [f.write] calls that make the additional file. *)
Definition additional_writes : list string :=
  [ "<?xml version=" +:+ quoted "1.0" +:+ " encoding=" +:+ quoted "UTF-8"
      +:+ "?>" +:+ LF;
    "<additional xmlns:xsi="
      +:+ quoted "http://www.w3.org/2001/XMLSchema-instance" +:+ " ";
    "xsi:noNamespaceSchemaLocation="
      +:+ quoted "http://sumo.dlr.de/xsd/additional_file.xsd" +:+ ">" +:+ LF;
    "</additional>" +:+ LF ].

(** The text [config] of the configuration file. *)
Definition config_text (net_file route_file add_file : string) : string :=
  "<?xml version=" +:+ quoted "1.0" +:+ " encoding=" +:+ quoted "UTF-8"
    +:+ "?>" +:+ LF
  +:+ "<configuration xmlns:xsi="
    +:+ quoted "http://www.w3.org/2001/XMLSchema-instance"
    +:+ " xsi:noNamespaceSchemaLocation="
    +:+ quoted "http://sumo.dlr.de/xsd/sumoConfiguration.xsd" +:+ ">" +:+ LF
  +:+ "    <input>" +:+ LF
  +:+ "        <net-file value=" +:+ quoted net_file +:+ "/>" +:+ LF
  +:+ "        <route-files value=" +:+ quoted route_file +:+ "/>" +:+ LF
  +:+ "        <additional-files value=" +:+ quoted add_file +:+ "/>" +:+ LF
  +:+ "    </input>" +:+ LF
  +:+ "    <time>" +:+ LF
  +:+ "        <begin value=" +:+ quoted (str_int TRAFFIC_CONFIG.begin_)
    +:+ "/>" +:+ LF
  +:+ "        <end value=" +:+ quoted (str_int TRAFFIC_CONFIG.end_)
    +:+ "/>" +:+ LF
  +:+ "    </time>" +:+ LF
  +:+ "    <processing>" +:+ LF
  +:+ "        <time-to-teleport value=" +:+ quoted "300" +:+ "/>" +:+ LF
  +:+ "    </processing>" +:+ LF
  +:+ "</configuration>" +:+ LF.

(** [create_config(net_file, route_file, area_name)]: the name of the
    configuration file, or [None]. *)
Definition create_config (net_file route_file area_name : string)
  : M (option string) :=
  let config_file := lower area_name +:+ ".sumocfg" in
  let add_file := lower area_name +:+ ".add.xml" in
  try_except
    (_ ← with_open_w add_file (mret additional_writes);
     let config := config_text net_file route_file add_file in
     _ ← with_open_w config_file (mret [config]);
     mret (Some config_file))
    (fun e => mret None).

(** [get_network_stats(net_file)]: the numbers of junction and edge
    markers in the text of the network file. *)
Definition get_network_stats (net_file : string) : M (Z * Z) :=
  try_except
    (content ← read_file net_file;
     let junctions := str_count content "<junction" in
     let edges := str_count content "<edge" in
     mret (junctions, edges))
    (fun e => mret (0, 0)).

(** [not x] for a value that is [None] or a string. *)
Definition is_falsy (x : option string) : bool :=
  negb (truthy x).

(** [process_area(area)], without its [print] calls (with them:
    [ProcessAreasIO.process_area]).  The dictionary [area_result] is
    updated in place in the source; the handler of the [try] block returns
    it as it is when the exception arrives, hence one handler for each of
    its two states. *)
Definition process_area (area : Area) : M AreaResult :=
  let area_result := mk_AreaResult (area_name area) "Failed" 0 0 100 in
  found ← path_exists (osm_file area);
  if negb found then mret area_result
  else
    try_except
      (net ← convert_to_sumo (osm_file area) (area_name area);
       match net with
       | Some net_file =>
           if is_falsy net then mret area_result
           else
             stats ← get_network_stats net_file;
             let area_result := set_junctions area_result (fst stats) in
             let area_result := set_edges area_result (snd stats) in
             try_except
               (route ← generate_traffic net_file (area_name area);
                match route with
                | Some route_file =>
                    if is_falsy route then mret area_result
                    else
                      config ← create_config net_file route_file
                                             (area_name area);
                      if is_falsy config then mret area_result
                      else mret (set_status area_result "Success")
                | None => mret area_result
                end)
               (fun e => mret area_result)
       | None => mret area_result
       end)
      (fun e => mret area_result).

(** *** The final report *)

Definition success (result : AreaResult) : bool :=
  bool_decide (status result = "Success").

(** The local variables of the loop of [generate_final_report], with the
    arguments of the [f.write] calls made so far. *)
Record report_acc := mk_report_acc {
  successful : Z;
  total_junctions : Z;
  total_edges : Z;
  written : list string
}.

(** One round of [for i, result in enumerate(results, 2)]. *)
Definition report_area (acc : report_acc) (i : Z) (result : AreaResult)
  : report_acc :=
  let head :=
    [ str_int i +:+ ". " +:+ name result +:+ LF;
      "   Status: " +:+ status result +:+ LF ] in
  if success result then
    mk_report_acc
      (successful acc + 1)
      (total_junctions acc + junctions result)
      (total_edges acc + edges result)
      (written acc ++ head ++
       [ "   Junctions: " +:+ str_int (junctions result) +:+ LF;
         "   Road Segments: " +:+ str_int (edges result) +:+ LF;
         "   Vehicles: " +:+ str_int (vehicles result) +:+ LF;
         "   Config: " +:+ lower (name result) +:+ ".sumocfg" +:+ LF;
         LF ])
  else
    mk_report_acc (successful acc) (total_junctions acc) (total_edges acc)
                  (written acc ++ head ++ [ LF ]).

Fixpoint report_areas (acc : report_acc) (i : Z) (rs : list AreaResult)
  : report_acc :=
  match rs with
  | [] => acc
  | result :: rs' => report_areas (report_area acc i result) (i + 1) rs'
  end.

(** The second loop: one line for each successful area. *)
Definition how_to_run (rs : list AreaResult) : list string :=
  map (fun result =>
         name result +:+ ": sumo-gui -c " +:+ lower (name result)
         +:+ ".sumocfg" +:+ LF)
      (filter (fun result => success result = true) rs).

Definition BAR80 : string := str_repeat "=" 80.

(** The state of the loop when it starts: nothing counted yet beside
    Electronic City, and the lines written before the loop.  [completion]
    and [current] are the two readings of the clock. *)
Definition report_start (start completion current : datetime) : report_acc :=
  mk_report_acc 0 94 198
    [ BAR80 +:+ LF;
      "DIGITAL TWIN IMPLEMENTATION - FINAL REPORT" +:+ LF;
      "ALL 8 BANGALORE AREAS COMPLETED" +:+ LF;
      BAR80 +:+ LF +:+ LF;
      "Completion Date: " +:+ strftime completion +:+ LF;
      "Processing Time: " +:+ str_timedelta (datetime_sub current start)
        +:+ LF +:+ LF;
      BAR80 +:+ LF;
      "COMPLETED AREAS" +:+ LF;
      BAR80 +:+ LF +:+ LF;
      "1. Electronic City" +:+ LF;
      "   Status: Completed ✓" +:+ LF;
      "   Junctions: 94" +:+ LF;
      "   Road Segments: 198" +:+ LF;
      "   Vehicles: 100" +:+ LF;
      "   Config: electronic_city.sumocfg" +:+ LF +:+ LF ].

(** What is written after the first loop. *)
Definition report_end (acc : report_acc) (rs : list AreaResult)
  : list string :=
  [ BAR80 +:+ LF;
    "OVERALL STATISTICS" +:+ LF;
    BAR80 +:+ LF +:+ LF;
    "Total Areas Completed: " +:+ str_int (successful acc + 1) +:+ "/8" +:+ LF;
    "Total Junctions: " +:+ str_int (total_junctions acc) +:+ LF;
    "Total Road Segments: " +:+ str_int (total_edges acc) +:+ LF;
    "Total Vehicles: " +:+ str_int ((successful acc + 1) * 100) +:+ LF +:+ LF;
    BAR80 +:+ LF;
    "HOW TO RUN SIMULATIONS" +:+ LF;
    BAR80 +:+ LF +:+ LF;
    "Electronic City: sumo-gui -c electronic_city.sumocfg" +:+ LF ]
  ++ how_to_run rs ++
  [ LF +:+ BAR80 +:+ LF;
    "PROJECT COMPLETE! 🎉" +:+ LF;
    BAR80 +:+ LF ].

(** All the [f.write] calls of [generate_final_report], in order. *)
Definition final_report_writes (rs : list AreaResult)
    (start completion current : datetime) : list string :=
  let acc := report_areas (report_start start completion current) 2 rs in
  written acc ++ report_end acc rs.

(** [generate_final_report()]: reads the module-level [results] and
    [start_time], and the clock twice. *)
Definition generate_final_report : M string :=
  let report_file := "ALL_AREAS_COMPLETE_REPORT.txt" in
  _ ← with_open_w report_file
        (completion ← now;
         current ← now;
         rs ← gets results;
         start ← gets start_time;
         mret (final_report_writes rs start completion current));
  mret report_file.

(** The four figures of the section OVERALL STATISTICS, as the report
    prints them: areas completed, junctions, road segments, vehicles. *)
Record totals := mk_totals {
  areasCompleted : Z;
  totalJunctions : Z;
  totalEdges : Z;
  totalVehicles : Z
}.

Definition totals_of (acc : report_acc) : totals :=
  mk_totals (successful acc + 1) (total_junctions acc) (total_edges acc)
            ((successful acc + 1) * 100).

Definition report_totals (rs : list AreaResult) : totals :=
  totals_of (report_areas (mk_report_acc 0 94 198 []) 2 rs).

(** *** The batch command *)

(** [results.append(result)] *)
Definition results_append (result : AreaResult) : M unit :=
  fun w => (Return tt, set_results w (results w ++ [result])).

(** [for i, area in enumerate(AREAS, 1)] of [main]. *)
Fixpoint process_all (areas : list Area) : M unit :=
  match areas with
  | [] => mret tt
  | area :: rest =>
      result ← process_area area;
      _ ← results_append result;
      process_all rest
  end.

(** [main()]; the last reading of the clock is the one printed as the
    total time. *)
Definition main : M Z :=
  _ ← process_all AREAS;
  report ← generate_final_report;
  rs ← gets results;
  let successful :=
    Z.of_nat (length (filter (fun r => success r = true) rs)) in
  _ ← now;
  mret (if successful =? 7 then 0 else 1).

(** The statements run when the module is loaded. *)
Definition module_init : M unit :=
  fun w =>
    (Return tt,
     mk_World (fs w) (environ w) (exec w) (clock w) (S (ticks w)) (trace w)
              [] (clock w (ticks w))).


(** *** The steps of a run, read off the trace *)

(** The steps of the area pipeline, by the names of the design. *)
Inductive Stage :=
| SourceCheck
| Convert
| Measure
| SynthesizeTrips
| ComputeRoutes
| AssembleConfig.

(** The step an event belongs to: a tool by the first word of its command
    line, the reading of a file by [get_network_stats], the writing of a
    file by [create_config]. *)
Definition stage_of (e : event) : option Stage :=
  match e with
  | Run cmd =>
      match head cmd with
      | Some "netconvert" => Some Convert
      | Some "python3" => Some SynthesizeTrips
      | Some "duarouter" => Some ComputeRoutes
      | _ => None
      end
  | OpenRead _ => Some Measure
  | OpenWrite _ => Some AssembleConfig
  end.

Definition stages_run (w : World) : list Stage := omap stage_of (trace w).

(** The result of a computation that returned. *)
Definition returned {A} (r : outcome A * World) : option A :=
  match r with
  | (Return a, _) => Some a
  | (Raise _, _) => None
  end.

(** ** The script [quick_report_generator.py]: the detailed report *)

Module QuickReport.

(** A [float] of the script.  Every such number of the script has one
    decimal and is kept as its number of tenths; [str_float] is [str] on
    them and [format_1f] is the format [.1f], which print the same digits
    as Python does for the sums of the script. *)
Definition float := Z.

Definition str_float (x : float) : string :=
  str_int (x / 10) +:+ "." +:+ str_int (x mod 10).

Definition format_1f (x : float) : string := str_float x.

Record area := mk_area {
  name : string;
  roads : list string;
  estimated_junctions : Z;
  estimated_edges : Z;
  area_km2 : float
}.

Definition AREAS : list area :=
  [ mk_area "Indiranagar" ["100 Feet Road"; "CMH Road"] 85 180 18;
    mk_area "Whitefield" ["Marathahalli Bridge"; "ITPL Main Road"] 92 195 20;
    mk_area "Koramangala" ["Sony World Junction"; "Sarjapur Road"] 88 185 19;
    mk_area "MG Road" ["Trinity Circle"; "Anil Kumble Circle"] 76 165 15;
    mk_area "Jayanagar" ["Jayanagar 4th Block"; "South End Circle"] 82 175 17;
    mk_area "Hebbal" ["Hebbal Flyover"; "Ballari Road"] 95 200 21;
    mk_area "Yeshwanthpur" ["Yeshwanthpur Circle"; "Tumkur Road"] 78 170 16 ].

Record electronic_city := mk_electronic_city {
  ec_name : string;
  ec_junctions : Z;
  ec_edges : Z;
  ec_area_km2 : float;
  ec_vehicles : Z;
  ec_status : string
}.

Definition ELECTRONIC_CITY : electronic_city :=
  mk_electronic_city "Electronic City" 94 198 15 100 "Completed ✓".

(** [sum(...)] over a list of numbers. *)
Definition sum (l : list Z) : Z := fold_left Z.add l 0.

(** [enumerate(l, start)] *)
Fixpoint enumerate {A} (start : Z) (l : list A) : list (Z * A) :=
  match l with
  | [] => []
  | x :: l' => (start, x) :: enumerate (start + 1) l'
  end.

Definition total_junctions : Z :=
  ec_junctions ELECTRONIC_CITY + sum (map estimated_junctions AREAS).
Definition total_edges : Z :=
  ec_edges ELECTRONIC_CITY + sum (map estimated_edges AREAS).
Definition total_area : float :=
  ec_area_km2 ELECTRONIC_CITY + sum (map area_km2 AREAS).

(** The rounds of the two loops over [AREAS]. *)
Definition phase2_area (i : Z) (area : area) : list string :=
  [ LF +:+ str_int i +:+ ". " +:+ name area +:+ LF;
    "   Key Locations: " +:+ str_join ", " (roads area) +:+ LF;
    "   Estimated Coverage: " +:+ str_float (area_km2 area) +:+ " km²" +:+ LF;
    "   Projected Network: ~" +:+ str_int (estimated_junctions area) +:+ " junctions, ~" +:+ str_int (estimated_edges area) +:+ " segments" +:+ LF;
    "   Vehicles: 100" +:+ LF;
    "   Status: Framework Ready - Pending OSM Data Download" +:+ LF ].

Definition dataset_area (area : area) : string :=
  "  ✓ " +:+ name area +:+ ": " +:+ str_join ", " (roads area) +:+ LF.

(** All the [f.write] calls of [generate_detailed_report], in order;
    [generated] is the reading of the clock. *)
Definition detailed_report_writes (generated : datetime) : list string :=
  [ BAR80 +:+ LF;
    "DIGITAL TWIN IMPLEMENTATION REPORT" +:+ LF;
    "Traffic Simulation for Bangalore Key Areas" +:+ LF;
    BAR80 +:+ LF +:+ LF;
    "Report Generated: " +:+ strftime generated +:+ LF;
    "Project: SUMO-based Traffic Digital Twin Development" +:+ LF;
    "Areas Covered: 8 Major Bangalore Locations" +:+ LF +:+ LF;
    BAR80 +:+ LF;
    "EXECUTIVE SUMMARY" +:+ LF;
    BAR80 +:+ LF +:+ LF;
    "Total Geographic Coverage: ~" +:+ format_1f total_area +:+ " km²" +:+ LF;
    "Total Junctions Modeled: " +:+ str_int total_junctions +:+ LF;
    "Total Road Segments: " +:+ str_int total_edges +:+ LF;
    "Vehicles per Simulation: 100 per area" +:+ LF;
    "Total Vehicle Capacity: 800 vehicles (across all areas)" +:+ LF +:+ LF;
    BAR80 +:+ LF;
    "IMPLEMENTATION STATUS" +:+ LF;
    BAR80 +:+ LF +:+ LF;
    "PHASE 1 - COMPLETED (Proof of Concept):" +:+ LF;
    str_repeat "-" 80 +:+ LF;
    "✓ " +:+ ec_name ELECTRONIC_CITY +:+ LF;
    "  - Area Coverage: " +:+ str_float (ec_area_km2 ELECTRONIC_CITY) +:+ " km²" +:+ LF;
    "  - Network: " +:+ str_int (ec_junctions ELECTRONIC_CITY) +:+ " junctions, " +:+ str_int (ec_edges ELECTRONIC_CITY) +:+ " road segments" +:+ LF;
    "  - Vehicles: " +:+ str_int (ec_vehicles ELECTRONIC_CITY) +:+ LF;
    "  - Status: Fully Operational ✓" +:+ LF;
    "  - Simulation: Running successfully with real-time visualization" +:+ LF +:+ LF;
    "PHASE 2 - READY FOR IMPLEMENTATION (Scaling to Other Areas):" +:+ LF;
    str_repeat "-" 80 +:+ LF ]
  ++ concat (map (fun p => phase2_area (fst p) (snd p)) (enumerate 1 AREAS))
  ++ [ LF +:+ LF;
    BAR80 +:+ LF;
    "TECHNICAL SPECIFICATIONS" +:+ LF;
    BAR80 +:+ LF +:+ LF;
    "Software Stack:" +:+ LF;
    "  - SUMO (Simulation of Urban Mobility) v1.24.0" +:+ LF;
    "  - OSMnx (OpenStreetMap Network Extraction) v2.x" +:+ LF;
    "  - Python 3.9" +:+ LF;
    "  - OpenStreetMap Data (Real-world road networks)" +:+ LF +:+ LF;
    "Digital Twin Capabilities:" +:+ LF;
    "  ✓ Real-time traffic flow simulation" +:+ LF;
    "  ✓ Vehicle route optimization" +:+ LF;
    "  ✓ Congestion pattern analysis" +:+ LF;
    "  ✓ Traffic signal timing evaluation" +:+ LF;
    "  ✓ Road capacity utilization tracking" +:+ LF;
    "  ✓ Environmental impact assessment" +:+ LF;
    "  ✓ Visual 3D/2D representation" +:+ LF +:+ LF;
    "Simulation Parameters:" +:+ LF;
    "  - Vehicles per area: 100" +:+ LF;
    "  - Simulation duration: 1000 seconds (~16 minutes)" +:+ LF;
    "  - Vehicle insertion: Dynamic (every 10 seconds)" +:+ LF;
    "  - Vehicle class: Passenger cars" +:+ LF;
    "  - Route calculation: Dynamic shortest path" +:+ LF +:+ LF;
    BAR80 +:+ LF;
    "COMPUTATIONAL REQUIREMENTS (Answer to Boss's Question)" +:+ LF;
    BAR80 +:+ LF +:+ LF;
    "Hardware Requirements:" +:+ LF;
    "  - CPU: Standard laptop (Intel i5/M1 or better) ✓" +:+ LF;
    "  - RAM: 8GB (sufficient for current implementation) ✓" +:+ LF;
    "  - Storage: ~100MB per area = ~800MB total ✓" +:+ LF;
    "  - GPU: Not required ✓" +:+ LF +:+ LF;
    "Processing Time Per Area (with 100 vehicles):" +:+ LF;
    "  - Network download: 5-15 minutes (depends on OSM API availability)" +:+ LF;
    "  - Network conversion: 30 seconds" +:+ LF;
    "  - Traffic generation: 10 seconds" +:+ LF;
    "  - Simulation run (GUI): 2-3 minutes" +:+ LF;
    "  - Simulation run (no GUI): 30 seconds" +:+ LF;
    "  ► Total per area: ~15-20 minutes" +:+ LF +:+ LF;
    "Total Implementation Time:" +:+ LF;
    "  - For 7 remaining areas: ~2-3 hours (sequential)" +:+ LF;
    "  - With automation: ~1.5-2 hours" +:+ LF;
    "  - With cloud parallelization: ~30-40 minutes" +:+ LF +:+ LF;
    "Scalability:" +:+ LF;
    "  - Current setup: Laptop sufficient for 8 areas ✓" +:+ LF;
    "  - For 20+ areas: Consider cloud deployment (AWS/GCP)" +:+ LF;
    "  - For 1000+ vehicles per area: 16GB RAM recommended" +:+ LF;
    "  - For city-wide (100+ areas): Cluster computing needed" +:+ LF +:+ LF;
    BAR80 +:+ LF;
    "VEHICLE COUNT EXPLANATION (100 vs 1800)" +:+ LF;
    BAR80 +:+ LF +:+ LF;
    "Initial Implementation (Electronic City):" +:+ LF;
    "  - Used: 1800 vehicles" +:+ LF;
    "  - Duration: 3600 seconds (1 hour)" +:+ LF;
    "  - Insertion rate: Every 2 seconds" +:+ LF;
    "  - Calculation: 3600 ÷ 2 = 1800 vehicles" +:+ LF +:+ LF;
    "Updated Implementation (Per Boss's Requirement):" +:+ LF;
    "  - Using: 100 vehicles per area" +:+ LF;
    "  - Duration: 1000 seconds (~16 minutes)" +:+ LF;
    "  - Insertion rate: Every 10 seconds" +:+ LF;
    "  - Calculation: 1000 ÷ 10 = 100 vehicles" +:+ LF;
    "  - Rationale: Faster processing, easier analysis, manageable dataset size" +:+ LF +:+ LF;
    BAR80 +:+ LF;
    "DATASET INTEGRATION" +:+ LF;
    BAR80 +:+ LF +:+ LF;
    "Excel Dataset Coverage:" +:+ LF ]
  ++ map dataset_area AREAS
  ++ [ LF +:+ "Data Points Available per Area (from Excel):" +:+ LF;
    "  - Traffic Volume" +:+ LF;
    "  - Average Speed" +:+ LF;
    "  - Travel Time Index" +:+ LF;
    "  - Congestion Level" +:+ LF;
    "  - Road Capacity Utilization" +:+ LF;
    "  - Incident Reports" +:+ LF;
    "  - Environmental Impact" +:+ LF;
    "  - Public Transport Usage" +:+ LF;
    "  - And more..." +:+ LF +:+ LF;
    "Digital Twin - Dataset Mapping:" +:+ LF;
    "  → Simulation parameters can be calibrated using Excel data" +:+ LF;
    "  → Traffic volumes can match historical patterns" +:+ LF;
    "  → Congestion patterns can be validated against real data" +:+ LF;
    "  → Speed profiles can be tuned to match observed speeds" +:+ LF +:+ LF;
    BAR80 +:+ LF;
    "NEXT STEPS & RECOMMENDATIONS" +:+ LF;
    BAR80 +:+ LF +:+ LF;
    "Immediate Actions (This Week):" +:+ LF;
    "  1. Complete OSM data download for 7 remaining areas" +:+ LF;
    "  2. Run batch processing script overnight" +:+ LF;
    "  3. Validate simulations for each area" +:+ LF;
    "  4. Calibrate with Excel dataset parameters" +:+ LF +:+ LF;
    "Short-term Goals (Next 2 Weeks):" +:+ LF;
    "  1. Integrate real traffic data from Excel into simulations" +:+ LF;
    "  2. Create comparative analysis across all 8 areas" +:+ LF;
    "  3. Develop visualization dashboard" +:+ LF;
    "  4. Generate traffic flow reports" +:+ LF +:+ LF;
    "Long-term Vision (Next 3 Months):" +:+ LF;
    "  1. Expand to 20+ Bangalore areas" +:+ LF;
    "  2. Implement real-time data integration" +:+ LF;
    "  3. Develop predictive traffic models" +:+ LF;
    "  4. Create policy testing framework" +:+ LF;
    "  5. Deploy web-based visualization interface" +:+ LF +:+ LF;
    BAR80 +:+ LF;
    "CURRENT DELIVERABLES" +:+ LF;
    BAR80 +:+ LF +:+ LF;
    "Electronic City (Completed):" +:+ LF;
    "  ✓ electronic_city.net.xml - SUMO network file" +:+ LF;
    "  ✓ electronic_city.rou.xml - Vehicle routes (100 vehicles)" +:+ LF;
    "  ✓ electronic_city.sumocfg - Simulation configuration" +:+ LF;
    "  ✓ Running simulation with visual interface" +:+ LF +:+ LF;
    "Ready to Demonstrate:" +:+ LF;
    "  ✓ Real-time traffic simulation" +:+ LF;
    "  ✓ Vehicle movement visualization" +:+ LF;
    "  ✓ Congestion pattern analysis" +:+ LF;
    "  ✓ Route optimization capabilities" +:+ LF +:+ LF;
    BAR80 +:+ LF;
    "END OF REPORT" +:+ LF;
    BAR80 +:+ LF ].

(** [generate_detailed_report()] *)
Definition generate_detailed_report : M string :=
  let report_file := "Digital_Twin_Implementation_Report.txt" in
  _ ← with_open_w report_file
        (generated ← now;
         mret (detailed_report_writes generated));
  mret report_file.

End QuickReport.

(** ** The script [quick_report_generator.py]: the summary, the table and
    [main] *)

Module QuickReportFiles.

(** The round of the loop of the summary. *)
Definition summary_area (area : QuickReport.area) : string :=
  "  • " +:+ QuickReport.name area +:+ " ("
    +:+ str_join ", " (QuickReport.roads area) +:+ ")" +:+ LF.

(** All the [f.write] calls of [generate_presentation_summary], in
    order. *)
Definition summary_writes : list string :=
  [ BAR80 +:+ LF;
    "DIGITAL TWIN PROJECT - QUICK SUMMARY" +:+ LF;
    BAR80 +:+ LF +:+ LF;
    "STATUS: Proof of Concept Completed ✓" +:+ LF +:+ LF;
    "COMPLETED:" +:+ LF;
    "  ✓ Electronic City: "
      +:+ str_int (QuickReport.ec_junctions QuickReport.ELECTRONIC_CITY)
      +:+ " junctions, "
      +:+ str_int (QuickReport.ec_edges QuickReport.ELECTRONIC_CITY)
      +:+ " roads, 100 vehicles" +:+ LF;
    "  ✓ Fully operational simulation with real-time visualization" +:+ LF
      +:+ LF;
    "READY TO SCALE TO:" +:+ LF ]
  ++ map summary_area QuickReport.AREAS
  ++ [ LF +:+ "COMPUTATIONAL REQUIREMENTS (Your Question):" +:+ LF;
    "  • Hardware: Current laptop sufficient ✓" +:+ LF;
    "  • Time per area: ~15-20 minutes" +:+ LF;
    "  • Total for 7 areas: 2-3 hours" +:+ LF;
    "  • 100 vehicles per area: Implemented ✓" +:+ LF +:+ LF;
    "WHY 100 VEHICLES?" +:+ LF;
    "  • Original: 1800 vehicles (1 hour simulation)" +:+ LF;
    "  • Updated: 100 vehicles (manageable, faster processing)" +:+ LF;
    "  • Can be scaled up as needed" +:+ LF +:+ LF;
    "AREA COVERAGE:" +:+ LF;
    "  • Electronic City: "
      +:+ QuickReport.str_float (QuickReport.ec_area_km2 QuickReport.ELECTRONIC_CITY)
      +:+ " km² (Completed)" +:+ LF;
    "  • 7 Additional areas: ~"
      +:+ QuickReport.format_1f (QuickReport.sum (map QuickReport.area_km2 QuickReport.AREAS))
      +:+ " km² (Ready)" +:+ LF;
    "  • Total: ~"
      +:+ QuickReport.format_1f (QuickReport.ec_area_km2 QuickReport.ELECTRONIC_CITY + QuickReport.sum (map QuickReport.area_km2 QuickReport.AREAS))
      +:+ " km²" +:+ LF +:+ LF;
    "NEXT STEPS:" +:+ LF;
    "  1. Complete data download for remaining 7 areas" +:+ LF;
    "  2. Run simulations for all locations" +:+ LF;
    "  3. Integrate with Excel traffic dataset" +:+ LF;
    "  4. Generate comparative analysis" +:+ LF +:+ LF;
    "TIMELINE: Can complete all 7 areas in next 24-48 hours" +:+ LF;
    BAR80 +:+ LF ].

(** [generate_presentation_summary()] *)
Definition generate_presentation_summary : M string :=
  let summary_file := "Quick_Summary_For_Boss.txt" in
  _ ← with_open_w summary_file (mret summary_writes);
  mret summary_file.

(** The first line of the table. *)
Definition csv_header : string :=
  "Area Name,Key Roads,Est. Junctions,Est. Road Segments,Coverage (km²),Vehicles,Status"
    +:+ LF.

(** The line of Electronic City. *)
Definition csv_electronic_city : string :=
  QuickReport.ec_name QuickReport.ELECTRONIC_CITY
    +:+ ",Electronic City Phase 1,"
    +:+ str_int (QuickReport.ec_junctions QuickReport.ELECTRONIC_CITY) +:+ ","
    +:+ str_int (QuickReport.ec_edges QuickReport.ELECTRONIC_CITY) +:+ ","
    +:+ QuickReport.str_float (QuickReport.ec_area_km2 QuickReport.ELECTRONIC_CITY)
    +:+ ",100,Completed" +:+ LF.

(** The round of the loop of the table: the line of one area. *)
Definition csv_area (area : QuickReport.area) : string :=
  let roads := str_join " & " (QuickReport.roads area) in
  QuickReport.name area +:+ "," +:+ roads +:+ ","
    +:+ str_int (QuickReport.estimated_junctions area) +:+ ","
    +:+ str_int (QuickReport.estimated_edges area) +:+ ","
    +:+ QuickReport.str_float (QuickReport.area_km2 area) +:+ ",100,Ready"
    +:+ LF.

(** All the [f.write] calls of [generate_area_details_csv], in order. *)
Definition csv_writes : list string :=
  [ csv_header; csv_electronic_city ] ++ map csv_area QuickReport.AREAS.

(** [generate_area_details_csv()] *)
Definition generate_area_details_csv : M string :=
  let csv_file := "Area_Coverage_Details.csv" in
  _ ← with_open_w csv_file (mret csv_writes);
  mret csv_file.

(** [main()] *)
Definition main : M Z :=
  report ← QuickReport.generate_detailed_report;
  summary ← generate_presentation_summary;
  csv ← generate_area_details_csv;
  mret 0.

End QuickReportFiles.

(** ** The script [traffic_generator.py] *)

Module TrafficGenerator.

Definition NETWORK_FILE : string := "electronic_city.net.xml".
Definition ROUTE_FILE : string := "electronic_city.rou.xml".
Definition TRIPS_FILE : string := "electronic_city.trips.xml".
Definition CONFIG_FILE : string := "electronic_city.sumocfg".
Definition ADDITIONAL_FILE : string := "electronic_city.add.xml".

Module TRAFFIC_CONFIG.
Definition begin_ : Z := 0.
Definition end_ : Z := 7200.
Definition period : Z := 1.
Definition trip_attributes : string :=
  "departLane=" +:+ DQ +:+ "best" +:+ DQ
  +:+ " departSpeed=" +:+ DQ +:+ "max" +:+ DQ.
Definition vehicle_class : string := "passenger".
Definition fringe_factor : Z := 10.
End TRAFFIC_CONFIG.

(** [check_files()] *)
Definition check_files : M bool :=
  found ← path_exists NETWORK_FILE;
  if negb found then mret false else mret true.

(** The command lines of the two tools. *)
Definition randomtrips_cmd (randomtrips_script : string) : list string :=
  [ "python3"; randomtrips_script;
    "-n"; NETWORK_FILE;
    "-o"; TRIPS_FILE;
    "-b"; str_int TRAFFIC_CONFIG.begin_;
    "-e"; str_int TRAFFIC_CONFIG.end_;
    "-p"; str_int TRAFFIC_CONFIG.period;
    "--fringe-factor"; str_int TRAFFIC_CONFIG.fringe_factor;
    "--trip-attributes"; TRAFFIC_CONFIG.trip_attributes;
    "--vehicle-class"; TRAFFIC_CONFIG.vehicle_class;
    "--validate" ].

Definition duarouter_cmd : list string :=
  [ "duarouter";
    "-n"; NETWORK_FILE;
    "-t"; TRIPS_FILE;
    "-o"; ROUTE_FILE;
    "--ignore-errors";
    "--no-warnings";
    "--begin"; str_int TRAFFIC_CONFIG.begin_;
    "--end"; str_int TRAFFIC_CONFIG.end_ ].

(** [generate_random_trips()].  The size of the trips file is read for the
    message only, once the file is known to be there. *)
Definition generate_random_trips : M bool :=
  try_except
    (sumo_home ← environ_get "SUMO_HOME" "/usr/local/share/sumo";
     let randomtrips_script :=
       path_join sumo_home ["tools"; "randomTrips.py"] in
     found ← path_exists randomtrips_script;
     if negb found then mret false
     else
       let cmd := randomtrips_cmd randomtrips_script in
       result ← subprocess_run cmd 120;
       present ← (if returncode result =? 0 then path_exists TRIPS_FILE
                  else (mret false : M bool));
       if (present : bool) then mret true else mret false)
    (fun e =>
       match e with
       | TimeoutExpired => mret false
       | _ => mret false
       end).

(** [generate_routes()] *)
Definition generate_routes : M bool :=
  try_except
    (let cmd := duarouter_cmd in
     result ← subprocess_run cmd 120;
     present ← (if returncode result =? 0 then path_exists ROUTE_FILE
                else (mret false : M bool));
     if (present : bool) then mret true else mret false)
    (fun e =>
       match e with
       | TimeoutExpired => mret false
       | _ => mret false
       end).

(** The text [content] of the additional file. *)
Definition additional_content : string :=
  "<?xml version=" +:+ DQ +:+ "1.0" +:+ DQ +:+ " encoding=" +:+ DQ +:+ "UTF-8"
    +:+ DQ +:+ "?>" +:+ LF
  +:+ "<additional xmlns:xsi=" +:+ DQ
    +:+ "http://www.w3.org/2001/XMLSchema-instance" +:+ DQ
    +:+ " xsi:noNamespaceSchemaLocation=" +:+ DQ
    +:+ "http://sumo.dlr.de/xsd/additional_file.xsd" +:+ DQ +:+ ">" +:+ LF
  +:+ "    <!-- Add detectors, traffic lights, or other additional elements here -->"
    +:+ LF
  +:+ "</additional>" +:+ LF.

(** [create_additional_file()] *)
Definition create_additional_file : M bool :=
  try_except
    (_ ← with_open_w ADDITIONAL_FILE (mret [additional_content]);
     mret true)
    (fun e => mret false).

(** The text [config_content] of the configuration file. *)
Definition config_content : string :=
  "<?xml version=" +:+ DQ +:+ "1.0" +:+ DQ +:+ " encoding=" +:+ DQ +:+ "UTF-8"
    +:+ DQ +:+ "?>" +:+ LF
  +:+ "<configuration xmlns:xsi=" +:+ DQ
    +:+ "http://www.w3.org/2001/XMLSchema-instance" +:+ DQ
    +:+ " xsi:noNamespaceSchemaLocation=" +:+ DQ
    +:+ "http://sumo.dlr.de/xsd/sumoConfiguration.xsd" +:+ DQ +:+ ">" +:+ LF
  +:+ "    " +:+ LF
  +:+ "    <input>" +:+ LF
  +:+ "        <net-file value=" +:+ DQ +:+ NETWORK_FILE +:+ DQ +:+ "/>"
    +:+ LF
  +:+ "        <route-files value=" +:+ DQ +:+ ROUTE_FILE +:+ DQ +:+ "/>"
    +:+ LF
  +:+ "        <additional-files value=" +:+ DQ +:+ ADDITIONAL_FILE +:+ DQ
    +:+ "/>" +:+ LF
  +:+ "    </input>" +:+ LF
  +:+ "    " +:+ LF
  +:+ "    <time>" +:+ LF
  +:+ "        <begin value=" +:+ DQ +:+ str_int TRAFFIC_CONFIG.begin_ +:+ DQ
    +:+ "/>" +:+ LF
  +:+ "        <end value=" +:+ DQ +:+ str_int TRAFFIC_CONFIG.end_ +:+ DQ
    +:+ "/>" +:+ LF
  +:+ "        <step-length value=" +:+ DQ +:+ "1" +:+ DQ +:+ "/>" +:+ LF
  +:+ "    </time>" +:+ LF
  +:+ "    " +:+ LF
  +:+ "    <processing>" +:+ LF
  +:+ "        <time-to-teleport value=" +:+ DQ +:+ "300" +:+ DQ +:+ "/>"
    +:+ LF
  +:+ "        <max-depart-delay value=" +:+ DQ +:+ "900" +:+ DQ +:+ "/>"
    +:+ LF
  +:+ "        <default.speeddev value=" +:+ DQ +:+ "0.1" +:+ DQ +:+ "/>"
    +:+ LF
  +:+ "    </processing>" +:+ LF
  +:+ "    " +:+ LF
  +:+ "    <routing>" +:+ LF
  +:+ "        <device.rerouting.adaptation-steps value=" +:+ DQ +:+ "18"
    +:+ DQ +:+ "/>" +:+ LF
  +:+ "        <device.rerouting.adaptation-interval value=" +:+ DQ +:+ "10"
    +:+ DQ +:+ "/>" +:+ LF
  +:+ "    </routing>" +:+ LF
  +:+ "    " +:+ LF
  +:+ "    <report>" +:+ LF
  +:+ "        <verbose value=" +:+ DQ +:+ "true" +:+ DQ +:+ "/>" +:+ LF
  +:+ "        <no-step-log value=" +:+ DQ +:+ "true" +:+ DQ +:+ "/>" +:+ LF
  +:+ "    </report>" +:+ LF
  +:+ "    " +:+ LF
  +:+ "    <gui_only>" +:+ LF
  +:+ "        <gui-settings-file value=" +:+ DQ +:+ DQ +:+ "/>" +:+ LF
  +:+ "    </gui_only>" +:+ LF
  +:+ "    " +:+ LF
  +:+ "</configuration>" +:+ LF.

(** [create_config_file()] *)
Definition create_config_file : M bool :=
  try_except
    (_ ← with_open_w CONFIG_FILE (mret [config_content]);
     mret true)
    (fun e => mret false).

(** [print_summary()] writes to the console only (its [print] calls:
    [TrafficGeneratorIO.print_summary]). *)
Definition print_summary : M unit := mret tt.

(** [main()], without its [print] calls (with them:
    [TrafficGeneratorIO.main]). *)
Definition main : M Z :=
  try_except
    (ok ← check_files;
     if negb ok then mret 1
     else
       ok ← generate_random_trips;
       if negb ok then mret 1
       else
         ok ← generate_routes;
         if negb ok then mret 1
         else
           ok ← create_additional_file;
           if negb ok then mret 1
           else
             ok ← create_config_file;
             if negb ok then mret 1
             else
               _ ← print_summary;
               mret 0)
    (fun e => mret 1).

End TrafficGenerator.

(** ** The script [sumo_network.py] *)

(** [str.strip()].  A [str] is kept as its UTF-8 bytes, so a white-space
    character is one of the byte sequences below: the characters for which
    [str.isspace] holds, U+0009 to U+000D, U+001C to U+0020, U+0085,
    U+00A0, U+1680, U+2000 to U+200A, U+2028, U+2029, U+202F, U+205F and
    U+3000. *)
Definition utf8 (bytes : list nat) : string :=
  string_of_list_ascii (map ascii_of_nat bytes).

Definition WHITESPACE : list string :=
  map utf8
    [ [9]; [10]; [11]; [12]; [13]; [28]; [29]; [30]; [31]; [32];
      [194; 133]; [194; 160]; [225; 154; 128];
      [226; 128; 128]; [226; 128; 129]; [226; 128; 130]; [226; 128; 131];
      [226; 128; 132]; [226; 128; 133]; [226; 128; 134]; [226; 128; 135];
      [226; 128; 136]; [226; 128; 137]; [226; 128; 138];
      [226; 128; 168]; [226; 128; 169]; [226; 128; 175];
      [226; 129; 159]; [227; 128; 128] ]%nat.

(** [s] without its first [n] bytes. *)
Fixpoint string_drop (n : nat) (s : string) : string :=
  match n, s with
  | S k, String _ s' => string_drop k s'
  | _, _ => s
  end.

(** [s] without the members of [chars] it starts with; [fuel] bounds the
    number of rounds and is the length of [s]. *)
Fixpoint strip_prefix (chars : list string) (fuel : nat) (s : string)
  : string :=
  match fuel with
  | O => s
  | S k =>
      match List.find (fun c => String.prefix c s) chars with
      | Some c => strip_prefix chars k (string_drop (String.length c) s)
      | None => s
      end
  end.

Definition lstrip (s : string) : string :=
  strip_prefix WHITESPACE (String.length s) s.

Definition rstrip (s : string) : string :=
  String.rev
    (strip_prefix (map String.rev WHITESPACE) (String.length s)
                  (String.rev s)).

Definition strip (s : string) : string := rstrip (lstrip s).

(** [input(prompt)]: the next line of the standard input, which is what
    is left of [stdin]; [EOFError] when there is none. *)
Definition input (stdin : list string) : M (string * list string) :=
  match stdin with
  | [] => raise (OtherException "EOFError")
  | line :: rest => mret (line, rest)
  end.

(** The time budget of a call of [subprocess.run] that gives none. *)
Definition NO_TIMEOUT : Z := -1.

Module SumoNetwork.

Definition OSM_FILE : string := "electronic_city.osm".
Definition SUMO_NET_FILE : string := "electronic_city.net.xml".

(** The four floats of [BBOX], each by the text [str] gives for it. *)
Module BBOX.
Definition north : string := "12.865".
Definition south : string := "12.83".
Definition east : string := "77.68".
Definition west : string := "77.64".
End BBOX.

(** [check_osmium()]: only [FileNotFoundError] is caught. *)
Definition check_osmium : M bool :=
  try_except
    (result ← subprocess_run ["osmium"; "--version"] NO_TIMEOUT;
     mret true)
    (fun e =>
       match e with
       | FileNotFoundError => mret false
       | _ => raise e
       end).

(** [method_manual_download()]: the answer typed, stripped. *)
Definition method_manual_download (stdin : list string)
  : M (string * list string) :=
  answer ← input stdin;
  let choice := strip (fst answer) in
  mret (choice, snd answer).

Definition extract_cmd (pbf_file : string) : list string :=
  [ "osmium"; "extract";
    "-b"; BBOX.west +:+ "," +:+ BBOX.south +:+ "," +:+ BBOX.east
          +:+ "," +:+ BBOX.north;
    pbf_file;
    "-o"; OSM_FILE;
    "--overwrite" ].

(** [extract_from_pbf(pbf_file)]; [check_osmium] is called before the
    [try] block. *)
Definition extract_from_pbf (pbf_file : string) : M bool :=
  found ← check_osmium;
  if negb found then mret false
  else
    try_except
      (let cmd := extract_cmd pbf_file in
       result ← subprocess_run cmd NO_TIMEOUT;
       present ← (if returncode result =? 0 then path_exists OSM_FILE
                  else (mret false : M bool));
       if (present : bool) then mret true else mret false)
      (fun e => mret false).

Definition netconvert_cmd (osm_file sumo_net_file : string) : list string :=
  [ "netconvert";
    "--osm-files"; osm_file;
    "--output-file"; sumo_net_file;
    "--geometry.remove";
    "--ramps.guess";
    "--junctions.join";
    "--tls.guess-signals";
    "--tls.discard-simple";
    "--tls.join";
    "--tls.default-type"; "actuated";
    "--remove-edges.isolated";
    "--keep-edges.by-vclass"; "passenger";
    "--verbose" ].

(** [convert_to_sumo(osm_file, sumo_net_file)], without its [print] calls
    (with them: [SumoNetworkIO.convert_to_sumo]).  The sizes of the files
    are read for the messages only, once the files are known to be
    there.  The first [try] block returns from the function in its
    handlers, hence the optional result. *)
Definition convert_to_sumo (osm_file sumo_net_file : string) : M bool :=
  found ← path_exists osm_file;
  if negb found then mret false
  else
    probe ← try_except
      (result ← subprocess_run ["netconvert"; "--version"] 5;
       mret (None : option bool))
      (fun e =>
         match e with
         | FileNotFoundError => mret (Some false)
         | _ => mret (Some false)
         end);
    match probe with
    | Some answer => mret answer
    | None =>
        try_except
          (let cmd := netconvert_cmd osm_file sumo_net_file in
           result ← subprocess_run cmd 600;
           if returncode result =? 0 then
             present ← path_exists sumo_net_file;
             if (present : bool) then mret true else mret false
           else mret false)
          (fun e =>
             match e with
             | TimeoutExpired => mret false
             | _ => mret false
             end)
    end.

(** [main()], reading its answers from [stdin], without its [print]
    calls (with them: [SumoNetworkIO.main]). *)
Definition main (stdin : list string) : M Z :=
  try_except
    (answer ← method_manual_download stdin;
     let choice := fst answer in
     let stdin := snd answer in
     proceed ←
       (if bool_decide (choice = "1") then
          found ← path_exists OSM_FILE;
          if negb found then mret (Some 1) else mret None
        else if bool_decide (choice = "2") then
          answer ← input stdin;
          let pbf_file := strip (fst answer) in
          found ← path_exists pbf_file;
          if negb found then mret (Some 1)
          else
            extracted ← extract_from_pbf pbf_file;
            if negb extracted then mret (Some 1) else mret None
        else if bool_decide (choice = "3") then mret (Some 0)
        else mret (Some 1) : M (option Z));
     match proceed with
     | Some code => mret code
     | None =>
         converted ← convert_to_sumo OSM_FILE SUMO_NET_FILE;
         if negb converted then mret 1 else mret 0
     end)
    (fun e => mret 1).

End SumoNetwork.

(** ** Console output

    The functions above leave the [print] calls of the scripts out: they
    are the scripts as they run on a standard output that takes every
    text.  Below are the same functions with their [print] calls, for the
    properties that depend on what a [print] can do to the program: raise.
    The two streams are outside the program, which never redirects or
    closes them; they are a parameter of the functions that write to
    them.  What the streams show is not kept. *)

Inductive stream :=
| sys_stdout
| sys_stderr.

(** What a stream does with a text written to it: [None] when it takes the
    text, the exception raised by [write] otherwise (a text that the
    encoding of the stream cannot express, a stream that is closed). *)
Definition console : Type := stream -> string -> option exn.

(** [f.write(s)] on one of the two streams. *)
Definition write (tty : console) (f : stream) (s : string) : M unit :=
  match tty f s with
  | None => mret tt
  | Some e => raise e
  end.

(** [print(s)]: the text, then the line feed. *)
Definition print (tty : console) (s : string) : M unit :=
  _ ← write tty sys_stdout s;
  write tty sys_stdout LF.

(** A run of [print] calls, by their arguments. *)
Fixpoint print_lines (tty : console) (lines : list string) : M unit :=
  match lines with
  | [] => mret tt
  | line :: rest =>
      _ ← print tty line;
      print_lines tty rest
  end.

(** [traceback.print_exc()], the lines of the traceback being [lines]. *)
Fixpoint print_exc (tty : console) (lines : list string) : M unit :=
  match lines with
  | [] => mret tt
  | line :: rest =>
      _ ← write tty sys_stderr line;
      print_exc tty rest
  end.

(** [input(prompt)]: the prompt goes to the standard output, then a line is
    read. *)
Definition input_prompt (tty : console) (prompt : string)
    (stdin : list string) : M (string * list string) :=
  _ ← write tty sys_stdout prompt;
  input stdin.

(** [os.path.getsize(path)]: the number of bytes of the entry. *)
Definition getsize (path : string) : M Z :=
  fun w =>
    match entries (fs w) !! path with
    | Some x => (Return (Z.of_nat (String.length (content x))), w)
    | None => (Raise FileNotFoundError, w)
    end.

(** A byte that continues a character of several bytes. *)
Definition is_continuation (c : ascii) : bool :=
  let n := nat_of_ascii c in
  ((128 <=? n) && (n <? 192))%nat.

(** [s[:n]]: the first [n] characters of [s]. *)
Fixpoint str_take (n : nat) (s : string) : string :=
  match s with
  | EmptyString => EmptyString
  | String c s' =>
      if is_continuation c then String c (str_take n s')
      else
        match n with
        | O => EmptyString
        | S k => String c (str_take k s')
        end
  end.

(** The truth value of a [str]: it is not empty. *)
Definition nonempty (s : string) : bool := negb (bool_decide (s = "")).

(** The format [.kf] applied to the quotient [n / d] of two integers that
    are not negative, [d] positive: the quotient rounded to [k] decimals,
    halves to the even digit.  This is what Python prints when the float
    [n / d] is the quotient itself, as with the sizes of the scripts
    (below 2^53, divided by a power of two) and with 7200 / 60. *)
Definition format_f (k : nat) (n d : Z) : string :=
  let scale := 10 ^ Z.of_nat k in
  let q := (n * scale) / d in
  let r := (n * scale) mod d in
  let q := if (d <? 2 * r) || ((2 * r =? d) && Z.odd q) then q + 1 else q in
  str_int (q / scale) +:+ "." +:+ zpad k (q mod scale).

Definition BAR70 : string := str_repeat "=" 70.

(** [try: body  except Exception as e: ...], as the statement after it
    sees it: what the body gave, or the exception that stopped it. *)
Definition attempt {A} (body : M A) : M (A + exn) :=
  fun w =>
    match body w with
    | (Return a, w') => (Return (inl a), w')
    | (Raise e, w') => (Return (inr e), w')
    end.

(** *** [process_downloaded_areas.py] with its console output *)

Module ProcessAreasIO.
Section Console.

(** The two streams, and the text [str(e)] of an exception. *)
Variable tty : console.
Variable str_exn : exn -> string.

Definition convert_to_sumo (osm_file area_name : string)
  : M (option string) :=
  let net_file := lower area_name +:+ ".net.xml" in
  _ ← print tty (LF +:+ "Converting " +:+ osm_file +:+ " to SUMO network...");
  try_except
    (let cmd := netconvert_cmd osm_file net_file in
     result ← subprocess_run cmd 300;
     present ← (if returncode result =? 0 then path_exists net_file
                else (mret false : M bool));
     if (present : bool) then
       _ ← print tty ("✓ SUMO network created: " +:+ net_file);
       mret (Some net_file)
     else
       _ ← print tty ("✗ netconvert failed for " +:+ area_name);
       _ ← (if nonempty (stderr result)
            then print tty ("Error: " +:+ str_take 200 (stderr result))
            else mret tt);
       mret None)
    (fun e =>
       _ ← print tty ("✗ Error converting " +:+ area_name +:+ ": "
                      +:+ str_exn e);
       mret None).

Definition generate_traffic (net_file area_name : string)
  : M (option string) :=
  let trips_file := lower area_name +:+ ".trips.xml" in
  let route_file := lower area_name +:+ ".rou.xml" in
  _ ← print tty ("Generating traffic for " +:+ area_name +:+ "...");
  try_except
    (sumo_home ← environ_get "SUMO_HOME" "/usr/local/share/sumo";
     let randomtrips := path_join sumo_home ["tools"; "randomTrips.py"] in
     let cmd := randomtrips_cmd randomtrips net_file trips_file in
     result ← subprocess_run cmd 120;
     if negb (returncode result =? 0) then
       _ ← print tty "✗ Trip generation failed";
       mret None
     else
       let cmd := duarouter_cmd net_file trips_file route_file in
       result ← subprocess_run cmd 120;
       present ← (if returncode result =? 0 then path_exists route_file
                  else (mret false : M bool));
       if (present : bool) then
         _ ← print tty ("✓ Routes generated: " +:+ route_file);
         mret (Some route_file)
       else
         _ ← print tty "✗ Route generation failed";
         mret None)
    (fun e =>
       _ ← print tty ("✗ Error generating traffic: " +:+ str_exn e);
       mret None).

Definition create_config (net_file route_file area_name : string)
  : M (option string) :=
  let config_file := lower area_name +:+ ".sumocfg" in
  let add_file := lower area_name +:+ ".add.xml" in
  try_except
    (_ ← with_open_w add_file (mret additional_writes);
     let config := config_text net_file route_file add_file in
     _ ← with_open_w config_file (mret [config]);
     _ ← print tty ("✓ Config created: " +:+ config_file);
     mret (Some config_file))
    (fun e =>
       _ ← print tty ("✗ Error creating config: " +:+ str_exn e);
       mret None).

(** The handler of the [try] block of [process_area], which ends the
    function with the dictionary as it is when the exception arrives. *)
Definition failed (area : Area) (area_result : AreaResult) (e : exn)
  : M AreaResult :=
  _ ← print tty (LF +:+ "✗ " +:+ area_name area +:+ " failed: "
                 +:+ str_exn e);
  mret area_result.

(** [process_area(area)].  The dictionary [area_result] is updated in place
    at two places of the [try] block, and the handler returns it as it is
    when the exception arrives: the block is cut at these two places, each
    part being left by a [return], by an exception, or to the next part.
    An exception raised by the handler leaves the function. *)
Definition process_area (area : Area) : M AreaResult :=
  _ ← print tty (LF +:+ BAR70);
  _ ← print tty ("Processing: " +:+ area_name area);
  _ ← print tty BAR70;
  let area_result := mk_AreaResult (area_name area) "Failed" 0 0 100 in
  found ← path_exists (osm_file area);
  if negb found then
    _ ← print tty ("✗ ERROR: " +:+ osm_file area +:+ " not found!");
    mret area_result
  else
    _ ← print tty ("✓ Found " +:+ osm_file area);
    converted ← attempt
      (net ← convert_to_sumo (osm_file area) (area_name area);
       match net with
       | Some net_file =>
           if is_falsy net then mret None
           else
             stats ← get_network_stats net_file;
             mret (Some (net_file, stats))
       | None => mret None
       end);
    match converted with
    | inr e => failed area area_result e
    | inl None => mret area_result
    | inl (Some (net_file, stats)) =>
        let area_result := set_junctions area_result (fst stats) in
        let area_result := set_edges area_result (snd stats) in
        configured ← attempt
          (_ ← print tty ("Network: " +:+ str_int (fst stats)
                          +:+ " junctions, " +:+ str_int (snd stats)
                          +:+ " road segments");
           route ← generate_traffic net_file (area_name area);
           match route with
           | Some route_file =>
               if is_falsy route then mret false
               else
                 config ← create_config net_file route_file (area_name area);
                 if is_falsy config then mret false else mret true
           | None => mret false
           end);
        match configured with
        | inr e => failed area area_result e
        | inl false => mret area_result
        | inl true =>
            let area_result := set_status area_result "Success" in
            announced ← attempt
              (print tty (LF +:+ "✓ " +:+ area_name area
                          +:+ " completed successfully!"));
            match announced with
            | inr e => failed area area_result e
            | inl _ => mret area_result
            end
        end
    end.

(** [for i, area in enumerate(AREAS, 1)] of [main], from the number [i]. *)
Fixpoint process_all (i : Z) (areas : list Area) : M unit :=
  match areas with
  | [] => mret tt
  | area :: rest =>
      _ ← print tty (LF +:+ "[" +:+ str_int i +:+ "/7] Starting "
                     +:+ area_name area +:+ "...");
      result ← process_area area;
      _ ← results_append result;
      process_all (i + 1) rest
  end.

(** [generate_final_report()] *)
Definition generate_final_report : M string :=
  let report_file := "ALL_AREAS_COMPLETE_REPORT.txt" in
  _ ← with_open_w report_file
        (completion ← now;
         current ← now;
         rs ← gets results;
         start ← gets start_time;
         mret (final_report_writes rs start completion current));
  _ ← print tty (LF +:+ "✓ Final report: " +:+ report_file);
  mret report_file.

(** [main()] *)
Definition main : M Z :=
  _ ← print tty BAR70;
  _ ← print tty "PROCESSING ALL 7 DOWNLOADED AREAS";
  _ ← print tty BAR70;
  start ← gets start_time;
  _ ← print tty (LF +:+ "Start Time: " +:+ strftime start +:+ LF);
  _ ← process_all 1 AREAS;
  _ ← print tty (LF +:+ BAR70);
  _ ← print tty "GENERATING FINAL REPORT";
  _ ← print tty BAR70;
  report ← generate_final_report;
  rs ← gets results;
  let successful :=
    Z.of_nat (length (filter (fun r => success r = true) rs)) in
  _ ← print tty (LF +:+ BAR70);
  _ ← print tty "🎉 PROCESSING COMPLETE!";
  _ ← print tty BAR70;
  _ ← print tty (LF +:+ "Results: " +:+ str_int (successful + 1)
                 +:+ "/8 areas completed (including Electronic City)");
  current ← now;
  start ← gets start_time;
  _ ← print tty ("Total Time: "
                 +:+ str_timedelta (datetime_sub current start));
  _ ← print tty (LF +:+ "Final Report: " +:+ report);
  _ ← print tty (LF +:+ BAR70);
  _ ← print tty "READY FOR TOMORROW'S PRESENTATION! 🚀";
  _ ← print tty BAR70;
  mret (if successful =? 7 then 0 else 1).

End Console.
End ProcessAreasIO.

(** *** [traffic_generator.py] with its console output *)

Module TrafficGeneratorIO.
Section Console.

(** The two streams, the text [str(e)] of an exception and the lines of its
    traceback. *)
Variable tty : console.
Variable str_exn : exn -> string.
Variable traceback : exn -> list string.

Definition check_files : M bool :=
  found ← path_exists TrafficGenerator.NETWORK_FILE;
  if negb found then
    _ ← print tty ("✗ ERROR: " +:+ TrafficGenerator.NETWORK_FILE
                   +:+ " not found!");
    _ ← print tty "Please run sumo_network.py first to generate the network.";
    mret false
  else
    _ ← print tty ("✓ Found " +:+ TrafficGenerator.NETWORK_FILE);
    mret true.

Definition generate_random_trips : M bool :=
  _ ← print tty (LF +:+ BAR70);
  _ ← print tty "STEP 1: Generating Random Trips";
  _ ← print tty BAR70;
  try_except
    (sumo_home ← environ_get "SUMO_HOME" "/usr/local/share/sumo";
     let randomtrips_script :=
       path_join sumo_home ["tools"; "randomTrips.py"] in
     found ← path_exists randomtrips_script;
     if negb found then
       _ ← print tty ("✗ ERROR: randomTrips.py not found at "
                      +:+ randomtrips_script);
       _ ← print tty "Make sure SUMO_HOME is set correctly.";
       mret false
     else
       let cmd := TrafficGenerator.randomtrips_cmd randomtrips_script in
       _ ← print tty (LF +:+ "Generating trips...");
       _ ← print tty ("  - Time period: "
                      +:+ str_int TrafficGenerator.TRAFFIC_CONFIG.begin_
                      +:+ "s to "
                      +:+ str_int TrafficGenerator.TRAFFIC_CONFIG.end_
                      +:+ "s");
       _ ← print tty ("  - Vehicle insertion period: "
                      +:+ str_int TrafficGenerator.TRAFFIC_CONFIG.period
                      +:+ "s");
       _ ← print tty ("  - Estimated vehicles: ~"
                      +:+ str_int
                            (Z.quot TrafficGenerator.TRAFFIC_CONFIG.end_
                                    TrafficGenerator.TRAFFIC_CONFIG.period));
       result ← subprocess_run cmd 120;
       present ← (if returncode result =? 0
                  then path_exists TrafficGenerator.TRIPS_FILE
                  else (mret false : M bool));
       if (present : bool) then
         size ← getsize TrafficGenerator.TRIPS_FILE;
         _ ← print tty ("✓ Trips file generated: "
                        +:+ TrafficGenerator.TRIPS_FILE +:+ " ("
                        +:+ format_f 2 size 1024 +:+ " KB)");
         mret true
       else
         _ ← print tty "✗ Failed to generate trips";
         _ ← (if nonempty (stderr result)
              then print tty ("Error: " +:+ str_take 300 (stderr result))
              else mret tt);
         mret false)
    (fun e =>
       match e with
       | TimeoutExpired =>
           _ ← print tty "✗ Trip generation timed out";
           mret false
       | _ =>
           _ ← print tty ("✗ Error: " +:+ str_exn e);
           mret false
       end).

Definition generate_routes : M bool :=
  _ ← print tty (LF +:+ BAR70);
  _ ← print tty "STEP 2: Converting Trips to Routes";
  _ ← print tty BAR70;
  try_except
    (let cmd := TrafficGenerator.duarouter_cmd in
     _ ← print tty (LF +:+ "Computing routes...");
     result ← subprocess_run cmd 120;
     present ← (if returncode result =? 0
                then path_exists TrafficGenerator.ROUTE_FILE
                else (mret false : M bool));
     if (present : bool) then
       size ← getsize TrafficGenerator.ROUTE_FILE;
       _ ← print tty ("✓ Route file generated: "
                      +:+ TrafficGenerator.ROUTE_FILE +:+ " ("
                      +:+ format_f 2 size 1024 +:+ " KB)");
       mret true
     else
       _ ← print tty "✗ Failed to generate routes";
       _ ← (if nonempty (stderr result)
            then print tty ("Error: " +:+ str_take 300 (stderr result))
            else mret tt);
       mret false)
    (fun e =>
       match e with
       | TimeoutExpired =>
           _ ← print tty "✗ Route generation timed out";
           mret false
       | _ =>
           _ ← print tty ("✗ Error: " +:+ str_exn e);
           mret false
       end).

Definition create_additional_file : M bool :=
  _ ← print tty (LF +:+ BAR70);
  _ ← print tty "STEP 3: Creating Additional Files";
  _ ← print tty BAR70;
  try_except
    (_ ← with_open_w TrafficGenerator.ADDITIONAL_FILE
           (mret [TrafficGenerator.additional_content]);
     _ ← print tty ("✓ Additional file created: "
                    +:+ TrafficGenerator.ADDITIONAL_FILE);
     mret true)
    (fun e =>
       _ ← print tty ("✗ Error creating additional file: " +:+ str_exn e);
       mret false).

Definition create_config_file : M bool :=
  _ ← print tty (LF +:+ BAR70);
  _ ← print tty "STEP 4: Creating Simulation Configuration";
  _ ← print tty BAR70;
  try_except
    (_ ← with_open_w TrafficGenerator.CONFIG_FILE
           (mret [TrafficGenerator.config_content]);
     _ ← print tty ("✓ Configuration file created: "
                    +:+ TrafficGenerator.CONFIG_FILE);
     mret true)
    (fun e =>
       _ ← print tty ("✗ Error creating config file: " +:+ str_exn e);
       mret false).

(** The arguments of the [print] calls of [print_summary], in order. *)
Definition summary_lines : list string :=
  [ LF +:+ BAR70;
    "✓ SUCCESS! Traffic Generation Complete";
    BAR70;
    LF +:+ "Generated files:";
    "  1. " +:+ TrafficGenerator.TRIPS_FILE +:+ " - Random trip definitions";
    "  2. " +:+ TrafficGenerator.ROUTE_FILE +:+ " - Computed vehicle routes";
    "  3. " +:+ TrafficGenerator.ADDITIONAL_FILE
      +:+ " - Additional infrastructure";
    "  4. " +:+ TrafficGenerator.CONFIG_FILE
      +:+ " - SUMO simulation configuration";
    LF +:+ "Simulation parameters:";
    "  - Duration: " +:+ str_int TrafficGenerator.TRAFFIC_CONFIG.end_
      +:+ " seconds ("
      +:+ format_f 1 TrafficGenerator.TRAFFIC_CONFIG.end_ 60 +:+ " minutes)";
    "  - Vehicles: ~"
      +:+ str_int (Z.quot TrafficGenerator.TRAFFIC_CONFIG.end_
                          TrafficGenerator.TRAFFIC_CONFIG.period)
      +:+ " vehicles";
    "  - Insertion rate: Every "
      +:+ str_int TrafficGenerator.TRAFFIC_CONFIG.period +:+ " seconds";
    LF +:+ BAR70;
    "RUN YOUR SIMULATION:";
    BAR70;
    LF +:+ "1. Run with GUI (visual):";
    "   sumo-gui -c " +:+ TrafficGenerator.CONFIG_FILE;
    LF +:+ "2. Run without GUI (faster):";
    "   sumo -c " +:+ TrafficGenerator.CONFIG_FILE;
    LF +:+ "3. Run with output statistics:";
    "   sumo -c " +:+ TrafficGenerator.CONFIG_FILE
      +:+ " --tripinfo-output tripinfo.xml --summary-output summary.xml";
    LF +:+ BAR70;
    "CUSTOMIZATION:";
    BAR70;
    LF +:+ "To change traffic parameters, edit this script and modify:";
    "  - 'period': Vehicle insertion frequency (lower = more traffic)";
    "  - 'end': Simulation duration in seconds";
    "  - 'fringe_factor': Prefer edges (higher = more edge trips)";
    LF +:+ BAR70 ].

Definition print_summary : M unit := print_lines tty summary_lines.

Definition main : M Z :=
  _ ← print tty BAR70;
  _ ← print tty "Traffic Generator for Electronic City SUMO Network";
  _ ← print tty BAR70;
  try_except
    (ok ← check_files;
     if negb ok then mret 1
     else
       ok ← generate_random_trips;
       if negb ok then
         _ ← print tty (LF +:+ "✗ Failed at trip generation stage");
         mret 1
       else
         ok ← generate_routes;
         if negb ok then
           _ ← print tty (LF +:+ "✗ Failed at route generation stage");
           mret 1
         else
           ok ← create_additional_file;
           if negb ok then
             _ ← print tty (LF +:+ "✗ Failed to create additional file");
             mret 1
           else
             ok ← create_config_file;
             if negb ok then
               _ ← print tty (LF +:+ "✗ Failed to create configuration file");
               mret 1
             else
               _ ← print_summary;
               mret 0)
    (fun e =>
       _ ← print tty (LF +:+ "✗ Unexpected error: " +:+ str_exn e);
       _ ← print_exc tty (traceback e);
       mret 1).

End Console.
End TrafficGeneratorIO.

(** *** [sumo_network.py] with its console output *)

Module SumoNetworkIO.
Section Console.

(** The two streams, the text [str(e)] of an exception and the lines of its
    traceback. *)
Variable tty : console.
Variable str_exn : exn -> string.
Variable traceback : exn -> list string.

(** The arguments of the [print] calls of [method_manual_download], in
    order. *)
Definition download_lines : list string :=
  [ LF +:+ BAR70;
    "MANUAL DOWNLOAD METHOD";
    BAR70;
    LF +:+ "Since Overpass API is overloaded, let's use a manual download:";
    LF +:+ "Option 1 - BBBike Extract (Recommended - Small area):";
    "  1. Go to: https://extract.bbbike.org/";
    "  2. Search for 'Electronic City, Bangalore'";
    "  3. Draw a box around Electronic City";
    "  4. Select format: 'OSM XML'";
    "  5. Enter your email";
    "  6. Click 'extract' - you'll get a download link via email (5-10 min)";
    "  7. Download the file and save it as 'electronic_city.osm'";
    LF +:+ "Option 2 - Geofabrik (Faster - Larger area):";
    "  1. Go to: https://download.geofabrik.de/asia/india.html";
    "  2. Download 'Karnataka' (.osm.pbf file)";
    "  3. Save it in this directory";
    "  4. We'll extract Electronic City from it";
    LF +:+ "Option 3 - OpenStreetMap Export (Quick - Very small area):";
    "  1. Go to: https://www.openstreetmap.org/export";
    "  2. Click 'Manually select a different area'";
    "  3. Zoom to Electronic City, Bangalore";
    "  4. Draw a box around the area you want";
    "  5. Click 'Export' button";
    "  6. Save as 'electronic_city.osm' in this directory";
    "  Note: Limited to small areas only!";
    LF +:+ BAR70;
    "After downloading, choose what to do:";
    BAR70 ].

Definition download_prompt : string :=
  LF +:+ "What did you download?" +:+ LF
  +:+ "  1. Already have electronic_city.osm" +:+ LF
  +:+ "  2. Have Karnataka .osm.pbf file" +:+ LF
  +:+ "  3. Want to exit and download first" +:+ LF
  +:+ "Enter choice (1/2/3): ".

Definition method_manual_download (stdin : list string)
  : M (string * list string) :=
  _ ← print_lines tty download_lines;
  answer ← input_prompt tty download_prompt stdin;
  let choice := strip (fst answer) in
  mret (choice, snd answer).

Definition extract_from_pbf (pbf_file : string) : M bool :=
  _ ← print tty (LF +:+ "Extracting Electronic City from " +:+ pbf_file
                 +:+ "...");
  found ← SumoNetwork.check_osmium;
  if negb found then
    _ ← print tty (LF +:+ "✗ osmium-tool not found!");
    _ ← print tty "Install it with: brew install osmium-tool";
    mret false
  else
    try_except
      (let cmd := SumoNetwork.extract_cmd pbf_file in
       _ ← print tty ("Running: " +:+ str_join " " cmd);
       result ← subprocess_run cmd NO_TIMEOUT;
       present ← (if returncode result =? 0
                  then path_exists SumoNetwork.OSM_FILE
                  else (mret false : M bool));
       if (present : bool) then
         _ ← print tty ("✓ Successfully extracted to "
                        +:+ SumoNetwork.OSM_FILE);
         mret true
       else
         _ ← print tty ("✗ Extraction failed: " +:+ stderr result);
         mret false)
      (fun e =>
         _ ← print tty ("✗ Error: " +:+ str_exn e);
         mret false).

Definition convert_to_sumo (osm_file sumo_net_file : string) : M bool :=
  _ ← print tty (LF +:+ "Converting " +:+ osm_file
                 +:+ " to SUMO network format...");
  found ← path_exists osm_file;
  if negb found then
    _ ← print tty ("✗ ERROR: " +:+ osm_file +:+ " not found!");
    mret false
  else
    size ← getsize osm_file;
    _ ← print tty ("OSM file size: " +:+ format_f 2 size (1024 * 1024)
                   +:+ " MB");
    probe ← try_except
      (result ← subprocess_run ["netconvert"; "--version"] 5;
       _ ← print tty ("Using netconvert version: "
                      +:+ strip (stdout result));
       mret (None : option bool))
      (fun e =>
         match e with
         | FileNotFoundError =>
             _ ← print tty "✗ ERROR: 'netconvert' command not found!";
             _ ← print tty (LF +:+ "Please install SUMO:");
             _ ← print tty "  macOS: brew install sumo";
             _ ← print tty "  Set SUMO_HOME and add to PATH";
             mret (Some false)
         | _ =>
             _ ← print tty ("✗ Error checking netconvert: " +:+ str_exn e);
             mret (Some false)
         end);
    match probe with
    | Some answer => mret answer
    | None =>
        try_except
          (let cmd := SumoNetwork.netconvert_cmd osm_file sumo_net_file in
           _ ← print tty (LF +:+ "Running netconvert... (this may take a minute)");
           result ← subprocess_run cmd 600;
           if returncode result =? 0 then
             present ← path_exists sumo_net_file;
             if (present : bool) then
               size ← getsize sumo_net_file;
               _ ← print tty ("✓ SUMO network created successfully ("
                              +:+ format_f 2 size 1024 +:+ " KB)");
               _ ← print tty ("✓ Output file: " +:+ sumo_net_file);
               mret true
             else
               _ ← print tty "✗ netconvert completed but output file not found";
               mret false
           else
             _ ← print tty ("✗ netconvert failed with return code "
                            +:+ str_int (returncode result));
             _ ← (if nonempty (stderr result)
                  then print tty (LF +:+ "Error output:" +:+ LF
                                  +:+ str_take 500 (stderr result))
                  else mret tt);
             mret false)
          (fun e =>
             match e with
             | TimeoutExpired =>
                 _ ← print tty "✗ netconvert timed out";
                 mret false
             | _ =>
                 _ ← print tty ("✗ Error running netconvert: " +:+ str_exn e);
                 mret false
             end)
    end.

Definition main (stdin : list string) : M Z :=
  _ ← print tty BAR70;
  _ ← print tty "SUMO Network Generator for Electronic City, Bangalore";
  _ ← print tty "Alternative Method - Manual Download";
  _ ← print tty BAR70;
  _ ← print tty (LF +:+ "The Overpass API is currently overloaded.");
  _ ← print tty "This script will help you use alternative download methods.";
  try_except
    (answer ← method_manual_download stdin;
     let choice := fst answer in
     let stdin := snd answer in
     proceed ←
       (if bool_decide (choice = "1") then
          found ← path_exists SumoNetwork.OSM_FILE;
          if negb found then
            _ ← print tty (LF +:+ "✗ ERROR: " +:+ SumoNetwork.OSM_FILE
                           +:+ " not found in current directory!");
            _ ← print tty "Please make sure the file is named exactly 'electronic_city.osm'";
            mret (Some 1)
          else
            _ ← print tty (LF +:+ "✓ Found " +:+ SumoNetwork.OSM_FILE);
            mret None
        else if bool_decide (choice = "2") then
          answer ← input_prompt tty
            (LF +:+ "Enter the PBF filename (e.g., karnataka-latest.osm.pbf): ")
            stdin;
          let pbf_file := strip (fst answer) in
          found ← path_exists pbf_file;
          if negb found then
            _ ← print tty ("✗ ERROR: " +:+ pbf_file +:+ " not found!");
            mret (Some 1)
          else
            extracted ← extract_from_pbf pbf_file;
            if negb extracted then mret (Some 1) else mret None
        else if bool_decide (choice = "3") then
          _ ← print tty (LF +:+ "👋 Okay! Download the OSM file first, then run this script again.");
          _ ← print tty (LF +:+ "Recommended: Use OpenStreetMap Export for quick small area download");
          _ ← print tty "URL: https://www.openstreetmap.org/export";
          mret (Some 0)
        else
          _ ← print tty "Invalid choice!";
          mret (Some 1) : M (option Z));
     match proceed with
     | Some code => mret code
     | None =>
         converted ← convert_to_sumo SumoNetwork.OSM_FILE
                                     SumoNetwork.SUMO_NET_FILE;
         if negb converted then
           _ ← print tty (LF +:+ "✗ Failed to convert to SUMO network.");
           mret 1
         else
           _ ← print_lines tty
                 [ LF +:+ BAR70;
                   "✓ SUCCESS! SUMO network generation completed";
                   BAR70;
                   LF +:+ "Generated files:";
                   "  1. " +:+ SumoNetwork.OSM_FILE
                     +:+ " - OpenStreetMap XML file";
                   "  2. " +:+ SumoNetwork.SUMO_NET_FILE
                     +:+ " - SUMO network file (ready for simulation)";
                   LF +:+ "Next steps:";
                   "  - View network: sumo-gui -n "
                     +:+ SumoNetwork.SUMO_NET_FILE;
                   "  - Generate traffic: randomTrips.py or activitygen";
                   "  - Create simulation config and run!" ];
           mret 0
     end)
    (fun e =>
       _ ← print tty (LF +:+ "✗ Unexpected error: " +:+ str_exn e);
       _ ← print_exc tty (traceback e);
       mret 1).

End Console.
End SumoNetworkIO.

(** ** Concrete environments

    Stand-ins for the three external tools, to run the pipeline on explicit
    inputs. *)

Module Scenario.

(** What a stand-in does when it is started: it completes with an exit
    code, leaving its output file or not, or it cannot be run. *)
Inductive behaviour :=
| Completes (code : Z) (makes_output : bool)
| Fails (e : exn).

(** The argument that follows [flag] on the command line. *)
Fixpoint arg_after (flag : string) (cmd : list string) : option string :=
  match cmd with
  | [] => None
  | x :: rest =>
      if bool_decide (x = flag) then head rest else arg_after flag rest
  end.

Definition create (path : string) (new : file) (f : FS) : FS :=
  mk_FS (<[path := new]> (entries f)) (can_create f).

Definition act (b : behaviour) (output : option string) (new : file)
    (f : FS) : outcome CompletedProcess * FS :=
  match b with
  | Completes code makes =>
      (Return (mk_CompletedProcess code "" "rejected"),
       match output with
       | Some path => if makes then create path new f else f
       | None => f
       end)
  | Fails e => (Raise e, f)
  end.

Definition xml (text : string) : file := mk_file true true text.

(** The tools, told apart by the first word of the command line; [net]
    is the network file left by the converter. *)
Definition tools (netconvert randomTrips duarouter : behaviour)
    (net : file) (cmd : list string) (timeout : Z) (f : FS)
  : outcome CompletedProcess * FS :=
  match head cmd with
  | Some "netconvert" => act netconvert (arg_after "--output-file" cmd) net f
  | Some "python3" => act randomTrips (arg_after "-o" cmd) (xml "<routes/>") f
  | Some "duarouter" => act duarouter (arg_after "-o" cmd) (xml "<routes/>") f
  | _ => (Raise FileNotFoundError, f)
  end.

Definition noon : datetime := mk_datetime 2025 3 1 12 0 0 0.

(** A clock that advances by one second at each reading. *)
Definition seconds_clock (n : nat) : datetime :=
  mk_datetime 2025 3 1 12 0 (Z.of_nat n) 0.

Definition world (files : list (string * file)) (creatable : bool)
    (exec : list string -> Z -> FS -> outcome CompletedProcess * FS)
  : World :=
  mk_World (mk_FS (list_to_map files) creatable) ∅ exec seconds_clock 0 []
           [] noon.

Definition ok : behaviour := Completes 0 true.
Definition no_output : behaviour := Completes 0 false.
Definition rejects : behaviour := Completes 1 false.

(** A network with two junctions and one edge. *)
Definition small_net : file :=
  xml "<net><junction id=a/><junction id=b/><edge id=e1/></net>".

Definition indiranagar : Area := mk_Area "Indiranagar" "indiranagar.osm".

Definition source : list (string * file) :=
  [ ("indiranagar.osm", xml "<osm/>") ].

Definition all_sources : list (string * file) :=
  map (fun area => (osm_file area, xml "<osm/>")) AREAS.

(** Worlds for the area Indiranagar: every tool behaves; the source file
    is missing; one tool misbehaves; the network file cannot be read;
    the directory takes no new file. *)
Definition w_ok : World := world source true (tools ok ok ok small_net).
Definition w_missing : World := world [] true (tools ok ok ok small_net).
Definition w_convert_no_output : World :=
  world source true (tools no_output ok ok small_net).
Definition w_trips_no_output : World :=
  world source true (tools ok no_output ok small_net).
Definition w_routes_timeout : World :=
  world source true (tools ok ok (Fails TimeoutExpired) small_net).
Definition w_net_unreadable : World :=
  world source true (tools ok ok ok (mk_file false true "<net/>")).

(** The configuration file of Indiranagar is there and cannot be
    overwritten. *)
Definition w_config_locked : World :=
  world (("indiranagar.sumocfg", mk_file true false "old") :: source)
        true (tools ok ok ok small_net).

(** The worlds left by the converter and by the reading of the network
    file in a run for Indiranagar. *)
Definition after_convert (w : World) : World :=
  snd (convert_to_sumo "indiranagar.osm" "Indiranagar" w).

(** Worlds for the batch: every area succeeds; and the same with a
    report file that cannot be overwritten. *)
Definition w_all_ok : World :=
  world all_sources true (tools ok ok ok small_net).

End Scenario.

(** ** Concrete environments for the other scripts *)

Module Cases.

(** The files [traffic_generator.py] starts from. *)
Definition traffic_files : list (string * file) :=
  [ ("electronic_city.net.xml", Scenario.small_net);
    ("/usr/local/share/sumo/tools/randomTrips.py",
     Scenario.xml "import sys") ].

(** Worlds for [traffic_generator.py]: both tools behave; the trip tool
    exits with code 0 and leaves no trips file. *)
Definition w_traffic_ok : World :=
  Scenario.world traffic_files true
    (Scenario.tools Scenario.ok Scenario.ok Scenario.ok Scenario.small_net).
Definition w_traffic_no_trips : World :=
  Scenario.world traffic_files true
    (Scenario.tools Scenario.ok Scenario.no_output Scenario.ok
                    Scenario.small_net).

(** Stand-ins for [osmium] and [netconvert] as [sumo_network.py] calls
    them: what each does when asked for its version, and when asked to
    work. *)
Definition sumo_tools
    (osmium_probe osmium netconvert_probe netconvert : Scenario.behaviour)
    (cmd : list string) (timeout : Z) (f : FS)
  : outcome CompletedProcess * FS :=
  match cmd with
  | ["osmium"; "--version"] =>
      Scenario.act osmium_probe None (Scenario.xml "") f
  | "osmium" :: _ =>
      Scenario.act osmium (Scenario.arg_after "-o" cmd)
                   (Scenario.xml "<osm/>") f
  | ["netconvert"; "--version"] =>
      Scenario.act netconvert_probe None (Scenario.xml "") f
  | "netconvert" :: _ =>
      Scenario.act netconvert (Scenario.arg_after "--output-file" cmd)
                   Scenario.small_net f
  | _ => (Raise FileNotFoundError, f)
  end.

Definition pbf : list (string * file) :=
  [ ("karnataka-latest.osm.pbf", Scenario.xml "pbf") ].

(** Worlds for [sumo_network.py]: every tool behaves; [osmium] may not be
    run; [osmium] is not installed; the version probe of [netconvert]
    exits with code 1 and the conversion behaves. *)
Definition w_sumo_ok : World :=
  Scenario.world pbf true
    (sumo_tools Scenario.ok Scenario.ok Scenario.ok Scenario.ok).
Definition w_osmium_missing : World :=
  Scenario.world pbf true
    (sumo_tools (Scenario.Fails FileNotFoundError) Scenario.ok Scenario.ok
                Scenario.ok).
Definition w_probe_exits_one : World :=
  Scenario.world [("electronic_city.osm", Scenario.xml "<osm/>")] true
    (sumo_tools Scenario.ok Scenario.ok Scenario.rejects Scenario.ok).

(** A console that takes every text, and one whose standard output is
    encoded in ASCII: a text with another character raises
    [UnicodeEncodeError]; the standard error replaces such characters and
    takes every text. *)
Definition accepting : console := fun _ _ => None.

Definition is_ascii (s : string) : bool :=
  forallb (fun c => (nat_of_ascii c <? 128)%nat) (list_ascii_of_string s).

Definition ascii_only : console :=
  fun f s =>
    match f with
    | sys_stdout =>
        if is_ascii s then None
        else Some (OtherException "UnicodeEncodeError")
    | sys_stderr => None
    end.

(** A text for each exception, and a traceback of two lines. *)
Definition str_exn (e : exn) : string :=
  match e with
  | FileNotFoundError => "[Errno 2] No such file or directory"
  | PermissionError => "[Errno 13] Permission denied"
  | TimeoutExpired => "Command timed out"
  | OtherException msg => msg
  end.

Definition traceback (e : exn) : list string :=
  [ "Traceback (most recent call last):" +:+ LF; str_exn e +:+ LF ].

End Cases.

(** ** Notions used to state the properties *)

(** The totals as the design words them: start from the figures of the
    baseline entry and add each result whose status is Success; an area
    counts for the configured 100 vehicles. *)
Definition baseline_totals : totals := mk_totals 1 94 198 100.

Definition add_success (t : totals) (r : AreaResult) : totals :=
  mk_totals (areasCompleted t + 1)
            (totalJunctions t + junctions r)
            (totalEdges t + edges r)
            (totalVehicles t + 100).


(** The tool ran to its end with exit code 0: [subprocess.run] did not
    raise (executable not found, time budget exceeded) and the exit code
    is not a failure. *)
Definition completed_ok (o : outcome CompletedProcess) : bool :=
  match o with
  | Return result => returncode result =? 0
  | Raise _ => false
  end.

(** The world after [subprocess.run(cmd, ..., timeout=t)], and what the
    call gave. *)
Definition after_run (w : World) (cmd : list string) (t : Z) : World :=
  set_fs (log w (Run cmd)) (snd (exec w cmd t (fs w))).

Definition run_result (w : World) (cmd : list string) (t : Z)
  : outcome CompletedProcess :=
  fst (exec w cmd t (fs w)).

(** The path of [randomTrips.py] in the world [w]. *)
Definition randomtrips_path (w : World) : string :=
  path_join (default "/usr/local/share/sumo" (environ w !! "SUMO_HOME"))
            ["tools"; "randomTrips.py"].

(** Every check that [process_area] makes passes in the run of [area] from
    [w]: the source file is there; each of the three tools is found, ends
    in time and exits with code 0; the network file and the route file are
    there after their tools; the two files of the configuration can be
    written.  The trips file is not among them: the code does not look for
    it ([first_failure] does). *)
Definition run_succeeds (area : Area) (w : World) : bool :=
  let net_file := lower (area_name area) +:+ ".net.xml" in
  let trips_file := lower (area_name area) +:+ ".trips.xml" in
  let route_file := lower (area_name area) +:+ ".rou.xml" in
  let add_file := lower (area_name area) +:+ ".add.xml" in
  let config_file := lower (area_name area) +:+ ".sumocfg" in
  exists_in (fs w) (osm_file area) &&
  let '(o1, fs1) :=
    exec w (netconvert_cmd (osm_file area) net_file) 300 (fs w) in
  completed_ok o1 && exists_in fs1 net_file &&
  let '(o2, fs2) :=
    exec w (randomtrips_cmd (randomtrips_path w) net_file trips_file)
         120 fs1 in
  completed_ok o2 &&
  let '(o3, fs3) :=
    exec w (duarouter_cmd net_file trips_file route_file) 120 fs2 in
  completed_ok o3 && exists_in fs3 route_file &&
  can_open_w fs3 add_file &&
  can_open_w (put fs3 add_file (String.concat "" additional_writes))
             config_file.

(** The world when the loop of [main] over [AREAS] is over, in a process
    started in [w]: the module is loaded, then each area is run. *)
Definition batch_world (w : World) : World :=
  snd ((_ ← module_init; process_all AREAS) w).

(** The [f.write] calls of the first loop of the final report, for the
    results [rs] numbered from [i]. *)
Definition area_lines (i : Z) (rs : list AreaResult) : list string :=
  written (report_areas (mk_report_acc 0 0 0 []) i rs).

(** The text of a file written by the calls [writes]. *)
Definition text_of (writes : list string) : string :=
  String.concat "" writes.


(** What a world keeps when only its file system and its trace change. *)
Definition same_program_state (w w' : World) : Prop :=
  environ w' = environ w /\ exec w' = exec w /\ clock w' = clock w
  /\ ticks w' = ticks w /\ results w' = results w
  /\ start_time w' = start_time w.

(** What every record made by [process_area] satisfies. *)
Definition well_formed (r : AreaResult) : Prop :=
  (status r = "Success" \/ status r = "Failed")
  /\ vehicles r = 100 /\ 0 <= junctions r /\ 0 <= edges r.


(** The number of occurrences of the character [c] in [s]. *)
Fixpoint count_char (c : ascii) (s : string) : nat :=
  match s with
  | EmptyString => 0
  | String x s' => (if bool_decide (x = c) then 1 else 0) + count_char c s'
  end.

(** Every step of [traffic_generator.py] passes in the world [w]: the
    network file and the script [randomTrips.py] are there; each tool is
    found, ends in time and exits with code 0; the trips file and the
    route file are there after their tools; the two files can be
    written. *)
Definition traffic_run_succeeds (w : World) : bool :=
  exists_in (fs w) TrafficGenerator.NETWORK_FILE &&
  exists_in (fs w) (randomtrips_path w) &&
  let '(o1, fs1) :=
    exec w (TrafficGenerator.randomtrips_cmd (randomtrips_path w)) 120
         (fs w) in
  completed_ok o1 && exists_in fs1 TrafficGenerator.TRIPS_FILE &&
  let '(o2, fs2) := exec w TrafficGenerator.duarouter_cmd 120 fs1 in
  completed_ok o2 && exists_in fs2 TrafficGenerator.ROUTE_FILE &&
  can_open_w fs2 TrafficGenerator.ADDITIONAL_FILE &&
  can_open_w (put fs2 TrafficGenerator.ADDITIONAL_FILE
                  TrafficGenerator.additional_content)
             TrafficGenerator.CONFIG_FILE.

(** All that a run of [TrafficGenerator.main] can do to the outside, in
    order. *)
Definition traffic_events (w : World) : list event :=
  [ Run (TrafficGenerator.randomtrips_cmd (randomtrips_path w));
    Run TrafficGenerator.duarouter_cmd;
    OpenWrite TrafficGenerator.ADDITIONAL_FILE;
    OpenWrite TrafficGenerator.CONFIG_FILE ].

(** A console that takes every text. *)
Definition takes_all (tty : console) : Prop := forall f s, tty f s = None.

(** The exception [e] is one that a write to the console raised. *)
Definition refused (tty : console) (e : exn) : Prop :=
  exists f s, tty f s = Some e.

(** The ways a run of the area pipeline fails: the source file is missing;
    a tool is not found, runs out of time, raises otherwise or exits with a
    code other than 0; the file a step is to leave is not there; a file of
    the configuration cannot be written. *)
Inductive failure :=
| MissingInput
| ToolNotFound (s : Stage)
| ToolTimeout (s : Stage)
| ToolRaises (s : Stage)
| NonzeroExit (s : Stage)
| MissingArtifact (s : Stage)
| NotWritable (path : string).

(** The failure of a tool started by the step [s], from what
    [subprocess.run] gave. *)
Definition tool_failure (s : Stage) (o : outcome CompletedProcess)
  : option failure :=
  match o with
  | Raise FileNotFoundError => Some (ToolNotFound s)
  | Raise TimeoutExpired => Some (ToolTimeout s)
  | Raise _ => Some (ToolRaises s)
  | Return result =>
      if returncode result =? 0 then None else Some (NonzeroExit s)
  end.

(** The first failure met when the steps for [area] are run in order from
    [w], each tool on the files the tool before it left; [None] when there
    is none: then the network file, the trips file and the route file are
    all there and the two files of the configuration can be written. *)
Definition first_failure (area : Area) (w : World) : option failure :=
  let net_file := lower (area_name area) +:+ ".net.xml" in
  let trips_file := lower (area_name area) +:+ ".trips.xml" in
  let route_file := lower (area_name area) +:+ ".rou.xml" in
  let add_file := lower (area_name area) +:+ ".add.xml" in
  let config_file := lower (area_name area) +:+ ".sumocfg" in
  if negb (exists_in (fs w) (osm_file area)) then Some MissingInput
  else
    let '(o1, fs1) :=
      exec w (netconvert_cmd (osm_file area) net_file) 300 (fs w) in
    match tool_failure Convert o1 with
    | Some f => Some f
    | None =>
    if negb (exists_in fs1 net_file) then Some (MissingArtifact Convert)
    else
      let '(o2, fs2) :=
        exec w (randomtrips_cmd (randomtrips_path w) net_file trips_file)
             120 fs1 in
      match tool_failure SynthesizeTrips o2 with
      | Some f => Some f
      | None =>
      if negb (exists_in fs2 trips_file)
      then Some (MissingArtifact SynthesizeTrips)
      else
        let '(o3, fs3) :=
          exec w (duarouter_cmd net_file trips_file route_file) 120 fs2 in
        match tool_failure ComputeRoutes o3 with
        | Some f => Some f
        | None =>
        if negb (exists_in fs3 route_file)
        then Some (MissingArtifact ComputeRoutes)
        else if negb (can_open_w fs3 add_file)
        then Some (NotWritable add_file)
        else if negb (can_open_w
                        (put fs3 add_file
                             (String.concat "" additional_writes))
                        config_file)
        then Some (NotWritable config_file)
        else None
        end
      end
    end.


(** * Properties *)

(** ** Aggregation *)

Lemma report_area_counts acc i r :
  totals_of (report_area acc i r)
  = if success r then add_success (totals_of acc) r else totals_of acc.
Proof.
  unfold report_area, totals_of, add_success.
  destruct (success r); simpl; f_equal; lia.
Qed.

Lemma report_areas_fold rs : forall acc i,
  totals_of (report_areas acc i rs)
  = fold_left add_success (filter (fun r => success r = true) rs)
              (totals_of acc).
Proof.
  induction rs as [|r rs IH]; intros acc i; simpl; [reflexivity|].
  rewrite IH, report_area_counts, filter_cons.
  destruct (decide (success r = true)) as [E|E].
  - rewrite E. reflexivity.
  - apply not_true_is_false in E. rewrite E. reflexivity.
Qed.

(** The counters of the loop do not depend on what was written before. *)
Lemma final_report_totals rs start completion current :
  totals_of (report_areas (report_start start completion current) 2 rs)
  = report_totals rs.
Proof.
  unfold report_totals. rewrite !report_areas_fold. reflexivity.
Qed.


(** When each successful result carries the configured 100 vehicles, as
    the results of [process_area] do, the vehicle total is the sum of the
    vehicle counts of the baseline and of the successful results. *)
Lemma total_vehicles_sum (rs : list AreaResult) :
  Forall (fun r => success r = true -> vehicles r = 100) rs ->
  totalVehicles (report_totals rs)
  = 100 + fold_right Z.add 0
            (map vehicles (filter (fun r => success r = true) rs)).
Proof.
  intros H. unfold report_totals. rewrite report_areas_fold.
  change (totals_of (mk_report_acc 0 94 198 [])) with baseline_totals.
  assert (G : forall l t,
             Forall (fun r => vehicles r = 100) l ->
             totalVehicles (fold_left add_success l t)
             = totalVehicles t + fold_right Z.add 0 (map vehicles l)).
  { induction l as [|r l IH]; intros t Hl; simpl; [lia|].
    inversion Hl; subst. rewrite IH by assumption. simpl. lia. }
  rewrite G; [reflexivity|].
  induction H as [|r l Hr Hl IH]; [constructor|].
  rewrite filter_cons. destruct (decide (success r = true)); auto.
Qed.

(** C1.  With the baseline of 94 junctions, 198 edges and 100 vehicles, one
    Success entry with 85 junctions, 180 edges and 100 vehicles and one
    Failed entry, in either order, the totals are 2 areas, 179 junctions,
    378 edges and 200 vehicles, and these are the figures printed in the
    report; the Failed entry adds nothing whatever its junction, edge and
    vehicle counts are. *)
Theorem round_trip_totals (nameA nameB : string) (jB eB vB : Z)
    (start completion current : datetime) :
  let A := mk_AreaResult nameA "Success" 85 180 100 in
  let B := mk_AreaResult nameB "Failed" jB eB vB in
  report_totals [A; B] = mk_totals 2 179 378 200
  /\ report_totals [B; A] = mk_totals 2 179 378 200
  /\ report_totals [A; B] = report_totals [A]
  /\ incl [ "Total Areas Completed: 2/8" +:+ LF;
            "Total Junctions: 179" +:+ LF;
            "Total Road Segments: 378" +:+ LF;
            "Total Vehicles: 200" +:+ LF +:+ LF ]
          (final_report_writes [A; B] start completion current).
Proof.
  intros A B. repeat split; try reflexivity.
  unfold final_report_writes.
  intros x Hx. apply in_or_app. right.
  unfold report_end. apply in_or_app. left.
  simpl in Hx. simpl.
  intuition (subst; auto).
Qed.

(** ** The steps of the pipeline, one by one *)

Ltac unfold_M :=
  unfold mbind, M_bind, mret, M_ret, try_except, raise, gets,
    subprocess_run, path_exists, environ_get, read_file, with_open_w, now.

(** A file name with a suffix is not the empty string. *)
Lemma is_falsy_suffix (a b : string) :
  b <> "" -> is_falsy (Some (a +:+ b)) = false.
Proof.
  intros Hb. unfold is_falsy, truthy.
  rewrite bool_decide_eq_false_2; [reflexivity|].
  intros H. destruct a; simpl in H; [auto|discriminate].
Qed.

(** [convert_to_sumo] runs the converter once, never raises, and gives the
    network file exactly when the converter completed with code 0 and the
    file is there afterwards. *)
Lemma convert_to_sumo_run (osm_file area_name : string) (w : World) :
  let net_file := lower area_name +:+ ".net.xml" in
  let cmd := netconvert_cmd osm_file net_file in
  convert_to_sumo osm_file area_name w
  = (Return (if completed_ok (run_result w cmd 300)
                && exists_in (fs (after_run w cmd 300)) net_file
             then Some net_file else None),
     after_run w cmd 300).
Proof.
  intros net_file cmd. unfold convert_to_sumo, after_run, run_result.
  fold net_file. fold cmd. unfold_M.
  destruct (exec w cmd 300 (fs w)) as [[result|e] fs1]; simpl; [|reflexivity].
  destruct (returncode result =? 0); simpl; [|reflexivity].
  destruct (exists_in fs1 net_file); reflexivity.
Qed.

(** [get_network_stats] only reads the file, and never raises: it counts
    the markers of a file that can be read, and gives two zeros
    otherwise. *)
Lemma get_network_stats_run (net_file : string) (w : World) :
  get_network_stats net_file w
  = (Return (if can_read (fs w) net_file
             then match entries (fs w) !! net_file with
                  | Some x => (str_count (content x) "<junction",
                               str_count (content x) "<edge")
                  | None => (0, 0)
                  end
             else (0, 0)),
     log w (OpenRead net_file)).
Proof.
  unfold get_network_stats, can_read. unfold_M.
  destruct (entries (fs w) !! net_file) as [x|]; [|reflexivity].
  destruct (readable x); reflexivity.
Qed.

(** [generate_traffic] never raises.  When the trip tool does not complete
    with code 0 the router is not started; otherwise the router is started
    and the route file is given exactly when the router completed with code
    0 and the file is there afterwards. *)
Lemma generate_traffic_run (net_file area_name : string) (w : World) :
  let trips_file := lower area_name +:+ ".trips.xml" in
  let route_file := lower area_name +:+ ".rou.xml" in
  let cmd1 := randomtrips_cmd (randomtrips_path w) net_file trips_file in
  let cmd2 := duarouter_cmd net_file trips_file route_file in
  let w1 := after_run w cmd1 120 in
  let w2 := after_run w1 cmd2 120 in
  generate_traffic net_file area_name w
  = if completed_ok (run_result w cmd1 120)
    then (Return (if completed_ok (run_result w1 cmd2 120)
                     && exists_in (fs w2) route_file
                  then Some route_file else None), w2)
    else (Return None, w1).
Proof.
  intros trips_file route_file cmd1 cmd2 w1 w2.
  unfold generate_traffic. fold trips_file. fold route_file.
  subst w2 w1. unfold after_run, run_result.
  unfold_M. cbv beta zeta. fold (randomtrips_path w). fold cmd1. fold cmd2.
  destruct (exec w cmd1 120 (fs w)) as [[r1|e1] fs1];
    cbn [fst snd completed_ok negb]; [|reflexivity].
  destruct (returncode r1 =? 0); cbn [negb]; [|reflexivity].
  cbn [exec fs set_fs log].
  destruct (exec w cmd2 120 fs1) as [[r2|e2] fs2];
    cbn [fst snd completed_ok andb fs set_fs]; [|reflexivity].
  destruct (returncode r2 =? 0); cbn [andb]; [|reflexivity].
  change (fs (set_fs (log (set_fs (log w (Run cmd1)) fs1) (Run cmd2)) fs2))
    with fs2.
  destruct (exists_in fs2 route_file); reflexivity.
Qed.

(** [create_config] never raises; it gives the configuration file exactly
    when both files could be opened for writing, and does not touch the
    second file when the first one could not be written. *)
Lemma create_config_run (net_file route_file area_name : string) (w : World) :
  let config_file := lower area_name +:+ ".sumocfg" in
  let add_file := lower area_name +:+ ".add.xml" in
  let w1 := set_fs (log w (OpenWrite add_file))
                   (put (fs w) add_file (String.concat "" additional_writes)) in
  create_config net_file route_file area_name w
  = if can_open_w (fs w) add_file
    then if can_open_w (fs w1) config_file
         then (Return (Some config_file),
               set_fs (log w1 (OpenWrite config_file))
                      (put (fs w1) config_file
                           (String.concat ""
                              [config_text net_file route_file add_file])))
         else (Return None, log w1 (OpenWrite config_file))
    else (Return None, log w (OpenWrite add_file)).
Proof.
  intros config_file add_file w1.
  unfold create_config. fold config_file. fold add_file. unfold_M.
  destruct (can_open_w (fs w) add_file); [|reflexivity].
  cbn [fs set_fs log]. fold w1.
  change (fs w1) with (put (fs w) add_file (String.concat "" additional_writes)).
  destruct (can_open_w _ config_file); reflexivity.
Qed.

(** ** The run of one area *)

(** [process_area] step by step: the steps run in order, each from the
    world the step before left, and the run ends in the world left by the
    first step that gives no file; only a run that passed every step is a
    Success. *)
Lemma process_area_run (area : Area) (w : World) :
  let failed := mk_AreaResult (area_name area) "Failed" 0 0 100 in
  process_area area w
  = if exists_in (fs w) (osm_file area) then
      match convert_to_sumo (osm_file area) (area_name area) w with
      | (Return (Some net_file), w1) =>
          match get_network_stats net_file w1 with
          | (Return (j, e), w2) =>
              let measured := mk_AreaResult (area_name area) "Failed" j e 100 in
              match generate_traffic net_file (area_name area) w2 with
              | (Return (Some route_file), w3) =>
                  match create_config net_file route_file (area_name area) w3
                  with
                  | (Return (Some _), w4) =>
                      (Return (set_status measured "Success"), w4)
                  | (_, w4) => (Return measured, w4)
                  end
              | (_, w3) => (Return measured, w3)
              end
          | (Raise _, w2) => (Return failed, w2)
          end
      | (_, w1) => (Return failed, w1)
      end
    else (Return failed, w).
Proof.
  intros failed. unfold process_area. fold failed.
  unfold mbind at 1, M_bind at 1, path_exists at 1.
  destruct (exists_in (fs w) (osm_file area)); [|reflexivity].
  cbn [negb]. unfold try_except at 1, mbind at 1, M_bind at 1.
  pose proof (convert_to_sumo_run (osm_file area) (area_name area) w) as Hc.
  cbv zeta in Hc. rewrite Hc. clear Hc.
  destruct (completed_ok _ && exists_in _ _); [|reflexivity].
  rewrite is_falsy_suffix by discriminate.
  unfold mbind at 1, M_bind at 1.
  rewrite get_network_stats_run.
  set (stats := if can_read _ _ then _ else _).
  destruct stats as [j e]. cbn [fst snd].
  unfold try_except at 1, mbind at 1, M_bind at 1.
  pose proof (generate_traffic_run (lower (area_name area) +:+ ".net.xml")
                (area_name area)
                (log (after_run w (netconvert_cmd (osm_file area)
                        (lower (area_name area) +:+ ".net.xml")) 300)
                     (OpenRead (lower (area_name area) +:+ ".net.xml"))))
    as Ht.
  cbv zeta in Ht. rewrite Ht. clear Ht.
  destruct (completed_ok _); [|reflexivity].
  destruct (completed_ok _ && exists_in _ _); [|reflexivity].
  rewrite is_falsy_suffix by discriminate.
  unfold mbind at 1, M_bind at 1.
  match goal with
  | |- context [create_config ?n ?r ?a ?w0] =>
      pose proof (create_config_run n r a w0) as Hk
  end.
  cbv zeta in Hk. rewrite Hk. clear Hk.
  destruct (can_open_w _ _); [|reflexivity].
  destruct (can_open_w _ _); [|reflexivity].
  rewrite is_falsy_suffix by discriminate.
  reflexivity.
Qed.

Import Scenario.

(** ** Runs on explicit inputs *)

(** Every tool behaves: the area is a Success with the counts of the
    network file, and the six steps ran in order. *)
Example run_every_tool_behaves :
  returned (process_area indiranagar w_ok)
  = Some (mk_AreaResult "Indiranagar" "Success" 2 1 100)
  /\ stages_run (snd (process_area indiranagar w_ok))
     = [Convert; Measure; SynthesizeTrips; ComputeRoutes;
        AssembleConfig; AssembleConfig].
Proof. split; vm_compute; reflexivity. Qed.

(** The converter exits with code 0 and leaves no network file: the run
    stops after the converter. *)
Example run_converter_leaves_nothing :
  returned (process_area indiranagar w_convert_no_output)
  = Some (mk_AreaResult "Indiranagar" "Failed" 0 0 100)
  /\ stages_run (snd (process_area indiranagar w_convert_no_output))
     = [Convert].
Proof. split; vm_compute; reflexivity. Qed.

(** The router runs out of time: [subprocess.run] raises, the run stops
    after the router and no configuration is written. *)
Example run_router_times_out :
  returned (process_area indiranagar w_routes_timeout)
  = Some (mk_AreaResult "Indiranagar" "Failed" 2 1 100)
  /\ stages_run (snd (process_area indiranagar w_routes_timeout))
     = [Convert; Measure; SynthesizeTrips; ComputeRoutes]
  /\ exists_in (fs (snd (process_area indiranagar w_routes_timeout)))
               "indiranagar.sumocfg" = false.
Proof. repeat split; vm_compute; reflexivity. Qed.

(** The markers are counted as text. *)
Example count_markers :
  str_count (content small_net) "<junction" = 2
  /\ str_count (content small_net) "<edge" = 1
  /\ str_count "<edges><edge id=a/></edges>" "<edge" = 2.
Proof. repeat split; reflexivity. Qed.

(** ** The check of the source file *)




(** ** Exit code and output file of a step *)

(** The converter that exits with code 0 and leaves no network file is
    reported as failed. *)
Lemma convert_needs_its_output (osm_file area_name : string) (w : World) :
  let net_file := lower area_name +:+ ".net.xml" in
  let cmd := netconvert_cmd osm_file net_file in
  exists_in (fs (after_run w cmd 300)) net_file = false ->
  convert_to_sumo osm_file area_name w = (Return None, after_run w cmd 300).
Proof.
  intros net_file cmd H.
  pose proof (convert_to_sumo_run osm_file area_name w) as E. cbv zeta in E.
  fold net_file in E. fold cmd in E.
  rewrite E, H, andb_false_r. reflexivity.
Qed.

(** The router that exits with code 0 and leaves no route file is reported
    as failed. *)
Lemma router_needs_its_output (net_file area_name : string) (w : World) :
  let trips_file := lower area_name +:+ ".trips.xml" in
  let route_file := lower area_name +:+ ".rou.xml" in
  let cmd1 := randomtrips_cmd (randomtrips_path w) net_file trips_file in
  let cmd2 := duarouter_cmd net_file trips_file route_file in
  let w2 := after_run (after_run w cmd1 120) cmd2 120 in
  completed_ok (run_result w cmd1 120) = true ->
  exists_in (fs w2) route_file = false ->
  generate_traffic net_file area_name w = (Return None, w2).
Proof.
  intros trips_file route_file cmd1 cmd2 w2 H1 H2.
  pose proof (generate_traffic_run net_file area_name w) as E. cbv zeta in E.
  fold trips_file in E. fold route_file in E. fold cmd1 in E. fold cmd2 in E.
  fold w2 in E.
  rewrite E, H1, H2, andb_false_r. reflexivity.
Qed.

(** C3, at the input where the code departs from it.  The trip tool exits
    with code 0 and leaves no trips file; the converter and the router
    behave.  [generate_traffic] does not look for the trips file: the
    router is started, the step gives the route file, and the area is a
    Success although the trips file never existed. *)
Theorem trips_output_is_not_checked :
  let run := process_area indiranagar w_trips_no_output in
  returned run = Some (mk_AreaResult "Indiranagar" "Success" 2 1 100)
  /\ stages_run (snd run)
     = [Convert; Measure; SynthesizeTrips; ComputeRoutes;
        AssembleConfig; AssembleConfig]
  /\ exists_in (fs (snd run)) "indiranagar.trips.xml" = false
  /\ returned (generate_traffic "indiranagar.net.xml" "Indiranagar"
                 (snd (convert_to_sumo "indiranagar.osm" "Indiranagar"
                                       w_trips_no_output)))
     = Some (Some "indiranagar.rou.xml").
Proof.
  repeat split; vm_compute; reflexivity.
Qed.

(** ** Short circuit *)




(** ** Every run returns a record *)

(** What a run of [process_area] gives, whatever the world does: it
    returns a record for the area with the configured 100 vehicles, whose
    status is Success when no failure mode occurred and Failed otherwise;
    the list [results] of the module is not touched. *)
Lemma process_area_outcome (area : Area) (w : World) :
  exists r w',
    process_area area w = (Return r, w')
    /\ name r = area_name area
    /\ vehicles r = 100
    /\ status r = (if run_succeeds area w then "Success" else "Failed")
    /\ results w' = results w.
Proof.
  rewrite process_area_run. cbv zeta. unfold run_succeeds.
  destruct (exists_in (fs w) (osm_file area)); cbn [andb];
    [|eexists _, _; repeat split; reflexivity].
  pose proof (convert_to_sumo_run (osm_file area) (area_name area) w) as Hc.
  cbv zeta in Hc. rewrite Hc. clear Hc.
  unfold after_run at 1, run_result at 1.
  set (net_file := lower (area_name area) +:+ ".net.xml").
  set (cmd0 := netconvert_cmd (osm_file area) net_file).
  unfold after_run. 
  destruct (exec w cmd0 300 (fs w)) as [o1 fs1]. cbn [fst snd fs set_fs log].
  destruct (completed_ok o1 && exists_in fs1 net_file); cbn [andb];
    [|eexists _, _; repeat split; reflexivity].
  rewrite get_network_stats_run.
  set (stats := if can_read _ _ then _ else _).
  destruct stats as [j e].
  match goal with
  | |- context [generate_traffic ?n ?a ?w0] =>
      pose proof (generate_traffic_run n a w0) as Ht
  end.
  cbv zeta in Ht. rewrite Ht. clear Ht.
  unfold after_run, run_result, randomtrips_path.
  cbn [fst snd fs set_fs log exec environ].
  set (cmd1 := randomtrips_cmd _ net_file _).
  destruct (exec w cmd1 120 fs1) as [o2 fs2]. cbn [fst snd].
  destruct (completed_ok o2); cbn [andb];
    [|eexists _, _; repeat split; reflexivity].
  set (cmd2 := duarouter_cmd net_file _ _).
  destruct (exec w cmd2 120 fs2) as [o3 fs3]. cbn [fst snd].
  destruct (completed_ok o3 && exists_in fs3 _); cbn [andb];
    [|eexists _, _; repeat split; reflexivity].
  match goal with
  | |- context [create_config ?n ?r ?a ?w0] =>
      pose proof (create_config_run n r a w0) as Hk
  end.
  cbv zeta in Hk. rewrite Hk. clear Hk. cbn [fst snd fs set_fs log].
  destruct (can_open_w fs3 _); cbn [andb];
    [|eexists _, _; repeat split; reflexivity].
  destruct (can_open_w _ _);
    eexists _, _; repeat split; reflexivity.
Qed.

(** ** The Measure step *)

Lemma stages_run_log (w : World) (e : event) (s : Stage) :
  stage_of e = Some s -> stages_run (log w e) = stages_run w ++ [s].
Proof.
  intros H. unfold stages_run, log. cbn [trace].
  rewrite omap_app. cbn [omap list_omap]. rewrite H. reflexivity.
Qed.

Lemma stages_run_after_run (w : World) (cmd : list string) (t : Z) (s : Stage) :
  stage_of (Run cmd) = Some s ->
  stages_run (after_run w cmd t) = stages_run w ++ [s].
Proof.
  intros H. unfold after_run.
  change (stages_run (set_fs (log w (Run cmd)) (exec w cmd t (fs w)).2))
    with (stages_run (log w (Run cmd))).
  apply stages_run_log, H.
Qed.

(** Once the converter gave the network file, the run goes on to read the
    file and to start the trip tool, whatever the reading gives. *)
Lemma process_area_goes_on (area : Area) (w w1 : World) (net_file : string) :
  exists_in (fs w) (osm_file area) = true ->
  convert_to_sumo (osm_file area) (area_name area) w
  = (Return (Some net_file), w1) ->
  exists later,
    stages_run (snd (process_area area w))
    = stages_run w ++ [Convert; Measure; SynthesizeTrips] ++ later.
Proof.
  intros Hsrc Hc. rewrite process_area_run. cbv zeta. rewrite Hsrc, Hc.
  pose proof (convert_to_sumo_run (osm_file area) (area_name area) w) as E.
  cbv zeta in E. rewrite E in Hc. clear E.
  injection Hc as Hn Hw1.
  assert (S1 : stages_run w1 = stages_run w ++ [Convert]).
  { rewrite <- Hw1. apply stages_run_after_run. reflexivity. }
  clear Hn Hw1.
  rewrite get_network_stats_run.
  set (stats := if can_read _ _ then _ else _). destruct stats as [j e].
  set (w2 := log w1 (OpenRead net_file)).
  assert (S2 : stages_run w2 = stages_run w ++ [Convert; Measure]).
  { unfold w2. rewrite (stages_run_log _ _ Measure), S1 by reflexivity.
    rewrite <- app_assoc. reflexivity. }
  pose proof (generate_traffic_run net_file (area_name area) w2) as Ht.
  cbv zeta in Ht. rewrite Ht. clear Ht.
  set (cmd1 := randomtrips_cmd _ _ _). set (cmd2 := duarouter_cmd _ _ _).
  set (w3 := after_run w2 cmd1 120).
  assert (S3 : stages_run w3
               = stages_run w ++ [Convert; Measure; SynthesizeTrips]).
  { unfold w3. rewrite (stages_run_after_run _ _ _ SynthesizeTrips), S2
      by reflexivity.
    rewrite <- app_assoc. reflexivity. }
  destruct (completed_ok (run_result w2 cmd1 120)).
  2:{ exists []. cbn [snd]. rewrite S3. reflexivity. }
  set (w4 := after_run w3 cmd2 120).
  assert (S4 : stages_run w4
               = stages_run w ++ [Convert; Measure; SynthesizeTrips]
                 ++ [ComputeRoutes]).
  { unfold w4. rewrite (stages_run_after_run _ _ _ ComputeRoutes), S3
      by reflexivity.
    rewrite <- app_assoc. reflexivity. }
  destruct (completed_ok _ && exists_in _ _).
  2:{ exists [ComputeRoutes]. cbn [snd]. exact S4. }
  match goal with
  | |- context [create_config ?n ?r ?a ?w0] =>
      pose proof (create_config_run n r a w0) as Hk
  end.
  cbv zeta in Hk. rewrite Hk. clear Hk.
  set (add_file := lower (area_name area) +:+ ".add.xml").
  set (config_file := lower (area_name area) +:+ ".sumocfg").
  assert (S5 : forall f, stages_run (set_fs (log w4 (OpenWrite add_file)) f)
               = stages_run w ++ [Convert; Measure; SynthesizeTrips]
                 ++ [ComputeRoutes; AssembleConfig]).
  { intros f.
    change (stages_run (set_fs (log w4 (OpenWrite add_file)) f))
      with (stages_run (log w4 (OpenWrite add_file))).
    rewrite (stages_run_log _ _ AssembleConfig), S4 by reflexivity.
    rewrite <- !app_assoc. reflexivity. }
  destruct (can_open_w (fs w4) add_file).
  2:{ exists [ComputeRoutes; AssembleConfig]. cbn [snd].
      apply (S5 (fs w4)). }
  exists [ComputeRoutes; AssembleConfig; AssembleConfig].
  destruct (can_open_w _ config_file); cbn [snd].
  - match goal with
    | |- stages_run (set_fs (log ?w0 ?e) ?f) = _ =>
        change (stages_run (set_fs (log w0 e) f)) with (stages_run (log w0 e))
    end.
    rewrite (stages_run_log _ _ AssembleConfig), S5 by reflexivity.
    rewrite <- !app_assoc. reflexivity.
  - rewrite (stages_run_log _ _ AssembleConfig), S5 by reflexivity.
    rewrite <- !app_assoc. reflexivity.
Qed.

(** C7.  When the network file given by the converter cannot be read,
    [get_network_stats] does not raise and gives zero for both counts; the
    run goes on to the trip tool, its record has zero junctions and zero
    edges, and its status is decided by the other steps alone: Success
    when none of their failure modes occurred. *)
Theorem measure_failure_degrades_to_zero
    (area : Area) (w w1 : World) (net_file : string) :
  exists_in (fs w) (osm_file area) = true ->
  convert_to_sumo (osm_file area) (area_name area) w
  = (Return (Some net_file), w1) ->
  can_read (fs w1) net_file = false ->
  get_network_stats net_file w1 = (Return (0, 0), log w1 (OpenRead net_file))
  /\ exists r w',
       process_area area w = (Return r, w')
       /\ junctions r = 0
       /\ edges r = 0
       /\ status r = (if run_succeeds area w then "Success" else "Failed")
       /\ exists later,
            stages_run w'
            = stages_run w ++ [Convert; Measure; SynthesizeTrips] ++ later.
Proof.
  intros Hsrc Hc Hread.
  assert (Hs : get_network_stats net_file w1
               = (Return (0, 0), log w1 (OpenRead net_file))).
  { rewrite get_network_stats_run, Hread. reflexivity. }
  split; [exact Hs|].
  destruct (process_area_outcome area w) as (r & w' & H & _ & _ & Hst & _).
  destruct (process_area_goes_on area w w1 net_file Hsrc Hc) as [later Hl].
  exists r, w'. rewrite H in Hl. cbn [snd] in Hl.
  split; [exact H|].
  rewrite process_area_run in H. cbv zeta in H. rewrite Hsrc, Hc, Hs in H.
  destruct (generate_traffic _ _ _) as [[[route|]|?] w3];
    [destruct (create_config _ _ _ _) as [[[config|]|?] w4]| |];
    injection H as Hr Hw; subst r; cbn [junctions edges set_status];
    eauto 10.
Qed.

Lemma measure_failure_degrades_to_zero_witness :
  exists_in (fs w_net_unreadable) (osm_file indiranagar) = true
  /\ can_read (fs (after_convert w_net_unreadable)) "indiranagar.net.xml"
     = false
  /\ exists r w',
       process_area indiranagar w_net_unreadable = (Return r, w')
       /\ junctions r = 0
       /\ edges r = 0
       /\ status r = "Success".
Proof.
  split; [reflexivity|]. split; [vm_compute; reflexivity|].
  destruct (measure_failure_degrades_to_zero indiranagar w_net_unreadable
              (after_convert w_net_unreadable) "indiranagar.net.xml")
    as [_ (r & w' & H & Hj & He & Hs & _)];
    [reflexivity | vm_compute; reflexivity | vm_compute; reflexivity |].
  exists r, w'. split; [exact H|]. split; [exact Hj|]. split; [exact He|].
  rewrite Hs. vm_compute. reflexivity.
Defined.

(** ** The exit status of the batch *)







(** ** The reports and the clock *)

Lemma append_assoc (a b c : string) : (a +:+ b) +:+ c = a +:+ (b +:+ c).
Proof.
  induction a as [|x a IH]; [reflexivity|].
  change (String x ((a +:+ b) +:+ c) = String x (a +:+ (b +:+ c))).
  f_equal. exact IH.
Qed.

Lemma append_nil_r (a : string) : a +:+ "" = a.
Proof.
  induction a as [|x a IH]; [reflexivity|].
  change (String x (a +:+ "") = String x a). f_equal. exact IH.
Qed.

Lemma text_of_cons (x : string) (l : list string) :
  text_of (x :: l) = x +:+ text_of l.
Proof.
  unfold text_of. destruct l as [|y l]; simpl; [|reflexivity].
  symmetry. apply append_nil_r.
Qed.

Lemma text_of_app (l1 l2 : list string) :
  text_of (l1 ++ l2) = text_of l1 +:+ text_of l2.
Proof.
  induction l1 as [|x l1 IH]; [reflexivity|].
  cbn [app]. rewrite !text_of_cons, IH, append_assoc. reflexivity.
Qed.

(** The first loop appends its lines to what was written before. *)
Lemma written_report_areas (rs : list AreaResult) : forall acc i,
  written (report_areas acc i rs) = written acc ++ area_lines i rs.
Proof.
  unfold area_lines.
  induction rs as [|r rs IH]; intros acc i; cbn [report_areas].
  - cbn [written]. rewrite app_nil_r. reflexivity.
  - rewrite IH. rewrite (IH (report_area _ i r)).
    unfold report_area. destruct (success r); cbn [written app];
      rewrite <- !app_assoc; reflexivity.
Qed.

(** The lines after the first loop print the counters only. *)
Lemma report_end_totals (acc acc' : report_acc) (rs : list AreaResult) :
  totals_of acc = totals_of acc' -> report_end acc rs = report_end acc' rs.
Proof.
  unfold totals_of. intros H. injection H as H1 H2 H3 _.
  unfold report_end. rewrite H1, H2, H3. reflexivity.
Qed.

(** A text of at least six writes, around its fifth and sixth. *)
Lemma text_of_split6 (a b c d e f : string) (l : list string) :
  text_of (a :: b :: c :: d :: e :: f :: l)
  = text_of [a; b; c; d] +:+ e +:+ f +:+ text_of l.
Proof.
  rewrite !text_of_cons. cbn [text_of String.concat].
  rewrite !append_assoc. reflexivity.
Qed.

(** The writes of the final report: only the fifth and the sixth depend
    on the clock. *)
Lemma final_report_writes_split (rs : list AreaResult)
    (start completion current : datetime) :
  final_report_writes rs start completion current
  = [ BAR80 +:+ LF;
      "DIGITAL TWIN IMPLEMENTATION - FINAL REPORT" +:+ LF;
      "ALL 8 BANGALORE AREAS COMPLETED" +:+ LF;
      BAR80 +:+ LF +:+ LF;
      "Completion Date: " +:+ strftime completion +:+ LF;
      "Processing Time: " +:+ str_timedelta (datetime_sub current start)
        +:+ LF +:+ LF ]
    ++ skipn 6 (final_report_writes rs start noon noon).
Proof.
  unfold final_report_writes.
  rewrite (report_end_totals _ (report_areas (report_start start noon noon) 2 rs))
    by (rewrite !final_report_totals; reflexivity).
  rewrite !written_report_areas.
  reflexivity.
Qed.

(** The final report around its two fields that depend on the clock. *)
Lemma final_report_text (rs : list AreaResult)
    (start completion current : datetime) :
  text_of (final_report_writes rs start completion current)
  = text_of [ BAR80 +:+ LF;
              "DIGITAL TWIN IMPLEMENTATION - FINAL REPORT" +:+ LF;
              "ALL 8 BANGALORE AREAS COMPLETED" +:+ LF;
              BAR80 +:+ LF +:+ LF ]
    +:+ ("Completion Date: " +:+ strftime completion +:+ LF)
    +:+ ("Processing Time: " +:+ str_timedelta (datetime_sub current start)
         +:+ LF +:+ LF)
    +:+ text_of (skipn 6 (final_report_writes rs start noon noon)).
Proof.
  rewrite <- text_of_split6.
  rewrite final_report_writes_split at 1. reflexivity.
Qed.

(** A text of at least five writes, around its fifth. *)
Lemma text_of_split5 (a b c d e : string) (l : list string) :
  text_of (a :: b :: c :: d :: e :: l) = text_of [a; b; c; d] +:+ e +:+ text_of l.
Proof.
  rewrite !text_of_cons. cbn [text_of String.concat].
  rewrite !append_assoc. reflexivity.
Qed.

(** The detailed report around its field that depends on the clock. *)
Lemma detailed_report_text (generated : datetime) :
  text_of (QuickReport.detailed_report_writes generated)
  = text_of [ BAR80 +:+ LF;
              "DIGITAL TWIN IMPLEMENTATION REPORT" +:+ LF;
              "Traffic Simulation for Bangalore Key Areas" +:+ LF;
              BAR80 +:+ LF +:+ LF ]
    +:+ ("Report Generated: " +:+ strftime generated +:+ LF)
    +:+ text_of (skipn 5 (QuickReport.detailed_report_writes Scenario.noon)).
Proof.
  rewrite <- text_of_split5.
  reflexivity.
Qed.

(** What the two functions leave in their files. *)
Lemma generate_final_report_file (w : World) :
  can_open_w (fs w) "ALL_AREAS_COMPLETE_REPORT.txt" = true ->
  exists w',
    generate_final_report w = (Return "ALL_AREAS_COMPLETE_REPORT.txt", w')
    /\ content <$> entries (fs w') !! "ALL_AREAS_COMPLETE_REPORT.txt"
       = Some (text_of (final_report_writes (results w) (start_time w)
                          (clock w (ticks w)) (clock w (S (ticks w))))).
Proof.
  intros H. unfold generate_final_report. unfold_M. rewrite H.
  eexists. split; [reflexivity|].
  cbn [fs set_fs put entries]. rewrite lookup_insert_eq. reflexivity.
Qed.

Lemma generate_detailed_report_file (w : World) :
  can_open_w (fs w) "Digital_Twin_Implementation_Report.txt" = true ->
  exists w',
    QuickReport.generate_detailed_report w
    = (Return "Digital_Twin_Implementation_Report.txt", w')
    /\ content <$> entries (fs w') !! "Digital_Twin_Implementation_Report.txt"
       = Some (text_of (QuickReport.detailed_report_writes
                          (clock w (ticks w)))).
Proof.
  intros H. unfold QuickReport.generate_detailed_report. unfold_M. rewrite H.
  eexists. split; [reflexivity|].
  cbn [fs set_fs put entries]. rewrite lookup_insert_eq. reflexivity.
Qed.

(** C9 (amended).  The text of each report is fixed by its input but for
    the fields printed from the clock.  The final report written by
    [generate_final_report] is a text [pre], the completion date, the
    processing time (the time elapsed since the start of the process, to
    the microsecond) and a text [post], where [pre] and [post] depend on
    the results only.  The detailed report written by
    [generate_detailed_report] is a fixed text, the date of generation and
    a fixed text. *)
Theorem reports_fixed_but_for_clock_fields :
  (forall rs start, exists pre post, forall completion current,
      text_of (final_report_writes rs start completion current)
      = pre +:+ "Completion Date: " +:+ strftime completion +:+ LF
        +:+ "Processing Time: " +:+ str_timedelta (datetime_sub current start)
        +:+ LF +:+ LF +:+ post)
  /\ (exists pre post, forall generated,
        text_of (QuickReport.detailed_report_writes generated)
        = pre +:+ "Report Generated: " +:+ strftime generated +:+ LF
          +:+ post)
  /\ (forall w,
        can_open_w (fs w) "ALL_AREAS_COMPLETE_REPORT.txt" = true ->
        exists w',
          generate_final_report w
          = (Return "ALL_AREAS_COMPLETE_REPORT.txt", w')
          /\ content <$> entries (fs w') !! "ALL_AREAS_COMPLETE_REPORT.txt"
             = Some (text_of (final_report_writes (results w) (start_time w)
                                (clock w (ticks w)) (clock w (S (ticks w))))))
  /\ (forall w,
        can_open_w (fs w) "Digital_Twin_Implementation_Report.txt" = true ->
        exists w',
          QuickReport.generate_detailed_report w
          = (Return "Digital_Twin_Implementation_Report.txt", w')
          /\ content <$> entries (fs w')
                         !! "Digital_Twin_Implementation_Report.txt"
             = Some (text_of (QuickReport.detailed_report_writes
                                (clock w (ticks w))))).
Proof.
  split; [|split; [|split]].
  - intros rs start.
    exists (text_of [ BAR80 +:+ LF;
                      "DIGITAL TWIN IMPLEMENTATION - FINAL REPORT" +:+ LF;
                      "ALL 8 BANGALORE AREAS COMPLETED" +:+ LF;
                      BAR80 +:+ LF +:+ LF ]),
           (text_of (skipn 6 (final_report_writes rs start noon noon))).
    intros completion current.
    rewrite final_report_text, !append_assoc. reflexivity.
  - exists (text_of [ BAR80 +:+ LF;
                      "DIGITAL TWIN IMPLEMENTATION REPORT" +:+ LF;
                      "Traffic Simulation for Bangalore Key Areas" +:+ LF;
                      BAR80 +:+ LF +:+ LF ]),
           (text_of (skipn 5 (QuickReport.detailed_report_writes noon))).
    intros generated.
    rewrite detailed_report_text, !append_assoc. reflexivity.
  - exact generate_final_report_file.
  - exact generate_detailed_report_file.
Qed.

(** C9 as stated fails for the final report: two renderings of the same
    results that print the same completion date differ, in the processing
    time; so the text is not fixed up to the date of generation alone. *)
Lemma processing_time_differs :
  let first := final_report_writes [] Scenario.noon
                 (mk_datetime 2025 3 1 12 0 5 100)
                 (mk_datetime 2025 3 1 12 0 5 200) in
  let second := final_report_writes [] Scenario.noon
                  (mk_datetime 2025 3 1 12 0 5 300)
                  (mk_datetime 2025 3 1 12 0 5 400) in
  nth 4 first "" = "Completion Date: 2025-03-01 12:00:05" +:+ LF
  /\ nth 4 second "" = "Completion Date: 2025-03-01 12:00:05" +:+ LF
  /\ nth 5 first "" = "Processing Time: 0:00:05.000200" +:+ LF +:+ LF
  /\ nth 5 second "" = "Processing Time: 0:00:05.000400" +:+ LF +:+ LF
  /\ text_of first <> text_of second
  /\ ~ exists pre post, forall completion current,
         text_of (final_report_writes [] Scenario.noon completion current)
         = pre +:+ strftime completion +:+ post.
Proof.
  intros first second.
  assert (D : text_of first <> text_of second).
  { intros E. apply String.eqb_eq in E. vm_compute in E. discriminate. }
  split; [vm_compute; reflexivity|].
  split; [vm_compute; reflexivity|].
  split; [vm_compute; reflexivity|].
  split; [vm_compute; reflexivity|].
  split; [exact D|].
  intros (pre & post & H). apply D. unfold first, second.
  rewrite !H. reflexivity.
Qed.

(** * Further properties *)

(** ** The totals and the order of the results *)

(** Adding two results to the totals in either order gives the same. *)
Lemma add_success_swap (t : totals) (a b : AreaResult) :
  add_success (add_success t a) b = add_success (add_success t b) a.
Proof. unfold add_success. cbn. f_equal; lia. Qed.

(** The fold over a list and over a permutation of it. *)
Lemma fold_add_success_perm (l l' : list AreaResult) :
  l ≡ₚ l' ->
  forall t, fold_left add_success l t = fold_left add_success l' t.
Proof.
  induction 1 as [|x l l' _ IH|x y l|l l' l'' _ IH1 _ IH2]; intros t; cbn.
  - reflexivity.
  - apply IH.
  - rewrite add_success_swap. reflexivity.
  - rewrite IH1. apply IH2.
Qed.

(** X1.  The totals of the final report do not depend on the order of the
    results: a permutation of the list gives the same four figures (the
    text of the report, which lists the areas in order, may differ). *)
Theorem totals_permutation (rs rs' : list AreaResult) :
  rs ≡ₚ rs' -> report_totals rs = report_totals rs'.
Proof.
  intros H. unfold report_totals. rewrite !report_areas_fold.
  apply fold_add_success_perm. rewrite H. reflexivity.
Qed.

Lemma totals_permutation_witness :
  let A := mk_AreaResult "Indiranagar" "Success" 85 180 100 in
  let B := mk_AreaResult "Whitefield" "Failed" 0 0 100 in
  let C := mk_AreaResult "Hebbal" "Success" 95 200 100 in
  [A; B; C] ≡ₚ [C; A; B]
  /\ report_totals [A; B; C] = report_totals [C; A; B]
  /\ text_of (final_report_writes [A; B; C] noon noon noon)
     <> text_of (final_report_writes [C; A; B] noon noon noon).
Proof.
  intros A B C.
  assert (P : [A; B; C] ≡ₚ [C; A; B]).
  { change [C; A; B] with ([C] ++ [A; B]). change [A; B; C] with ([A; B] ++ [C]).
    apply Permutation_app_comm. }
  split; [exact P|]. split; [exact (totals_permutation _ _ P)|].
  intros E. apply String.eqb_eq in E. vm_compute in E. discriminate.
Defined.

(** ** What a successful run leaves *)

Lemma suffix_ne (a b c : string) : b <> c -> a +:+ b <> a +:+ c.
Proof. intros H E. apply H. exact (String.app_inj a _ _ E). Qed.

Lemma exists_in_put (f : FS) (path text other : string) :
  exists_in f other = true -> exists_in (put f path text) other = true.
Proof.
  unfold exists_in, put. cbn [entries]. rewrite !bool_decide_eq_true.
  intros H. destruct (decide (path = other)) as [->|N].
  - rewrite lookup_insert_eq. eauto.
  - rewrite lookup_insert_ne by exact N. exact H.
Qed.

Lemma content_put (f : FS) (path text : string) :
  content <$> entries (put f path text) !! path = Some text.
Proof. unfold put. cbn [entries]. rewrite lookup_insert_eq. reflexivity. Qed.

Lemma content_put_ne (f : FS) (path text other : string) :
  path <> other ->
  entries (put f path text) !! other = entries f !! other.
Proof. intros N. unfold put. cbn [entries]. apply lookup_insert_ne, N. Qed.

(** X2.  When [process_area] returns a record with status Success, the
    source file was there, and the file system it leaves holds the route
    file, the additional file with its four lines, and the configuration
    file with the text that names the network, route and additional files
    of the area. *)
Theorem success_leaves_artifacts
    (area : Area) (w w' : World) (r : AreaResult) :
  process_area area w = (Return r, w') ->
  status r = "Success" ->
  let net_file := lower (area_name area) +:+ ".net.xml" in
  let route_file := lower (area_name area) +:+ ".rou.xml" in
  let add_file := lower (area_name area) +:+ ".add.xml" in
  let config_file := lower (area_name area) +:+ ".sumocfg" in
  exists_in (fs w) (osm_file area) = true
  /\ exists_in (fs w') route_file = true
  /\ content <$> entries (fs w') !! add_file = Some (text_of additional_writes)
  /\ content <$> entries (fs w') !! config_file
     = Some (config_text net_file route_file add_file).
Proof.
  intros H Hs net_file route_file add_file config_file.
  rewrite process_area_run in H. cbv zeta in H.
  destruct (exists_in (fs w) (osm_file area));
    [|injection H as <- _; discriminate].
  split; [reflexivity|].
  pose proof (convert_to_sumo_run (osm_file area) (area_name area) w) as Hc.
  cbv zeta in Hc. rewrite Hc in H. clear Hc. fold net_file in H.
  destruct (completed_ok _ && exists_in _ _);
    [|injection H as <- _; discriminate].
  rewrite get_network_stats_run in H.
  destruct (if can_read _ _ then _ else _) as [j e].
  match type of H with
  | context [generate_traffic ?n ?a ?w0] =>
      pose proof (generate_traffic_run n a w0) as Ht
  end.
  cbv zeta in Ht. rewrite Ht in H. clear Ht. fold route_file in H.
  destruct (completed_ok _); [|injection H as <- _; discriminate].
  destruct (completed_ok _ && exists_in _ route_file) eqn:Hr;
    [|injection H as <- _; discriminate].
  apply andb_true_iff in Hr. destruct Hr as [_ Hr].
  match type of H with
  | context [create_config ?n ?rf ?a ?w0] =>
      pose proof (create_config_run n rf a w0) as Hk
  end.
  cbv zeta in Hk. rewrite Hk in H. clear Hk.
  fold add_file in H. fold config_file in H.
  destruct (can_open_w _ add_file); [|injection H as <- _; discriminate].
  destruct (can_open_w _ config_file); [|injection H as <- _; discriminate].
  injection H as _ <-. cbn [fs set_fs log].
  cbn [fs set_fs log] in Hr.
  assert (N : config_file <> add_file) by (apply suffix_ne; discriminate).
  split; [|split].
  - apply exists_in_put, exists_in_put, Hr.
  - rewrite content_put_ne by exact N. apply content_put.
  - rewrite content_put. cbn [String.concat]. reflexivity.
Qed.

Lemma success_leaves_artifacts_witness :
  process_area indiranagar w_ok
  = (Return (mk_AreaResult "Indiranagar" "Success" 2 1 100),
     snd (process_area indiranagar w_ok))
  /\ exists_in (fs (snd (process_area indiranagar w_ok))) "indiranagar.rou.xml"
     = true
  /\ content <$> entries (fs (snd (process_area indiranagar w_ok)))
                 !! "indiranagar.sumocfg"
     = Some (config_text "indiranagar.net.xml" "indiranagar.rou.xml"
                         "indiranagar.add.xml").
Proof.
  split; [vm_compute; reflexivity|].
  destruct (success_leaves_artifacts indiranagar w_ok
              (snd (process_area indiranagar w_ok))
              (mk_AreaResult "Indiranagar" "Success" 2 1 100))
    as (_ & H1 & _ & H2); [vm_compute; reflexivity | reflexivity |].
  split; [exact H1 | exact H2].
Defined.

(** Writing to a file the text it holds, when it is writable, changes
    nothing. *)
Lemma put_same (f : FS) (path text : string) (r : bool) :
  entries f !! path = Some (mk_file r true text) -> put f path text = f.
Proof.
  intros H. unfold put. rewrite H. cbn [readable].
  rewrite insert_id by exact H. destruct f; reflexivity.
Qed.

Lemma put_lookup (f : FS) (path text : string) :
  exists r, entries (put f path text) !! path = Some (mk_file r true text).
Proof. unfold put. cbn [entries]. rewrite lookup_insert_eq. eauto. Qed.

Lemma can_open_w_put (f : FS) (path text : string) :
  can_open_w (put f path text) path = true.
Proof.
  unfold can_open_w. destruct (put_lookup f path text) as [r ->]. reflexivity.
Qed.

(** X3.  [create_config] can be run again: after a call that gave the
    configuration file, a second call with the same arguments gives it
    again and leaves the file system as it was. *)
Theorem create_config_again
    (net_file route_file area_name config : string) (w w1 : World) :
  create_config net_file route_file area_name w = (Return (Some config), w1) ->
  exists w2,
    create_config net_file route_file area_name w1 = (Return (Some config), w2)
    /\ fs w2 = fs w1.
Proof.
  intros H.
  pose proof (create_config_run net_file route_file area_name w) as E.
  cbv zeta in E. rewrite E in H. clear E.
  set (add_file := lower area_name +:+ ".add.xml") in *.
  set (config_file := lower area_name +:+ ".sumocfg") in *.
  assert (N : add_file <> config_file) by (apply suffix_ne; discriminate).
  destruct (can_open_w (fs w) add_file); [|discriminate].
  cbn [fs set_fs log] in H.
  destruct (can_open_w _ config_file); [|discriminate].
  injection H as Hc Hw.
  set (ta := String.concat "" additional_writes) in *.
  set (tc := String.concat "" [config_text net_file route_file add_file]) in *.
  set (f1 := put (put (fs w) add_file ta) config_file tc) in *.
  assert (F : fs w1 = f1) by (rewrite <- Hw; reflexivity).
  destruct (put_lookup (put (fs w) add_file ta) config_file tc) as [rc Lc].
  fold f1 in Lc.
  destruct (put_lookup (fs w) add_file ta) as [ra La].
  assert (La1 : entries f1 !! add_file = Some (mk_file ra true ta)).
  { unfold f1 at 1. unfold put at 1. cbn [entries].
    rewrite lookup_insert_ne by (intros X; apply N; symmetry; exact X).
    exact La. }
  pose proof (create_config_run net_file route_file area_name w1) as E.
  cbv zeta in E. fold add_file in E. fold config_file in E. fold ta in E.
  fold tc in E. rewrite F in E.
  rewrite (put_same f1 add_file ta ra La1) in E.
  unfold can_open_w in E. rewrite La1 in E. cbn [writable] in E.
  cbn [fs set_fs log] in E. rewrite Lc in E. cbn [writable] in E.
  rewrite (put_same f1 config_file tc rc Lc) in E.
  rewrite E, Hc. eexists. split; [reflexivity|].
  cbn [fs set_fs]. symmetry. exact F.
Qed.

Lemma create_config_again_witness :
  let w1 := snd (create_config "indiranagar.net.xml" "indiranagar.rou.xml"
                               "Indiranagar" w_ok) in
  create_config "indiranagar.net.xml" "indiranagar.rou.xml" "Indiranagar" w_ok
  = (Return (Some "indiranagar.sumocfg"), w1)
  /\ exists w2,
       create_config "indiranagar.net.xml" "indiranagar.rou.xml"
                     "Indiranagar" w1
       = (Return (Some "indiranagar.sumocfg"), w2)
       /\ fs w2 = fs w1.
Proof.
  intros w1.
  assert (H : create_config "indiranagar.net.xml" "indiranagar.rou.xml"
                            "Indiranagar" w_ok
              = (Return (Some "indiranagar.sumocfg"), w1))
    by (vm_compute; reflexivity).
  split; [exact H|].
  exact (create_config_again _ _ _ _ _ _ H).
Defined.

(** ** The counts of the Measure step *)

(** A prefix is not longer than the text. *)
Lemma prefix_length (a b : string) :
  String.prefix a b = true -> (String.length a <= String.length b)%nat.
Proof.
  revert b. induction a as [|x a IH]; intros b H; cbn; [lia|].
  destruct b as [|y b]; cbn in H; [discriminate|].
  destruct (Ascii.ascii_dec x y); [|discriminate].
  apply IH in H. cbn. lia.
Qed.

(** The occurrences counted do not overlap: together they fit in what is
    left of the text. *)
Lemma count_from_bound (sub : string) :
  sub <> "" ->
  forall s skip,
    0 <= count_from sub skip s
    /\ Z.of_nat (String.length sub) * count_from sub skip s
       <= Z.of_nat (String.length s - skip).
Proof.
  intros Hsub.
  assert (L : (1 <= String.length sub)%nat).
  { destruct sub; [congruence|cbn; lia]. }
  induction s as [|c s IH]; intros skip; cbn [count_from].
  - split; [lia|]. cbn. lia.
  - destruct skip as [|k].
    + destruct (String.prefix sub (String c s)) eqn:P.
      * apply prefix_length in P. cbn [String.length] in P.
        destruct (IH (String.length sub - 1)%nat) as [H0 H1].
        split; [lia|]. cbn [String.length]. lia.
      * destruct (IH 0%nat) as [H0 H1]. split; [lia|].
        cbn [String.length]. lia.
    + destruct (IH k) as [H0 H1]. split; [lia|].
      cbn [String.length]. 
      replace (S (String.length s) - S k)%nat with (String.length s - k)%nat by lia.
      lia.
Qed.

(** X4.  [get_network_stats] never raises and only reads the file.  Its
    two counts are never negative, and the occurrences counted do not
    overlap: nine times the junction count and five times the edge count
    are at most the length of the file. *)
Theorem network_stats_bounds (net_file : string) (w : World) :
  exists j e,
    get_network_stats net_file w = (Return (j, e), log w (OpenRead net_file))
    /\ 0 <= j /\ 0 <= e
    /\ forall x, entries (fs w) !! net_file = Some x ->
         9 * j <= Z.of_nat (String.length (content x))
         /\ 5 * e <= Z.of_nat (String.length (content x)).
Proof.
  rewrite get_network_stats_run. unfold can_read.
  destruct (entries (fs w) !! net_file) as [x|].
  2:{ exists 0, 0. split; [reflexivity|]. split; [lia|]. split; [lia|].
      intros x H. discriminate. }
  destruct (count_from_bound "<junction" ltac:(discriminate) (content x) 0)
    as [J0 J1].
  destruct (count_from_bound "<edge" ltac:(discriminate) (content x) 0)
    as [E0 E1].
  cbn [String.length] in J1, E1. rewrite Nat.sub_0_r in J1, E1.
  destruct (readable x).
  - exists (str_count (content x) "<junction"), (str_count (content x) "<edge").
    unfold str_count.
    split; [reflexivity|]. split; [exact J0|]. split; [exact E0|].
    intros y [= <-]. split; lia.
  - exists 0, 0. split; [reflexivity|]. split; [lia|]. split; [lia|].
    intros y _. split; lia.
Qed.

Lemma str_count_nonneg (s sub : string) : sub <> "" -> 0 <= str_count s sub.
Proof. intros H. apply (count_from_bound sub H s 0). Qed.

(** The counts of a record are never negative. *)
Lemma process_area_counts_nonneg
    (area : Area) (w w' : World) (r : AreaResult) :
  process_area area w = (Return r, w') -> 0 <= junctions r /\ 0 <= edges r.
Proof.
  intros H. rewrite process_area_run in H. cbv zeta in H.
  destruct (exists_in (fs w) (osm_file area));
    [|injection H as <- _; cbn; lia].
  destruct (convert_to_sumo _ _ _) as [[[net|]|?] w1];
    try (injection H as <- _; cbn; lia).
  rewrite get_network_stats_run in H.
  assert (N : 0 <= fst (if can_read (fs w1) net
                        then match entries (fs w1) !! net with
                             | Some x => (str_count (content x) "<junction",
                                          str_count (content x) "<edge")
                             | None => (0, 0)
                             end
                        else (0, 0))
              /\ 0 <= snd (if can_read (fs w1) net
                        then match entries (fs w1) !! net with
                             | Some x => (str_count (content x) "<junction",
                                          str_count (content x) "<edge")
                             | None => (0, 0)
                             end
                        else (0, 0))).
  { destruct (can_read _ _); [|cbn; lia].
    destruct (entries (fs w1) !! net); [|cbn; lia].
    cbn [fst snd]. split; apply str_count_nonneg; discriminate. }
  destruct (if can_read _ _ then _ else _) as [j e]. cbn [fst snd] in N.
  destruct (generate_traffic _ _ _) as [[[route|]|?] w3];
    try (injection H as <- _; cbn; lia).
  destruct (create_config _ _ _ _) as [[[config|]|?] w4];
    injection H as <- _; cbn; lia.
Qed.

(** ** The steps of a run, in order *)


(** ** The batch *)

(** The loop over the areas, with what its records satisfy. *)
Lemma process_all_records (areas : list Area) : forall w,
  exists w' rs,
    process_all areas w = (Return tt, w')
    /\ results w' = results w ++ rs
    /\ map name rs = map area_name areas
    /\ Forall well_formed rs.
Proof.
  induction areas as [|area rest IH]; intros w.
  - exists w, []. rewrite app_nil_r. repeat split; constructor.
  - destruct (process_area_outcome area w) as (r & w1 & H & Hn & Hv & Hs & Hr).
    destruct (process_area_counts_nonneg _ _ _ _ H) as [Hj He].
    destruct (IH (set_results w1 (results w1 ++ [r])))
      as (w' & rs & H' & Hrs & Hm & Hf).
    exists w', (r :: rs). cbn [process_all].
    unfold mbind at 1, M_bind at 1. rewrite H.
    unfold mbind at 1, M_bind at 1, results_append. rewrite H'.
    split; [reflexivity|]. split; [|split].
    + rewrite Hrs. cbn [results set_results]. rewrite Hr, <- app_assoc.
      reflexivity.
    + cbn [map]. rewrite Hn, Hm. reflexivity.
    + constructor; [|exact Hf]. unfold well_formed.
      rewrite Hs. destruct (run_succeeds area w); auto.
Qed.

(** The totals of records that are well formed. *)
Lemma fold_add_success_bounds (l : list AreaResult) : forall t,
  Forall well_formed l ->
  let t' := fold_left add_success l t in
  areasCompleted t' = areasCompleted t + Z.of_nat (length l)
  /\ totalJunctions t <= totalJunctions t'
  /\ totalEdges t <= totalEdges t'
  /\ totalVehicles t'
     = totalVehicles t + fold_right Z.add 0 (map vehicles l).
Proof.
  induction l as [|r l IH]; intros t H; cbn [fold_left length map fold_right].
  - cbv zeta. lia.
  - inversion H as [|? ? (_ & Hv & Hj & He) Hl]; subst.
    destruct (IH (add_success t r) Hl) as (A & B & C & D). cbv zeta in *.
    rewrite A, D. unfold add_success in *.
    cbn [areasCompleted totalJunctions totalEdges totalVehicles] in *.
    rewrite Hv, Nat2Z.inj_succ. repeat split; lia.
Qed.

(** X7.  In the report of a batch the number of completed areas is
    between 1 and 8, the junction and edge totals are at least those of
    Electronic City, and the vehicle total, which the code computes as 100
    times the number of completed areas, is the sum of the vehicle counts
    of Electronic City and of the successful records. *)
Theorem batch_report_totals (w : World) :
  let rs := results (batch_world w) in
  let t := report_totals rs in
  1 <= areasCompleted t <= 8
  /\ 94 <= totalJunctions t
  /\ 198 <= totalEdges t
  /\ totalVehicles t = 100 * areasCompleted t
  /\ totalVehicles t
     = 100 + fold_right Z.add 0
               (map vehicles (filter (fun r => success r = true) rs)).
Proof.
  intros rs t. subst t rs. unfold batch_world.
  unfold mbind, M_bind. unfold module_init.
  set (w0 := mk_World _ _ _ _ _ _ _ _).
  assert (R0 : results w0 = []) by reflexivity. clearbody w0.
  destruct (process_all_records AREAS w0) as (w1 & rs & H & Hrs & Hm & Hf).
  rewrite H. cbn [snd]. rewrite R0 in Hrs. cbn [app] in Hrs. rewrite Hrs.
  assert (Hlen : length rs = 7%nat).
  { rewrite <- (length_map name), Hm. reflexivity. }
  unfold report_totals. rewrite report_areas_fold.
  change (totals_of (mk_report_acc 0 94 198 [])) with baseline_totals.
  pose proof (length_filter (fun r => success r = true) rs) as Hle.
  assert (Hf' : Forall well_formed (filter (fun r => success r = true) rs)).
  { rewrite Forall_forall in Hf. apply Forall_forall. intros x Hx.
    apply list_elem_of_filter in Hx as [_ Hx]. auto. }
  destruct (fold_add_success_bounds _ baseline_totals Hf') as (A & B & C & D).
  cbv zeta in *. cbn [areasCompleted totalJunctions totalEdges totalVehicles
                       baseline_totals] in *.
  assert (V : fold_right Z.add 0
                (map vehicles (filter (fun r => success r = true) rs))
              = 100 * Z.of_nat (length (filter (fun r => success r = true) rs))).
  { clear -Hf'. induction Hf' as [|r l (_ & Hv & _) _ IH]; cbn [map fold_right length]; [lia|].
    rewrite IH, Hv. lia. }
  rewrite A, D, V. repeat split; lia.
Qed.



(** A second call of [main] in the same process, after a first one that
    returned 0 with every area a Success, returns 1, and its report counts
    15 completed areas. *)
Example second_call_of_main :
  let first := (_ ← module_init; main) w_all_ok in
  returned first = Some 0
  /\ returned (main (snd first)) = Some 1
  /\ areasCompleted (report_totals (results (snd (main (snd first))))) = 15.
Proof. repeat split; vm_compute; reflexivity. Qed.

(** ** The three files of [quick_report_generator.py] *)




(** ** The table *)

Lemma count_char_app (c : ascii) (a b : string) :
  count_char c (a +:+ b) = (count_char c a + count_char c b)%nat.
Proof.
  induction a as [|x a IH]; [reflexivity|].
  change (String x a +:+ b) with (String x (a +:+ b)).
  cbn [count_char]. rewrite IH. lia.
Qed.

Lemma pretty_N_char_no_comma (x : N) : pretty_N_char x <> ","%char.
Proof. unfold pretty_N_char. repeat case_match; discriminate. Qed.

(** The decimal digits of a number hold no comma. *)
Lemma count_comma_pretty_N_go (x : N) : forall s,
  count_char "," (pretty_N_go x s) = count_char "," s.
Proof.
  induction (N.lt_wf_0 x) as [x _ IH]; intros s.
  destruct (decide (x = 0)%N) as [->|?]; [rewrite pretty_N_go_0; reflexivity|].
  rewrite pretty_N_go_step by lia.
  rewrite IH by (apply N.div_lt; lia).
  cbn [count_char].
  rewrite bool_decide_eq_false_2 by apply pretty_N_char_no_comma.
  reflexivity.
Qed.

Lemma count_comma_str_int (n : Z) : count_char "," (str_int n) = 0%nat.
Proof.
  unfold str_int, pretty, pretty_Z.
  assert (P : forall p : positive, count_char "," (pretty p) = 0%nat).
  { intros p. unfold pretty, pretty_positive, pretty, pretty_N.
    destruct (decide (N.pos p = 0)%N); [reflexivity|].
    apply count_comma_pretty_N_go. }
  destruct n; [reflexivity|apply P|].
  rewrite count_char_app, P. reflexivity.
Qed.

Lemma count_comma_str_float (x : QuickReport.float) :
  count_char "," (QuickReport.str_float x) = 0%nat.
Proof.
  unfold QuickReport.str_float.
  rewrite !count_char_app, !count_comma_str_int. reflexivity.
Qed.

Lemma count_comma_join (l : list string) :
  count_char "," (str_join " & " l)
  = foldr Nat.add 0%nat (map (count_char ",") l).
Proof.
  induction l as [|x l IH]; [reflexivity|].
  destruct l as [|y l]; [cbn [str_join map foldr]; lia|].
  change (str_join " & " (x :: y :: l))
    with (x +:+ " & " +:+ str_join " & " (y :: l)).
  rewrite !count_char_app, IH.
  change (count_char "," " & ") with 0%nat. cbn [map foldr]. lia.
Qed.

(** X10.  The lines of the table are not quoted: the line of an area has
    six commas plus one for each comma in its name and in its roads, so it
    has the seven fields of the header exactly when these hold no comma.
    Every line of the table as the script writes it has six commas. *)
Theorem csv_fields_not_quoted (area : QuickReport.area) :
  count_char "," (QuickReportFiles.csv_area area)
  = (6 + count_char "," (QuickReport.name area)
     + foldr Nat.add 0 (map (count_char ",") (QuickReport.roads area)))%nat
  /\ Forall (fun line => count_char "," line = 6%nat)
            QuickReportFiles.csv_writes.
Proof.
  split.
  - unfold QuickReportFiles.csv_area.
    rewrite !count_char_app, !count_comma_str_int, count_comma_str_float,
      count_comma_join.
    change (count_char "," ",") with 1%nat.
    change (count_char "," ",100,Ready") with 2%nat.
    change (count_char "," LF) with 0%nat. lia.
  - vm_compute. repeat constructor.
Qed.

(** ** The script [traffic_generator.py] *)

(** [generate_random_trips] starts nothing without the script, and
    otherwise answers [True] exactly when the trip tool completed with
    code 0 and the trips file is there. *)
Lemma traffic_generate_random_trips_run (w : World) :
  let cmd := TrafficGenerator.randomtrips_cmd (randomtrips_path w) in
  TrafficGenerator.generate_random_trips w
  = if exists_in (fs w) (randomtrips_path w)
    then (Return (completed_ok (run_result w cmd 120)
                  && exists_in (fs (after_run w cmd 120)) TrafficGenerator.TRIPS_FILE),
          after_run w cmd 120)
    else (Return false, w).
Proof.
  intros cmd. unfold TrafficGenerator.generate_random_trips, after_run, run_result.
  unfold_M. cbv beta zeta. fold (randomtrips_path w).
  destruct (exists_in (fs w) (randomtrips_path w)); [|reflexivity].
  cbn [negb]. fold cmd.
  destruct (exec w cmd 120 (fs w)) as [[result|e] fs1];
    cbn [fst snd completed_ok fs set_fs log]; [|destruct e; reflexivity].
  destruct (returncode result =? 0); cbn [andb]; [|reflexivity].
  simpl (fs _). destruct (exists_in fs1 TrafficGenerator.TRIPS_FILE); reflexivity.
Qed.

Lemma traffic_generate_routes_run (w : World) :
  TrafficGenerator.generate_routes w
  = (Return (completed_ok (run_result w TrafficGenerator.duarouter_cmd 120)
             && exists_in (fs (after_run w TrafficGenerator.duarouter_cmd 120)) TrafficGenerator.ROUTE_FILE),
     after_run w TrafficGenerator.duarouter_cmd 120).
Proof.
  unfold TrafficGenerator.generate_routes, after_run, run_result. unfold_M. cbv beta zeta.
  destruct (exec w TrafficGenerator.duarouter_cmd 120 (fs w)) as [[result|e] fs1];
    cbn [fst snd completed_ok fs set_fs log]; [|destruct e; reflexivity].
  destruct (returncode result =? 0); cbn [andb]; [|reflexivity].
  simpl (fs _). destruct (exists_in fs1 TrafficGenerator.ROUTE_FILE); reflexivity.
Qed.

Lemma traffic_create_additional_file_run (w : World) :
  TrafficGenerator.create_additional_file w
  = if can_open_w (fs w) TrafficGenerator.ADDITIONAL_FILE
    then (Return true,
          set_fs (log w (OpenWrite TrafficGenerator.ADDITIONAL_FILE))
                 (put (fs w) TrafficGenerator.ADDITIONAL_FILE TrafficGenerator.additional_content))
    else (Return false, log w (OpenWrite TrafficGenerator.ADDITIONAL_FILE)).
Proof.
  unfold TrafficGenerator.create_additional_file. unfold_M.
  destruct (can_open_w (fs w) TrafficGenerator.ADDITIONAL_FILE); reflexivity.
Qed.

Lemma traffic_create_config_file_run (w : World) :
  TrafficGenerator.create_config_file w
  = if can_open_w (fs w) TrafficGenerator.CONFIG_FILE
    then (Return true,
          set_fs (log w (OpenWrite TrafficGenerator.CONFIG_FILE))
                 (put (fs w) TrafficGenerator.CONFIG_FILE TrafficGenerator.config_content))
    else (Return false, log w (OpenWrite TrafficGenerator.CONFIG_FILE)).
Proof.
  unfold TrafficGenerator.create_config_file. unfold_M.
  destruct (can_open_w (fs w) TrafficGenerator.CONFIG_FILE); reflexivity.
Qed.

(** [TrafficGenerator.main] step by step. *)
Lemma traffic_main_run (w : World) :
  TrafficGenerator.main w
  = if exists_in (fs w) TrafficGenerator.NETWORK_FILE then
      match TrafficGenerator.generate_random_trips w with
      | (Return true, w1) =>
          match TrafficGenerator.generate_routes w1 with
          | (Return true, w2) =>
              match TrafficGenerator.create_additional_file w2 with
              | (Return true, w3) =>
                  match TrafficGenerator.create_config_file w3 with
                  | (Return true, w4) => (Return 0, w4)
                  | (_, w4) => (Return 1, w4)
                  end
              | (_, w3) => (Return 1, w3)
              end
          | (_, w2) => (Return 1, w2)
          end
      | (_, w1) => (Return 1, w1)
      end
    else (Return 1, w).
Proof.
  unfold TrafficGenerator.main, TrafficGenerator.check_files, TrafficGenerator.print_summary.
  unfold try_except, mbind, M_bind, mret, M_ret, path_exists.
  destruct (exists_in (fs w) TrafficGenerator.NETWORK_FILE); cbn [negb]; [|reflexivity].
  rewrite traffic_generate_random_trips_run. cbv zeta.
  destruct (exists_in (fs w) (randomtrips_path w)); [|reflexivity].
  destruct (completed_ok _ && exists_in _ _); cbn [negb]; [|reflexivity].
  rewrite traffic_generate_routes_run.
  destruct (completed_ok _ && exists_in _ _); cbn [negb]; [|reflexivity].
  rewrite traffic_create_additional_file_run.
  destruct (can_open_w _ _); cbn [negb]; [|reflexivity].
  rewrite traffic_create_config_file_run.
  destruct (can_open_w _ _); reflexivity.
Qed.


(** The code returned by [TrafficGenerator.main]: 0 when every step
    passes, 1 otherwise. *)
Lemma traffic_main_outcome (w : World) :
  exists code w',
    TrafficGenerator.main w = (Return code, w')
    /\ code = (if traffic_run_succeeds w then 0 else 1).
Proof.
  rewrite traffic_main_run. unfold traffic_run_succeeds.
  destruct (exists_in (fs w) TrafficGenerator.NETWORK_FILE); cbn [andb];
    [|eauto].
  rewrite traffic_generate_random_trips_run. cbv zeta.
  destruct (exists_in (fs w) (randomtrips_path w)); cbn [andb]; [|eauto].
  unfold after_run at 1 2, run_result at 1.
  destruct (exec w _ 120 (fs w)) as [o1 fs1]. cbn [fst snd fs set_fs log].
  destruct (completed_ok o1 && exists_in fs1 _); cbn [andb]; [|eauto].
  rewrite traffic_generate_routes_run.
  unfold after_run, run_result. cbn [fst snd fs set_fs log exec].
  destruct (exec w _ 120 fs1) as [o2 fs2]. cbn [fst snd].
  destruct (completed_ok o2 && exists_in fs2 _); cbn [andb]; [|eauto].
  rewrite traffic_create_additional_file_run. cbn [fs set_fs log].
  destruct (can_open_w fs2 _); cbn [andb]; [|eauto].
  rewrite traffic_create_config_file_run. cbn [fs set_fs log].
  destruct (can_open_w _ _); eauto.
Qed.

(** X12.  What [TrafficGenerator.main] does to the outside is the
    beginning of one fixed sequence: the trip tool, the router, the
    writing of the additional file, the writing of the configuration
    file; nothing but the file system and the trace changes, and without
    the network file or the script nothing changes at all. *)
Theorem traffic_main_steps_once (w : World) :
  exists k,
    (k <= 4)%nat
    /\ trace (snd (TrafficGenerator.main w))
       = trace w ++ take k (traffic_events w)
    /\ same_program_state w (snd (TrafficGenerator.main w))
    /\ (exists_in (fs w) TrafficGenerator.NETWORK_FILE
        && exists_in (fs w) (randomtrips_path w) = false ->
        snd (TrafficGenerator.main w) = w).
Proof.
  rewrite traffic_main_run. unfold same_program_state.
  destruct (exists_in (fs w) TrafficGenerator.NETWORK_FILE); cbn [andb].
  2:{ exists 0%nat. cbn [snd take]. rewrite app_nil_r.
      split; [lia|]. repeat split. }
  rewrite traffic_generate_random_trips_run. cbv zeta.
  destruct (exists_in (fs w) (randomtrips_path w)).
  2:{ exists 0%nat. cbn [snd take]. rewrite app_nil_r.
      split; [lia|]. repeat split. }
  destruct (completed_ok _ && exists_in _ _).
  2:{ exists 1%nat. split; [lia|]. split; [reflexivity|].
      split; [repeat split|discriminate]. }
  rewrite traffic_generate_routes_run.
  destruct (completed_ok _ && exists_in _ _).
  2:{ exists 2%nat. split; [lia|]. split; [|split; [repeat split|discriminate]].
      cbn [snd after_run set_fs log trace take traffic_events].
      rewrite <- !app_assoc. reflexivity. }
  rewrite traffic_create_additional_file_run.
  destruct (can_open_w _ _).
  2:{ exists 3%nat. split; [lia|]. split; [|split; [repeat split|discriminate]].
      cbn [snd after_run set_fs log trace take traffic_events].
      rewrite <- !app_assoc. reflexivity. }
  rewrite traffic_create_config_file_run.
  exists 4%nat. split; [lia|].
  destruct (can_open_w _ _);
    (split; [|split; [repeat split|discriminate]]);
    cbn [snd after_run set_fs log trace take traffic_events];
    rewrite <- !app_assoc; reflexivity.
Qed.



(** X14.  When [TrafficGenerator.main] returns 0 the route file is there
    and the two files it wrote hold their texts. *)
Theorem traffic_success_files (w w' : World) :
  TrafficGenerator.main w = (Return 0, w') ->
  exists_in (fs w') TrafficGenerator.ROUTE_FILE = true
  /\ content <$> entries (fs w') !! TrafficGenerator.ADDITIONAL_FILE
     = Some TrafficGenerator.additional_content
  /\ content <$> entries (fs w') !! TrafficGenerator.CONFIG_FILE
     = Some TrafficGenerator.config_content.
Proof.
  intros H. rewrite traffic_main_run in H.
  destruct (exists_in (fs w) TrafficGenerator.NETWORK_FILE); [|discriminate].
  rewrite traffic_generate_random_trips_run in H. cbv zeta in H.
  destruct (exists_in (fs w) (randomtrips_path w)); [|discriminate].
  destruct (completed_ok _ && exists_in _ _); [|discriminate].
  rewrite traffic_generate_routes_run in H.
  destruct (completed_ok _ && exists_in _ TrafficGenerator.ROUTE_FILE) eqn:Hr;
    [|discriminate].
  apply andb_true_iff in Hr. destruct Hr as [_ Hr].
  rewrite traffic_create_additional_file_run in H.
  destruct (can_open_w _ _); [|discriminate].
  rewrite traffic_create_config_file_run in H.
  destruct (can_open_w _ _); [|discriminate].
  injection H as <-. cbn [fs set_fs log].
  split; [|split].
  - apply exists_in_put, exists_in_put, Hr.
  - rewrite content_put_ne by discriminate. apply content_put.
  - apply content_put.
Qed.

Lemma traffic_success_files_witness :
  TrafficGenerator.main Cases.w_traffic_ok
  = (Return 0, snd (TrafficGenerator.main Cases.w_traffic_ok))
  /\ exists_in (fs (snd (TrafficGenerator.main Cases.w_traffic_ok)))
               TrafficGenerator.ROUTE_FILE = true
  /\ content <$> entries (fs (snd (TrafficGenerator.main Cases.w_traffic_ok)))
                 !! TrafficGenerator.CONFIG_FILE
     = Some TrafficGenerator.config_content.
Proof.
  assert (H : TrafficGenerator.main Cases.w_traffic_ok
              = (Return 0, snd (TrafficGenerator.main Cases.w_traffic_ok)))
    by (vm_compute; reflexivity).
  split; [exact H|].
  destruct (traffic_success_files _ _ H) as (H1 & _ & H2).
  split; [exact H1 | exact H2].
Defined.

(** ** The script [sumo_network.py] *)


(** [convert_to_sumo] never raises.  Without the source file nothing is
    run.  When the version probe cannot be started the conversion is not
    started; otherwise, whatever the exit code of the probe, the conversion
    is started and the answer is [True] exactly when it completes with code
    0 and its output file is there. *)
Lemma sumo_convert_to_sumo_run
    (osm_file sumo_net_file : string) (w : World) :
  let probe := ["netconvert"; "--version"] in
  let cmd := SumoNetwork.netconvert_cmd osm_file sumo_net_file in
  let w1 := after_run w probe 5 in
  let w2 := after_run w1 cmd 600 in
  SumoNetwork.convert_to_sumo osm_file sumo_net_file w
  = if exists_in (fs w) osm_file then
      match run_result w probe 5 with
      | Return _ =>
          (Return (completed_ok (run_result w1 cmd 600)
                   && exists_in (fs w2) sumo_net_file), w2)
      | Raise _ => (Return false, w1)
      end
    else (Return false, w).
Proof.
  intros probe cmd w1 w2. subst w2 w1.
  unfold SumoNetwork.convert_to_sumo, after_run, run_result.
  unfold_M. fold probe. fold cmd.
  destruct (exists_in (fs w) osm_file); cbn [negb]; [|reflexivity].
  destruct (exec w probe 5 (fs w)) as [[r0|e0] fs1]; cbn [fst snd];
    [|destruct e0; reflexivity].
  cbn [exec fs set_fs log].
  destruct (exec w cmd 600 fs1) as [[r1|e1] fs2];
    cbn [fst snd completed_ok]; [|destruct e1; reflexivity].
  destruct (returncode r1 =? 0); cbn [andb]; [|reflexivity].
  simpl (fs _). destruct (exists_in fs2 sumo_net_file); reflexivity.
Qed.



(** The first steps of [SumoNetwork.main]: the answer is read and
    stripped. *)
Lemma sumo_main_answer (line : string) (rest : list string) (w : World) :
  strip line <> "2" ->
  SumoNetwork.main (line :: rest) w
  = (if bool_decide (strip line = "1") then
       if exists_in (fs w) SumoNetwork.OSM_FILE then
         match SumoNetwork.convert_to_sumo SumoNetwork.OSM_FILE
                                           SumoNetwork.SUMO_NET_FILE w with
         | (Return true, w') => (Return 0, w')
         | (_, w') => (Return 1, w')
         end
       else (Return 1, w)
     else if bool_decide (strip line = "3") then (Return 0, w)
     else (Return 1, w)).
Proof.
  intros N2. unfold SumoNetwork.main, SumoNetwork.method_manual_download, input.
  unfold try_except at 1. unfold mbind at 1, M_bind at 1.
  unfold mbind at 1, M_bind at 1. unfold mret at 1, M_ret at 1.
  unfold mret at 1, M_ret at 1. cbn [fst snd].
  destruct (bool_decide (strip line = "1")) eqn:E1.
  - unfold mbind at 1, M_bind at 1. unfold mbind at 1, M_bind at 1.
    unfold path_exists at 1.
    destruct (exists_in (fs w) SumoNetwork.OSM_FILE); cbn [negb];
      [|reflexivity].
    unfold mret at 1, M_ret at 1. unfold mbind at 1, M_bind at 1.
    pose proof (sumo_convert_to_sumo_run SumoNetwork.OSM_FILE
                  SumoNetwork.SUMO_NET_FILE w) as C.
    cbv zeta in C. rewrite C.
    destruct (exists_in (fs w) SumoNetwork.OSM_FILE); [|reflexivity].
    destruct (run_result w _ 5); [|reflexivity].
    destruct (completed_ok _ && exists_in _ _); reflexivity.
  - rewrite (bool_decide_eq_false_2 _ N2).
    destruct (bool_decide (strip line = "3")); reflexivity.
Qed.

(** The code returned by [SumoNetwork.main], by the answer read. *)
Lemma sumo_main_outcome (w : World) :
  (forall stdin, exists code w',
      SumoNetwork.main stdin w = (Return code, w') /\ (code = 0 \/ code = 1))
  /\ SumoNetwork.main [] w = (Return 1, w)
  /\ (forall line rest,
        strip line = "3" -> SumoNetwork.main (line :: rest) w = (Return 0, w))
  /\ (forall line rest,
        strip line <> "1" -> strip line <> "2" -> strip line <> "3" ->
        SumoNetwork.main (line :: rest) w = (Return 1, w))
  /\ (forall line rest,
        strip line = "1" ->
        exists answer w',
          SumoNetwork.convert_to_sumo SumoNetwork.OSM_FILE
                                      SumoNetwork.SUMO_NET_FILE w
          = (Return answer, w')
          /\ SumoNetwork.main (line :: rest) w
             = if exists_in (fs w) SumoNetwork.OSM_FILE
               then (Return (if answer then 0 else 1), w')
               else (Return 1, w)).
Proof.
  split; [|split; [|split; [|split]]].
  - intros stdin. unfold SumoNetwork.main, try_except.
    match goal with
    | |- context [match ?body w with _ => _ end] =>
        destruct (body w) as [[code|e] w'] eqn:B
    end.
    2:{ eexists _, _. split; [reflexivity|]. right. reflexivity. }
    exists code, w'. split; [reflexivity|].
    revert B. unfold mbind, M_bind.
    destruct (SumoNetwork.method_manual_download stdin w) as [[[choice s]|?] w0];
      [|discriminate].
    cbn [fst snd].
    destruct (bool_decide (choice = "1")).
    { destruct (path_exists _ w0) as [[[]|?] w1]; cbn [negb];
        unfold mret, M_ret; try discriminate.
      - destruct (SumoNetwork.convert_to_sumo _ _ w1) as [[[]|?] w2];
          cbn [negb]; intros [= <- _]; auto.
      - intros [= <- _]; auto. }
    destruct (bool_decide (choice = "2")).
    { destruct (input s w0) as [[[l s']|?] w1]; [|discriminate]. cbn [fst].
      destruct (path_exists _ w1) as [[[]|?] w2]; cbn [negb];
        unfold mret, M_ret; try discriminate.
      - destruct (SumoNetwork.extract_from_pbf _ w2) as [[[]|?] w3];
          cbn [negb]; try discriminate.
        + destruct (SumoNetwork.convert_to_sumo _ _ w3) as [[[]|?] w4];
            cbn [negb]; intros [= <- _]; auto.
        + intros [= <- _]; auto.
      - intros [= <- _]; auto. }
    destruct (bool_decide (choice = "3")); unfold mret, M_ret;
      intros [= <- _]; auto.
  - reflexivity.
  - intros line rest H.
    rewrite sumo_main_answer by (rewrite H; discriminate).
    rewrite H. reflexivity.
  - intros line rest H1 H2 H3. rewrite sumo_main_answer by assumption.
    rewrite !bool_decide_eq_false_2 by assumption. reflexivity.
  - intros line rest H.
    pose proof (sumo_convert_to_sumo_run SumoNetwork.OSM_FILE
                  SumoNetwork.SUMO_NET_FILE w) as C.
    cbv zeta in C.
    rewrite sumo_main_answer by (rewrite H; discriminate).
    rewrite H, bool_decide_eq_true_2 by reflexivity.
    rewrite C.
    destruct (exists_in (fs w) SumoNetwork.OSM_FILE).
    + destruct (run_result w _ 5).
      * eexists _, _. split; [reflexivity|].
        destruct (completed_ok _ && exists_in _ _); reflexivity.
      * eexists _, _. split; [reflexivity|]. reflexivity.
    + eexists _, _. split; reflexivity.
Qed.

(** Runs of [sumo_network.py] on explicit inputs: the answer is stripped;
    a version probe that exits with code 1 does not stop the conversion; a
    missing [osmium] ends the run before the extraction. *)
Example sumo_runs :
  returned (SumoNetwork.main [" 1 "] Cases.w_probe_exits_one) = Some 0
  /\ exists_in (fs (snd (SumoNetwork.main [" 1 "] Cases.w_probe_exits_one)))
               SumoNetwork.SUMO_NET_FILE = true
  /\ returned (SumoNetwork.main ["2"; "karnataka-latest.osm.pbf"]
                                Cases.w_sumo_ok) = Some 0
  /\ SumoNetwork.main ["2"; "karnataka-latest.osm.pbf"]
                      Cases.w_osmium_missing
     = (Return 1,
        after_run Cases.w_osmium_missing ["osmium"; "--version"] NO_TIMEOUT)
  /\ SumoNetwork.main ["1"] Cases.w_sumo_ok = (Return 1, Cases.w_sumo_ok).
Proof. repeat split; vm_compute; reflexivity. Qed.

(** * The console *)

(** ** A console that takes every text *)

(** On a console that takes every text a [print] does nothing. *)
Lemma print_quiet tty s w : takes_all tty -> print tty s w = (Return tt, w).
Proof. intros H. unfold print, write, mbind, M_bind. rewrite !H. reflexivity. Qed.

Lemma print_lines_quiet tty lines w :
  takes_all tty -> print_lines tty lines w = (Return tt, w).
Proof.
  intros H. induction lines as [|line rest IH]; [reflexivity|].
  cbn [print_lines]. unfold mbind, M_bind. rewrite print_quiet by exact H.
  exact IH.
Qed.

Lemma print_exc_quiet tty lines w :
  takes_all tty -> print_exc tty lines w = (Return tt, w).
Proof.
  intros H. induction lines as [|line rest IH]; [reflexivity|].
  cbn [print_exc]. unfold write, mbind, M_bind. rewrite H. exact IH.
Qed.

(** The size of an entry that is there can be read. *)
Lemma getsize_exists path w :
  exists_in (fs w) path = true -> exists n, getsize path w = (Return n, w).
Proof.
  unfold exists_in, getsize. intros E. apply bool_decide_eq_true in E.
  destruct E as [x ->]. eauto.
Qed.

(** Case analysis on what the outside gives, the writes to the console
    removed. *)
Ltac quiet_step :=
  match goal with
  | |- context [exec ?w ?c ?t ?f] => destruct (exec w c t f) as [[?|[]] ?]
  | |- context [if ?a =? ?b then _ else _] => destruct (a =? b)
  | |- context [if negb (?a =? ?b) then _ else _] => destruct (a =? b)
  | |- context [if exists_in ?f ?p then _ else _] => destruct (exists_in f p) eqn:?
  | |- context [if negb (exists_in ?f ?p) then _ else _] => destruct (exists_in f p) eqn:?
  | |- context [if nonempty ?s then _ else _] => destruct (nonempty s)
  | |- context [if can_open_w ?f ?p then _ else _] => destruct (can_open_w f p)
  end.

Ltac quiet_size :=
  match goal with
  | E : exists_in (fs ?w) ?p = true |- context [getsize ?p ?w] =>
      let n := fresh "n" in
      let S := fresh "S" in
      destruct (getsize_exists p w E) as [n S]; rewrite S; clear S
  end.

Ltac quiet H :=
  repeat (rewrite ?H; cbv beta iota zeta; cbn [negb fst snd];
          first [reflexivity | quiet_size | quiet_step]).

(** On a console that takes every text each function of the area pipeline
    does what the function without the [print] calls does. *)
Lemma convert_to_sumo_quiet tty str_exn osm_file area_name w :
  takes_all tty ->
  ProcessAreasIO.convert_to_sumo tty str_exn osm_file area_name w
  = convert_to_sumo osm_file area_name w.
Proof.
  intros H. unfold ProcessAreasIO.convert_to_sumo, convert_to_sumo, print, write.
  unfold_M. quiet H.
Qed.

Lemma generate_traffic_quiet tty str_exn net_file area_name w :
  takes_all tty ->
  ProcessAreasIO.generate_traffic tty str_exn net_file area_name w
  = generate_traffic net_file area_name w.
Proof.
  intros H. unfold ProcessAreasIO.generate_traffic, generate_traffic, print, write.
  unfold_M. quiet H.
Qed.

Lemma create_config_quiet tty str_exn net_file route_file area_name w :
  takes_all tty ->
  ProcessAreasIO.create_config tty str_exn net_file route_file area_name w
  = create_config net_file route_file area_name w.
Proof.
  intros H. unfold ProcessAreasIO.create_config, create_config, print, write.
  unfold_M. quiet H.
Qed.

Lemma process_area_quiet tty str_exn area w :
  takes_all tty ->
  ProcessAreasIO.process_area tty str_exn area w = process_area area w.
Proof.
  intros H. rewrite process_area_run. cbv zeta.
  unfold ProcessAreasIO.process_area, ProcessAreasIO.failed, attempt, print, write.
  unfold mbind, M_bind, mret, M_ret, path_exists.
  rewrite ?H. cbv beta iota zeta.
  destruct (exists_in (fs w) (osm_file area)); cbn [negb]; [|rewrite ?H; reflexivity].
  rewrite ?H. cbv beta iota zeta.
  rewrite convert_to_sumo_quiet by exact H.
  pose proof (convert_to_sumo_run (osm_file area) (area_name area) w) as Hc.
  cbv zeta in Hc. rewrite Hc. clear Hc.
  destruct (completed_ok _ && exists_in _ _); [|reflexivity].
  rewrite is_falsy_suffix by discriminate.
  rewrite get_network_stats_run.
  set (stats := if can_read _ _ then _ else _).
  destruct stats as [j e]. cbn [fst snd]. rewrite ?H. cbv beta iota zeta.
  rewrite generate_traffic_quiet by exact H.
  match goal with
  | |- context [generate_traffic ?n ?a ?w0] =>
      pose proof (generate_traffic_run n a w0) as Ht
  end.
  cbv zeta in Ht. rewrite Ht. clear Ht.
  destruct (completed_ok _); [|reflexivity].
  destruct (completed_ok _ && exists_in _ _); [|reflexivity].
  rewrite is_falsy_suffix by discriminate.
  rewrite create_config_quiet by exact H.
  match goal with
  | |- context [create_config ?n ?r ?a ?w0] =>
      pose proof (create_config_run n r a w0) as Hk
  end.
  cbv zeta in Hk. rewrite Hk. clear Hk.
  destruct (can_open_w _ _); [|reflexivity].
  destruct (can_open_w _ _); [|reflexivity].
  rewrite is_falsy_suffix by discriminate.
  rewrite ?H. reflexivity.
Qed.

(** The same for the loop over the areas. *)
Lemma process_all_quiet tty str_exn areas : forall i w,
  takes_all tty ->
  ProcessAreasIO.process_all tty str_exn i areas w = process_all areas w.
Proof.
  induction areas as [|area rest IH]; intros i w H; [reflexivity|].
  cbn [ProcessAreasIO.process_all process_all].
  unfold print, write, mbind, M_bind, mret, M_ret, results_append.
  rewrite !H, process_area_quiet by exact H.
  destruct (process_area area w) as [[r|e] w1]; [|reflexivity].
  apply IH, H.
Qed.

(** The same for the report and for [main]. *)
Lemma generate_final_report_quiet tty w :
  takes_all tty ->
  ProcessAreasIO.generate_final_report tty w = generate_final_report w.
Proof.
  intros H. unfold ProcessAreasIO.generate_final_report, generate_final_report.
  unfold mbind, M_bind, mret, M_ret.
  destruct (with_open_w _ _ w) as [[[]|e] w0]; [|reflexivity].
  rewrite print_quiet by exact H. reflexivity.
Qed.

Lemma main_quiet tty str_exn w :
  takes_all tty -> ProcessAreasIO.main tty str_exn w = main w.
Proof.
  intros H. unfold ProcessAreasIO.main, main.
  unfold mbind, M_bind, mret, M_ret, gets, now.
  rewrite !print_quiet, process_all_quiet by exact H.
  destruct (process_all AREAS w) as [[[]|e] w0]; [|reflexivity].
  rewrite !print_quiet, generate_final_report_quiet by exact H.
  destruct (generate_final_report w0) as [[report|e] w1]; [|reflexivity].
  rewrite !print_quiet by exact H. reflexivity.
Qed.

(** The same for the functions of [traffic_generator.py]. *)
Lemma traffic_check_files_quiet tty w :
  takes_all tty ->
  TrafficGeneratorIO.check_files tty w = TrafficGenerator.check_files w.
Proof.
  intros H. unfold TrafficGeneratorIO.check_files, TrafficGenerator.check_files, print, write.
  unfold_M. quiet H.
Qed.

Lemma traffic_generate_random_trips_quiet tty str_exn w :
  takes_all tty ->
  TrafficGeneratorIO.generate_random_trips tty str_exn w
  = TrafficGenerator.generate_random_trips w.
Proof.
  intros H.
  unfold TrafficGeneratorIO.generate_random_trips,
    TrafficGenerator.generate_random_trips, print, write.
  unfold_M. quiet H.
Qed.

Lemma traffic_generate_routes_quiet tty str_exn w :
  takes_all tty ->
  TrafficGeneratorIO.generate_routes tty str_exn w
  = TrafficGenerator.generate_routes w.
Proof.
  intros H.
  unfold TrafficGeneratorIO.generate_routes,
    TrafficGenerator.generate_routes, print, write.
  unfold_M. quiet H.
Qed.

Lemma traffic_create_additional_file_quiet tty str_exn w :
  takes_all tty ->
  TrafficGeneratorIO.create_additional_file tty str_exn w
  = TrafficGenerator.create_additional_file w.
Proof.
  intros H.
  unfold TrafficGeneratorIO.create_additional_file,
    TrafficGenerator.create_additional_file, print, write.
  unfold_M. quiet H.
Qed.

Lemma traffic_create_config_file_quiet tty str_exn w :
  takes_all tty ->
  TrafficGeneratorIO.create_config_file tty str_exn w
  = TrafficGenerator.create_config_file w.
Proof.
  intros H.
  unfold TrafficGeneratorIO.create_config_file,
    TrafficGenerator.create_config_file, print, write.
  unfold_M. quiet H.
Qed.

Lemma traffic_main_quiet tty str_exn traceback w :
  takes_all tty ->
  TrafficGeneratorIO.main tty str_exn traceback w = TrafficGenerator.main w.
Proof.
  intros H.
  unfold TrafficGeneratorIO.main, TrafficGenerator.main,
    TrafficGeneratorIO.print_summary, TrafficGenerator.print_summary.
  unfold try_except, mbind, M_bind, mret, M_ret.
  rewrite !print_quiet by exact H.
  rewrite traffic_check_files_quiet by exact H.
  destruct (TrafficGenerator.check_files w) as [[[]|e] w0]; cbn [negb];
    rewrite ?print_quiet, ?print_exc_quiet by exact H; try reflexivity.
  rewrite traffic_generate_random_trips_quiet by exact H.
  destruct (TrafficGenerator.generate_random_trips w0) as [[[]|e] w1]; cbn [negb];
    rewrite ?print_quiet, ?print_exc_quiet by exact H; try reflexivity.
  rewrite traffic_generate_routes_quiet by exact H.
  destruct (TrafficGenerator.generate_routes w1) as [[[]|e] w2]; cbn [negb];
    rewrite ?print_quiet, ?print_exc_quiet by exact H; try reflexivity.
  rewrite traffic_create_additional_file_quiet by exact H.
  destruct (TrafficGenerator.create_additional_file w2) as [[[]|e] w3]; cbn [negb];
    rewrite ?print_quiet, ?print_exc_quiet by exact H; try reflexivity.
  rewrite traffic_create_config_file_quiet by exact H.
  destruct (TrafficGenerator.create_config_file w3) as [[[]|e] w4]; cbn [negb];
    rewrite ?print_quiet, ?print_lines_quiet, ?print_exc_quiet by exact H;
    reflexivity.
Qed.

(** The same for the functions of [sumo_network.py]. *)
Lemma sumo_method_manual_download_quiet tty stdin w :
  takes_all tty ->
  SumoNetworkIO.method_manual_download tty stdin w
  = SumoNetwork.method_manual_download stdin w.
Proof.
  intros H.
  unfold SumoNetworkIO.method_manual_download,
    SumoNetwork.method_manual_download, input_prompt, write.
  unfold mbind, M_bind. rewrite print_lines_quiet, H by exact H.
  reflexivity.
Qed.

Lemma sumo_extract_from_pbf_quiet tty str_exn pbf_file w :
  takes_all tty ->
  SumoNetworkIO.extract_from_pbf tty str_exn pbf_file w
  = SumoNetwork.extract_from_pbf pbf_file w.
Proof.
  intros H.
  unfold SumoNetworkIO.extract_from_pbf, SumoNetwork.extract_from_pbf,
    print, write.
  unfold_M. rewrite ?H. cbv beta iota zeta.
  destruct (SumoNetwork.check_osmium w) as [[[]|e] w0]; quiet H.
Qed.

Lemma sumo_convert_to_sumo_quiet tty str_exn osm_file sumo_net_file w :
  takes_all tty ->
  SumoNetworkIO.convert_to_sumo tty str_exn osm_file sumo_net_file w
  = SumoNetwork.convert_to_sumo osm_file sumo_net_file w.
Proof.
  intros H.
  unfold SumoNetworkIO.convert_to_sumo, SumoNetwork.convert_to_sumo,
    print, write.
  unfold_M. quiet H.
Qed.

Lemma sumo_main_quiet tty str_exn traceback stdin w :
  takes_all tty ->
  SumoNetworkIO.main tty str_exn traceback stdin w = SumoNetwork.main stdin w.
Proof.
  intros H.
  unfold SumoNetworkIO.main, SumoNetwork.main, input_prompt, write.
  unfold try_except, mbind, M_bind, mret, M_ret, path_exists.
  rewrite !print_quiet by exact H.
  rewrite sumo_method_manual_download_quiet by exact H.
  destruct (SumoNetwork.method_manual_download stdin w) as [[[choice s]|e] w0];
    cbn [fst snd];
    [|rewrite print_quiet, print_exc_quiet by exact H; reflexivity].
  destruct (bool_decide (choice = "1")).
  { destruct (exists_in (fs w0) SumoNetwork.OSM_FILE); cbn [negb];
      rewrite !print_quiet by exact H; [|reflexivity].
    rewrite sumo_convert_to_sumo_quiet by exact H.
    destruct (SumoNetwork.convert_to_sumo _ _ w0) as [[[]|e] w1]; cbn [negb];
      rewrite ?print_quiet, ?print_lines_quiet, ?print_exc_quiet by exact H;
      reflexivity. }
  destruct (bool_decide (choice = "2")).
  { rewrite H.
    destruct (input s w0) as [[[line s']|e] w1]; cbn [fst snd];
      [|rewrite print_quiet, print_exc_quiet by exact H; reflexivity].
    destruct (exists_in (fs w1) (strip line)); cbn [negb];
      rewrite ?print_quiet by exact H; [|reflexivity].
    rewrite sumo_extract_from_pbf_quiet by exact H.
    destruct (SumoNetwork.extract_from_pbf _ w1) as [[[]|e] w2]; cbn [negb];
      rewrite ?print_quiet, ?print_exc_quiet by exact H; try reflexivity.
    rewrite sumo_convert_to_sumo_quiet by exact H.
    destruct (SumoNetwork.convert_to_sumo _ _ w2) as [[[]|e] w3]; cbn [negb];
      rewrite ?print_quiet, ?print_lines_quiet, ?print_exc_quiet by exact H;
      reflexivity. }
  destruct (bool_decide (choice = "3"));
    rewrite !print_quiet by exact H; reflexivity.
Qed.

(** ** The failures of a run *)



(** ** Any console *)

(** Case analysis on every result met on the way. *)
Ltac split_run :=
  repeat (cbv beta iota zeta;
          match goal with
          | |- context [match ?x with _ => _ end] => destruct x
          end).

(** Whatever the console does, a record returned by [process_area] has
    100 vehicles. *)
Lemma process_area_vehicles tty str_exn area w r w' :
  ProcessAreasIO.process_area tty str_exn area w = (Return r, w') ->
  vehicles r = 100.
Proof.
  unfold ProcessAreasIO.process_area, ProcessAreasIO.failed, attempt.
  unfold mbind, M_bind, mret, M_ret, path_exists.
  split_run; intros [= <- _]; reflexivity.
Qed.

(** A [print] returns or raises, and leaves the world as it is. *)
Lemma print_cases tty s w :
  print tty s w = (Return tt, w) \/ exists e, print tty s w = (Raise e, w).
Proof.
  unfold print, write, mbind, M_bind, mret, M_ret, raise.
  destruct (tty sys_stdout s); [right; eauto|].
  destruct (tty sys_stdout LF); [right; eauto|left; reflexivity].
Qed.

(** Case analysis on what the outside and the console give. *)
Ltac io_step :=
  match goal with
  | |- context [match ?t sys_stdout ?s with _ => _ end] =>
      destruct (t sys_stdout s)
  | _ => quiet_step
  end.

Ltac split_io := repeat (cbv beta iota zeta; cbn [negb fst snd]; io_step).

(** The only file name [convert_to_sumo] gives is the network file of the
    area. *)
Lemma convert_to_sumo_gives tty str_exn osm_file area_name w net_file w1 :
  ProcessAreasIO.convert_to_sumo tty str_exn osm_file area_name w
  = (Return (Some net_file), w1) ->
  net_file = lower area_name +:+ ".net.xml".
Proof.
  unfold ProcessAreasIO.convert_to_sumo, print, write.
  unfold_M. split_io; intros E; try discriminate E; inversion E; reflexivity.
Qed.

(** A [print] on the way of a run that returned has returned. *)
Ltac pass_print :=
  match goal with
  | |- context [print ?tty ?s ?w] =>
      let P := fresh "P" in
      destruct (print_cases tty s w) as [P|[? P]]; rewrite P; clear P;
      cbv beta iota zeta; [|discriminate]
  end.

(** Whatever the console does, a record returned once the counts were
    measured carries them. *)
Lemma process_area_counts_kept tty str_exn area w net_file w1 j e w2 r w' :
  exists_in (fs w) (osm_file area) = true ->
  ProcessAreasIO.convert_to_sumo tty str_exn (osm_file area) (area_name area) w
  = (Return (Some net_file), w1) ->
  get_network_stats net_file w1 = (Return (j, e), w2) ->
  ProcessAreasIO.process_area tty str_exn area w = (Return r, w') ->
  junctions r = j /\ edges r = e.
Proof.
  intros Hsrc Hc Hs.
  pose proof (convert_to_sumo_gives _ _ _ _ _ _ _ Hc) as ->.
  unfold ProcessAreasIO.process_area, ProcessAreasIO.failed, attempt.
  unfold mbind, M_bind, mret, M_ret, path_exists.
  do 3 pass_print. rewrite Hsrc. cbn [negb]. pass_print.
  rewrite Hc. rewrite is_falsy_suffix by discriminate. rewrite Hs.
  cbn [fst snd].
  split_run; intros [= <- _]; split; reflexivity.
Qed.

(** ** The exceptions that leave a function *)

(** An exception that leaves a [print] is one the console raised. *)
Lemma print_refused tty s w e w' :
  print tty s w = (Raise e, w') -> refused tty e.
Proof.
  unfold print, write, mbind, M_bind, mret, M_ret, raise.
  destruct (tty sys_stdout s) eqn:A; [intros [= <- _]; eexists _, _; exact A|].
  destruct (tty sys_stdout LF) eqn:B; [|discriminate].
  intros [= <- _]; eexists _, _; exact B.
Qed.

Lemma print_exc_refused tty lines : forall w e w',
  print_exc tty lines w = (Raise e, w') -> refused tty e.
Proof.
  induction lines as [|line rest IH]; intros w e w'; [discriminate|].
  cbn [print_exc]. unfold write, mbind, M_bind, mret, M_ret, raise.
  destruct (tty sys_stderr line) eqn:A; [intros [= <- _]; eexists _, _; exact A|].
  apply IH.
Qed.

(** A [try] block returns what its body returned, or ends as its handler
    does. *)
Lemma try_except_cases {A} (body : M A) (handler : exn -> M A) (w : World) :
  (exists a w', try_except body handler w = (Return a, w'))
  \/ (exists e w', try_except body handler w = handler e w').
Proof.
  unfold try_except. destruct (body w) as [[a|e] w']; eauto.
Qed.

Lemma attempt_returns {A} (body : M A) (w : World) :
  exists x w', attempt body w = (Return x, w').
Proof. unfold attempt. destruct (body w) as [[a|e] w']; eauto. Qed.

(** Case analysis along a function, the bodies of its [try] blocks taken
    as a whole. *)
Ltac escape_step :=
  match goal with
  | |- context [print ?t ?s ?w] =>
      destruct (print t s w) as [[[]|?] ?] eqn:?
  | |- context [print_exc ?t ?l ?w] =>
      destruct (print_exc t l w) as [[[]|?] ?] eqn:?
  | |- context [try_except ?b ?h ?w] =>
      let E := fresh in
      destruct (try_except_cases b h w) as [(? & ? & E)|(? & ? & E)];
      rewrite E; clear E
  | |- context [attempt ?b ?w] =>
      let E := fresh in
      destruct (attempt_returns b w) as (? & ? & E); rewrite E; clear E
  | E : exists_in (fs ?w) ?p = true |- context [getsize ?p ?w] =>
      let S := fresh in
      destruct (getsize_exists p w E) as [? S]; rewrite S; clear S
  | |- context [if negb (exists_in ?f ?p) then _ else _] =>
      destruct (exists_in f p) eqn:?
  | |- context [match ?x with _ => _ end] =>
      lazymatch x with
      | context [match _ with _ => _ end] => fail
      | _ => destruct x
      end
  end.

Ltac split_escape := repeat (cbv beta iota zeta; cbn [negb]; escape_step).

Ltac escaped :=
  let E := fresh "E" in
  intros E; try discriminate E; injection E as <- _;
  first [ eapply print_refused; eassumption
        | eapply print_exc_refused; eassumption ].



Lemma traffic_main_raises tty str_exn traceback w e w' :
  TrafficGeneratorIO.main tty str_exn traceback w = (Raise e, w') ->
  refused tty e.
Proof.
  unfold TrafficGeneratorIO.main.
  unfold mbind, M_bind, mret, M_ret, raise.
  split_escape; escaped.
Qed.


Lemma sumo_main_raises tty str_exn traceback stdin w e w' :
  SumoNetworkIO.main tty str_exn traceback stdin w = (Raise e, w') ->
  refused tty e.
Proof.
  unfold SumoNetworkIO.main.
  unfold mbind, M_bind, mret, M_ret, raise.
  split_escape; escaped.
Qed.

(** ** The area pipeline and the console *)




(** The failure left out above: the trip tool exits with code 0 and leaves
    no trips file, and the record is a Success. *)
Example trips_failure_not_recorded :
  first_failure indiranagar w_trips_no_output
  = Some (MissingArtifact SynthesizeTrips)
  /\ returned (ProcessAreasIO.process_area Cases.accepting Cases.str_exn
                                           indiranagar w_trips_no_output)
     = Some (mk_AreaResult "Indiranagar" "Success" 2 1 100).
Proof. split; vm_compute; reflexivity. Qed.

(** ** The fields of the record *)

(** C10.  Whatever the console does, every record returned by
    [process_area] has 100 vehicles, and a record returned once the counts
    [j] and [e] were measured on the network file carries them, whatever
    its status and whichever later step failed.  On a console that takes
    every text: when the trip tool or the router fails after the counts
    were measured, the record is Failed with [j] junctions and [e] edges,
    and so it is when the configuration cannot be written.  There are such
    runs with counts that are not zero: the router runs out of time; the
    configuration file cannot be overwritten. *)
Theorem vehicles_fixed_counts_kept :
  (forall tty str_exn area w r w',
      ProcessAreasIO.process_area tty str_exn area w = (Return r, w') ->
      vehicles r = 100)
  /\ (forall tty str_exn area w net_file w1 j e w2 r w',
        exists_in (fs w) (osm_file area) = true ->
        ProcessAreasIO.convert_to_sumo tty str_exn (osm_file area)
                                       (area_name area) w
        = (Return (Some net_file), w1) ->
        get_network_stats net_file w1 = (Return (j, e), w2) ->
        ProcessAreasIO.process_area tty str_exn area w = (Return r, w') ->
        junctions r = j /\ edges r = e)
  /\ (forall tty str_exn area w net_file w1 j e w2 w3,
        takes_all tty ->
        exists_in (fs w) (osm_file area) = true ->
        ProcessAreasIO.convert_to_sumo tty str_exn (osm_file area)
                                       (area_name area) w
        = (Return (Some net_file), w1) ->
        get_network_stats net_file w1 = (Return (j, e), w2) ->
        ProcessAreasIO.generate_traffic tty str_exn net_file (area_name area)
                                        w2
        = (Return None, w3) ->
        ProcessAreasIO.process_area tty str_exn area w
        = (Return (mk_AreaResult (area_name area) "Failed" j e 100), w3))
  /\ (forall tty str_exn area w net_file w1 j e w2 route_file w3 w4,
        takes_all tty ->
        exists_in (fs w) (osm_file area) = true ->
        ProcessAreasIO.convert_to_sumo tty str_exn (osm_file area)
                                       (area_name area) w
        = (Return (Some net_file), w1) ->
        get_network_stats net_file w1 = (Return (j, e), w2) ->
        ProcessAreasIO.generate_traffic tty str_exn net_file (area_name area)
                                        w2
        = (Return (Some route_file), w3) ->
        ProcessAreasIO.create_config tty str_exn net_file route_file
                                     (area_name area) w3
        = (Return None, w4) ->
        ProcessAreasIO.process_area tty str_exn area w
        = (Return (mk_AreaResult (area_name area) "Failed" j e 100), w4))
  /\ returned (ProcessAreasIO.process_area Cases.accepting Cases.str_exn
                                           indiranagar w_routes_timeout)
     = Some (mk_AreaResult "Indiranagar" "Failed" 2 1 100)
  /\ returned (ProcessAreasIO.process_area Cases.accepting Cases.str_exn
                                           indiranagar w_config_locked)
     = Some (mk_AreaResult "Indiranagar" "Failed" 2 1 100).
Proof.
  split; [|split; [|split; [|split; [|split]]]].
  - intros tty str_exn area w r w'. apply process_area_vehicles.
  - intros tty str_exn area w net_file w1 j e w2 r w'.
    apply process_area_counts_kept.
  - intros tty str_exn area w net_file w1 j e w2 w3 H Hsrc Hc Hs Ht.
    rewrite convert_to_sumo_quiet in Hc by exact H.
    rewrite generate_traffic_quiet in Ht by exact H.
    rewrite process_area_quiet, process_area_run by exact H.
    cbv zeta. rewrite Hsrc, Hc, Hs, Ht. reflexivity.
  - intros tty str_exn area w net_file w1 j e w2 route_file w3 w4
           H Hsrc Hc Hs Ht Hk.
    rewrite convert_to_sumo_quiet in Hc by exact H.
    rewrite generate_traffic_quiet in Ht by exact H.
    rewrite create_config_quiet in Hk by exact H.
    rewrite process_area_quiet, process_area_run by exact H.
    cbv zeta. rewrite Hsrc, Hc, Hs, Ht, Hk. reflexivity.
  - vm_compute. reflexivity.
  - vm_compute. reflexivity.
Qed.

(** ** The loop over the areas and the console *)



(** On a standard output encoded in ASCII the loop ends at the first area,
    with the exception of the first message that cannot be written, and no
    record is appended. *)
Example loop_stops_at_refused_message :
  ProcessAreasIO.process_all Cases.ascii_only Cases.str_exn 1 AREAS w_all_ok
  = (Raise (OtherException "UnicodeEncodeError"), w_all_ok).
Proof. vm_compute. reflexivity. Qed.

(** ** [traffic_generator.py] and the console *)

(** X11.  On a console that takes every text [TrafficGeneratorIO.main],
    with its [print] calls, never raises; it returns 0 when every step
    passes (the network file and the script are there, each tool completes
    with code 0 and leaves its output, both files can be written) and 1
    otherwise.  Whatever the console does, an exception that leaves [main]
    is one that a write to the console raised. *)
Theorem traffic_main_exit_code
    (tty : console) (str_exn : exn -> string)
    (traceback : exn -> list string) (w : World) :
  (takes_all tty ->
   exists code w',
     TrafficGeneratorIO.main tty str_exn traceback w = (Return code, w')
     /\ code = (if traffic_run_succeeds w then 0 else 1))
  /\ (forall e w',
        TrafficGeneratorIO.main tty str_exn traceback w = (Raise e, w') ->
        refused tty e).
Proof.
  split; [|intros e w'; apply traffic_main_raises].
  intros H. rewrite traffic_main_quiet by exact H. apply traffic_main_outcome.
Qed.

Lemma traffic_main_exit_code_witness :
  takes_all Cases.accepting
  /\ traffic_run_succeeds Cases.w_traffic_no_trips = false
  /\ exists code w',
       TrafficGeneratorIO.main Cases.accepting Cases.str_exn Cases.traceback
                               Cases.w_traffic_no_trips
       = (Return code, w')
       /\ code = 1.
Proof.
  split; [intros f s; reflexivity|]. split; [reflexivity|].
  apply (proj1 (traffic_main_exit_code Cases.accepting Cases.str_exn
                  Cases.traceback Cases.w_traffic_no_trips)).
  intros f s. reflexivity.
Defined.

(** On a standard output encoded in ASCII the run of a directory without
    the network file raises: the message of [check_files] cannot be
    written, and neither can the message of the handler of [main]. *)
Example traffic_main_raises_on_ascii_console :
  TrafficGeneratorIO.main Cases.ascii_only Cases.str_exn Cases.traceback
                          w_missing
  = (Raise (OtherException "UnicodeEncodeError"), w_missing).
Proof. vm_compute. reflexivity. Qed.

(** ** [sumo_network.py] and the console *)



(** X17.  On a console that takes every text [SumoNetworkIO.main], with
    its [print] calls, never raises and returns 0 or 1.  Without an answer
    on the standard input, or with an answer that is not 1, 2 or 3 once
    stripped of its white space, it returns 1 and touches nothing; with the
    answer 3 it returns 0 and touches nothing; with the answer 1 it returns
    1 when the file [electronic_city.osm] is missing, and otherwise 0
    exactly when [convert_to_sumo] answers [True].  Whatever the console
    does, an exception that leaves [main] is one that a write to the
    console raised. *)
Theorem sumo_main_choices
    (tty : console) (str_exn : exn -> string)
    (traceback : exn -> list string) (w : World) :
  (takes_all tty ->
   (forall stdin, exists code w',
       SumoNetworkIO.main tty str_exn traceback stdin w = (Return code, w')
       /\ (code = 0 \/ code = 1))
   /\ SumoNetworkIO.main tty str_exn traceback [] w = (Return 1, w)
   /\ (forall line rest,
         strip line = "3" ->
         SumoNetworkIO.main tty str_exn traceback (line :: rest) w
         = (Return 0, w))
   /\ (forall line rest,
         strip line <> "1" -> strip line <> "2" -> strip line <> "3" ->
         SumoNetworkIO.main tty str_exn traceback (line :: rest) w
         = (Return 1, w))
   /\ (forall line rest,
         strip line = "1" ->
         exists answer w',
           SumoNetworkIO.convert_to_sumo tty str_exn SumoNetwork.OSM_FILE
                                         SumoNetwork.SUMO_NET_FILE w
           = (Return answer, w')
           /\ SumoNetworkIO.main tty str_exn traceback (line :: rest) w
              = if exists_in (fs w) SumoNetwork.OSM_FILE
                then (Return (if answer then 0 else 1), w')
                else (Return 1, w)))
  /\ (forall stdin e w',
        SumoNetworkIO.main tty str_exn traceback stdin w = (Raise e, w') ->
        refused tty e).
Proof.
  split; [|intros stdin e w'; apply sumo_main_raises].
  intros T. destruct (sumo_main_outcome w) as (A & B & C & D & E).
  split; [|split; [|split; [|split]]].
  - intros stdin. rewrite sumo_main_quiet by exact T. apply A.
  - rewrite sumo_main_quiet by exact T. exact B.
  - intros line rest H. rewrite sumo_main_quiet by exact T. apply C, H.
  - intros line rest H1 H2 H3. rewrite sumo_main_quiet by exact T.
    apply D; assumption.
  - intros line rest H.
    rewrite sumo_main_quiet, sumo_convert_to_sumo_quiet by exact T.
    apply E, H.
Qed.

Lemma sumo_main_choices_witness :
  takes_all Cases.accepting
  /\ SumoNetworkIO.main Cases.accepting Cases.str_exn Cases.traceback
       [utf8 [194; 160]%nat +:+ "3" +:+ utf8 [194; 160]%nat] Cases.w_sumo_ok
     = (Return 0, Cases.w_sumo_ok).
Proof.
  split; [intros f s; reflexivity|].
  destruct (proj1 (sumo_main_choices Cases.accepting Cases.str_exn
                     Cases.traceback Cases.w_sumo_ok))
    as (_ & _ & H & _); [intros f s; reflexivity|].
  apply H. vm_compute. reflexivity.
Defined.
